(** * MvMM-RegNet: the 2-D multi-atlas segmentation model and its trainer

    A shallow embedding of [src_2d/core/model_2d_ddf_mvmm_label_base.py]:
    the class [UnifiedMultiAtlasSegNet] (graph construction from the keyword
    dictionaries, the loss dispatch of [_get_cost], the warping helpers) and
    the graph-building part of [Trainer] ([_get_optimizer], [_initialize]).

    Conventions of the embedding.
    - Python values that travel through the keyword dictionaries are [pyval];
      the dictionaries are [gmap string pyval]; Python exceptions are [exn] and
      fallible code lives in the [result] monad.
    - A float32 tensor is the list of its entries over [Q] (exact arithmetic,
      rounding, NaN and infinities are outside the model). A tensor with an
      atlas axis is kept as the list of its slices along that axis, so that
      [x[..., n, :]] is the [n]-th element and [tf.stack(..., axis=-2)] is the
      list itself.
    - A graph node is a function of the run environment (placeholder feeds and
      the global step): evaluating a node asks only for the placeholders it
      depends on, as [sess.run] does.
    - The collaborators imported from [core.networks_2d], [core.losses_2d],
      [core.metrics_2d], [core.utils_2d] and shape-dependent TensorFlow
      primitives are the fields of the class [Externals]. *)

From Stdlib Require Import QArith Qabs Qround.
From stdpp Require Import gmap strings list fin_maps.

Local Open Scope Z_scope.

(** ** Python values, exceptions and the error monad *)

#[warnings="-register-all"]
Inductive pyval : Type :=
  | VNone
  | VBool (b : bool)
  | VInt (z : Z)
  | VFloat (q : Q)
  | VStr (s : string)
  | VTuple (l : list pyval).

Inductive exn : Type :=
  | TypeError
  | KeyError (key : string)
  | IndexError
  | ValueError (msg : string)
  | NotImplementedError
  | ZeroDivisionError
  | AttributeError (attr : string)
  | InvalidArgumentError (placeholder : string).

Inductive result (A : Type) : Type :=
  | Ok (a : A)
  | Raise (e : exn).
Arguments Ok {A} a.
Arguments Raise {A} e.

#[global] Instance result_ret : MRet result := fun _ a => Ok a.
#[global] Instance result_bind : MBind result := fun _ _ f m =>
  match m with
  | Ok a => f a
  | Raise e => Raise e
  end.

Definition raises {A} (m : result A) : Prop := exists e, m = Raise e.

(** A keyword dictionary. *)
Abbreviation kwargs := (gmap string pyval).

(** [d.get(k, dflt)] *)
Definition dict_get (d : kwargs) (k : string) (dflt : pyval) : pyval :=
  default dflt (d !! k).

(** [d[k]] *)
Definition dict_getitem (d : kwargs) (k : string) : result pyval :=
  match d !! k with
  | Some v => Ok v
  | None => Raise (KeyError k)
  end.

(** [d.pop(k, dflt)]: the value and the dictionary without the key. *)
Definition dict_pop (d : kwargs) (k : string) (dflt : pyval) : pyval * kwargs :=
  (default dflt (d !! k), delete k d).

(** [d.pop(k)] *)
Definition dict_pop_strict (d : kwargs) (k : string) : result (pyval * kwargs) :=
  match d !! k with
  | Some v => Ok (v, delete k d)
  | None => Raise (KeyError k)
  end.

(** Truth value of a Python object. *)
Definition py_truthy (v : pyval) : bool :=
  match v with
  | VNone => false
  | VBool b => b
  | VInt z => negb (z =? 0)
  | VFloat q => negb (Qnum q =? 0)
  | VStr s => negb (String.eqb s "")
  | VTuple l => negb (Nat.eqb (length l) 0)
  end.

(** [v == 'literal'] *)
Definition py_eq_str (v : pyval) (s : string) : bool :=
  match v with
  | VStr s' => String.eqb s' s
  | _ => false
  end.

(** [v in (s1, s2, ...)] for a tuple of string literals. *)
Definition py_in_strs (v : pyval) (l : list string) : bool :=
  existsb (py_eq_str v) l.

Fixpoint is_substring (needle hay : string) : bool :=
  String.prefix needle hay ||
  match hay with
  | EmptyString => false
  | String _ rest => is_substring needle rest
  end.

(** ['literal' in v]: substring test on a string, membership on a tuple,
    and a TypeError on anything that is not a container. *)
Definition py_str_in (needle : string) (v : pyval) : result bool :=
  match v with
  | VStr s => Ok (is_substring needle s)
  | VTuple l => Ok (existsb (fun x => py_eq_str x needle) l)
  | _ => Raise TypeError
  end.

(** [v[i]] for a non-negative literal index. *)
Definition py_getitem (v : pyval) (i : nat) : result pyval :=
  match v with
  | VTuple l =>
      match l !! i with
      | Some x => Ok x
      | None => Raise IndexError
      end
  | VStr s =>
      match String.get i s with
      | Some c => Ok (VStr (String c EmptyString))
      | None => Raise IndexError
      end
  | _ => Raise TypeError
  end.

(** [len(v)] *)
Definition py_len (v : pyval) : result nat :=
  match v with
  | VTuple l => Ok (length l)
  | VStr s => Ok (String.length s)
  | _ => Raise TypeError
  end.

(** A Python number used where TensorFlow expects a float scalar. *)
Definition py_float (v : pyval) : result Q :=
  match v with
  | VInt z => Ok (inject_Z z)
  | VFloat q => Ok q
  | _ => Raise TypeError
  end.

(** A Python integer ([bool] is a subclass of [int]). *)
Definition py_int (v : pyval) : result Z :=
  match v with
  | VInt z => Ok z
  | VBool b => Ok (if b then 1 else 0)
  | _ => Raise TypeError
  end.

(** ['{:.2e}'.format(v)] and the like: a float presentation type accepts
    numbers only. *)
Definition py_format_float (v : pyval) : result unit :=
  match v with
  | VInt _ | VFloat _ | VBool _ => Ok tt
  | VStr _ => Raise (ValueError "format")
  | _ => Raise TypeError
  end.

(** ['{:d}'.format(v)]: integers only. *)
Definition py_format_int (v : pyval) : result unit :=
  match v with
  | VInt _ | VBool _ => Ok tt
  | VFloat _ | VStr _ => Raise (ValueError "format")
  | _ => Raise TypeError
  end.

(** ** Tensors *)

Definition tensor : Type := list Q.
Definition stacked : Type := list tensor.

Definition tensor_map (f : Q -> Q) (t : tensor) : tensor := map f t.
Definition tensor_zip (f : Q -> Q -> Q) (a b : tensor) : tensor := zip_with f a b.
Definition stacked_map (f : Q -> Q) (s : stacked) : stacked := map (tensor_map f) s.
Definition stacked_zip (f : Q -> Q -> Q) (a b : stacked) : stacked :=
  zip_with (tensor_zip f) a b.

Definition tf_square (x : Q) : Q := (x * x)%Q.
Definition tf_abs (x : Q) : Q := Qabs x.

Definition tensor_sum (t : tensor) : Q := fold_right Qplus 0%Q t.

(** [tf.reduce_mean(t)] over every entry of a tensor. *)
Definition reduce_mean (t : tensor) : Q :=
  (tensor_sum t / inject_Z (Z.of_nat (length t)))%Q.

(** [tf.reduce_mean] over every entry of a tensor given by its atlas slices
    (also of a Python list of equally shaped tensors, which TensorFlow
    packs into one tensor first). *)
Definition reduce_mean_stacked (s : stacked) : Q := reduce_mean (concat s).

(** [tf.less_equal(x, 0)] followed by [tf.math.count_nonzero(., dtype=float32)]
    on a scalar. *)
Definition count_nonzero_less_equal_0 (x : Q) : Q :=
  if Qle_bool x 0 then 1%Q else 0%Q.

(** [tf.stack(values, axis)] for [axis <> 0]: TensorFlow reads [values[0]]
    for the shape, so an empty Python list raises IndexError. *)
Definition tf_stack {A} (values : list A) : result (list A) :=
  match values with
  | [] => Raise IndexError
  | _ => Ok values
  end.

(** [x[..., n, :]] on a tensor kept as its atlas slices. *)
Definition atlas_slice (x : stacked) (n : nat) : result tensor :=
  match x !! n with
  | Some t => Ok t
  | None => Raise IndexError
  end.

(** [l[i]] on a Python list. *)
Definition list_getitem {A} (l : list A) (i : nat) : result A :=
  match l !! i with
  | Some x => Ok x
  | None => Raise IndexError
  end.

(** ** Placeholders and graph nodes *)

Record run_env : Type := {
  feed_target_image : option tensor;
  feed_target_label : option tensor;
  feed_target_weight : option tensor;
  feed_atlases_image : option stacked;
  feed_atlases_label : option stacked;
  feed_atlases_weight : option stacked;
  feed_train_phase : option bool;
  feed_dropout_rate : option Q;
  global_step : Z
}.

Definition node (A : Type) : Type := run_env -> result A.

Definition constant {A} (a : A) : node A := fun _ => Ok a.

(** A placeholder without a default: fetching a node that depends on it
    without feeding it is an error of the session. *)
Definition placeholder {A} (name : string) (get : run_env -> option A) : node A :=
  fun env =>
    match get env with
    | Some v => Ok v
    | None => Raise (InvalidArgumentError name)
    end.

(** A placeholder of shape [[None, nx, ny, n_atlas, c]]: the feed must have
    [n_atlas] slices along the atlas axis. *)
Definition placeholder_atlases (n_atlas : nat) (name : string)
    (get : run_env -> option stacked) : node stacked :=
  fun env =>
    match get env with
    | Some v => if Nat.eqb (length v) n_atlas then Ok v else Raise (ValueError name)
    | None => Raise (InvalidArgumentError name)
    end.

(** Evaluate a Python list of nodes into the list of their values. *)
Fixpoint eval_nodes {A} (ns : list (node A)) (env : run_env) : result (list A) :=
  match ns with
  | [] => Ok []
  | n :: rest =>
      v ← n env;
      vs ← eval_nodes rest env;
      Ok (v :: vs)
  end.

(** [tf.stack([...], axis=-2)] over a Python list of nodes. *)
Definition stack_nodes (ns : list (node tensor)) : result (node stacked) :=
  ns' ← tf_stack ns;
  Ok (eval_nodes ns').

(** The dictionaries [self.data] and [self.augmented_data]. *)
Record Data : Type := {
  target_image : node tensor;
  target_label : node tensor;
  target_weight : node tensor;
  atlases_image : node stacked;
  atlases_label : node stacked;
  atlases_weight : node stacked
}.

(** ** External collaborators *)

Class Externals : Type := {
  (** [math.exp] and TensorFlow primitives that are irrational or depend on
      the tensor shape *)
  math_exp : Q -> Q;
  tf_pow : Q -> Q -> Q;
  reduce_mean_axis12 : tensor -> tensor;
  softmax_cross_entropy_with_logits_v2 : tensor -> tensor -> tensor;
  exponential_decay : Q -> Z -> Z -> pyval -> Q;
  (** [core.networks_2d]: target image, atlas images, dropout rate, n_atlas,
      train phase, regularizer, net_kwargs *)
  create_ddf_label_net :
    tensor -> stacked -> Q -> nat -> bool -> pyval -> kwargs -> stacked * Q;
  create_ddf_score_net :
    tensor -> stacked -> Q -> nat -> bool -> pyval -> kwargs -> stacked * Q * stacked;
  SpatialTransformer : option string -> tensor -> tensor -> tensor;
  random_affine_augment : kwargs -> string -> tensor -> tensor;
  (** [core.utils_2d] *)
  get_prob_from_label : tensor -> pyval -> pyval -> tensor;
  get_joint_prob : stacked -> tensor;
  get_segmentation : tensor -> tensor;
  resample : tensor -> tensor -> tensor;
  (** [core.losses_2d] *)
  LabelConsistencyLoss_loss : kwargs -> tensor -> tensor -> tensor -> Q;
  LabelConsistencyLoss_multi_scale_loss : kwargs -> tensor -> list tensor -> tensor -> Q;
  DiceLoss_loss : tensor -> tensor -> Q;
  DiceLoss_multi_scale_loss : tensor -> list tensor -> Q;
  CrossCorrelation_loss : tensor -> tensor -> Q;
  MvMMNetLoss_loss_weight : kwargs -> tensor -> stacked -> tensor -> stacked -> tensor -> Q;
  MvMMNetLoss_loss_mask : kwargs -> tensor -> stacked -> tensor -> Q;
  CrossEntropy_loss : tensor -> tensor -> tensor;
  compute_displacement_energy : tensor -> Q -> Q;
  compute_jacobian_determinant : tensor -> tensor;
  (** [core.metrics_2d]: [OverlapMetrics(n_class, one_hot=False,
      reduce_mean=False).averaged_foreground_jaccard] *)
  averaged_foreground_jaccard : nat -> tensor -> tensor -> tensor
}.

(** Modelled from the spec: [utils_2d.integrate_vec], whose source is not
    part of this file.  Section 4.2 gives the scaling-and-squaring loop:
    repeat [steps] times [displacement <- displacement +
    resample(displacement, displacement)].  The initial scaling by
    [2^steps] is done by the caller, [UnifiedMultiAtlasSegNet.__init__]. *)
Fixpoint integrate_vec_loop `{Externals} (steps : nat) (displacement : tensor) : tensor :=
  match steps with
  | O => displacement
  | S k =>
      integrate_vec_loop k
        (tensor_zip Qplus displacement (resample displacement displacement))
  end.

Definition integrate_vec `{Externals} (vec : stacked) (int_steps : Z) : stacked :=
  map (integrate_vec_loop (Z.to_nat int_steps)) vec.

(** A list comprehension whose body may raise. *)
Fixpoint for_each {A B} (f : A -> result B) (l : list A) : result (list B) :=
  match l with
  | [] => Ok []
  | x :: rest =>
      y ← f x;
      ys ← for_each f rest;
      Ok (y :: ys)
  end.

(** [f(k1=..., **d)]: a key given both explicitly and through the dictionary
    is a TypeError of the call. *)
Definition check_keywords (explicit : list string) (d : kwargs) : result unit :=
  if existsb (fun k => bool_decide (is_Some (d !! k))) explicit
  then Raise TypeError else Ok tt.

(** A tuple of numbers (or one number) turned into a tensor. *)
Definition py_tensor (v : pyval) : result tensor :=
  match v with
  | VTuple l => for_each py_float l
  | _ => x ← py_float v; Ok [x]
  end.

Module UnifiedMultiAtlasSegNet.
Section WithExternals.
Context `{E : Externals}.

(** The attributes of [self] that exist when [_get_cost] is called. *)
Record Self : Type := {
  n_class : nat;
  n_atlas : nat;
  cost_kwargs : kwargs;
  aug_kwargs : kwargs;
  net_kwargs : kwargs;
  cost_name : pyval;
  prob_sigma : pyval;
  prob_eps : pyval;
  regularizer_type : pyval;
  net_regularizer : pyval;
  regularization_coefficient : pyval;
  train_phase : node bool;
  dropout_rate : node Q;
  pi : tensor;
  data : Data;
  augmented_data : Data;
  ddf : node stacked;
  regularization_loss : node Q;
  scores : option (node stacked);
  int_steps : option Z;
  vec : option (node stacked);
  target_prob : node tensor;
  warped_atlases_prob : list (node stacked);
  warped_atlases_weight : node stacked;
  atlases_joint_prob : list (node tensor)
}.

(** What [_get_cost] returns and the attributes it sets. *)
Record CostNodes : Type := {
  cn_loss : node Q;
  cn_scores_loss : node Q;
  cn_scores_gt : node stacked
}.

(** The model after [__init__]; [bending_energy] and [num_neg_jacob] are
    the attributes that [Trainer._initialize] sets with [setattr]. *)
Record Net : Type := {
  self : Self;
  cost : node Q;
  pretrain_cost : node Q;
  scores_loss : node Q;
  scores_gt : node stacked;
  segmenter : node tensor;
  bending_energy : option (node Q);
  num_neg_jacob : option (node Q)
}.

(** [tf.cond(self.train_phase, true_fn, lambda: self.data)], key by key.
    The random affine map is shared by the three target tensors and is
    applied to each of them with its own interpolation. *)
Definition _get_augmented_data (train_phase : node bool) (aug_kwargs : kwargs)
    (data : Data) : Data :=
  let cond {A} (true_fn false_fn : node A) : node A :=
    fun env => tp ← train_phase env; if tp : bool then true_fn env else false_fn env in
  let augment (interp : string) (x : node tensor) : node tensor :=
    fun env => v ← x env; Ok (random_affine_augment aug_kwargs interp v) in
  {| target_image := cond (augment "linear" (target_image data)) (target_image data);
     target_label := cond (augment "nearest" (target_label data)) (target_label data);
     target_weight := cond (augment "linear" (target_weight data)) (target_weight data);
     atlases_image := cond (atlases_image data) (atlases_image data);
     atlases_label := cond (atlases_label data) (atlases_label data);
     atlases_weight := cond (atlases_weight data) (atlases_weight data) |}.

Definition _get_pretrain_cost (ddf : node stacked) : node Q :=
  fun env => d ← ddf env; Ok (reduce_mean_stacked (stacked_map tf_square d)).

(** One entry of the list built by [_get_warped_atlases_prob]: the atlases
    at scale [sigma], warped one by one and stacked along the atlas axis. *)
Definition warp_atlases_prob_at (n_atlas : nat) (atlases_label ddf : node stacked)
    (interp_method : string) (sigma eps : pyval) : result (node stacked) :=
  stack_nodes
    (map (fun n : nat => fun env =>
            l ← atlases_label env;
            ln ← atlas_slice l n;
            d ← ddf env;
            dn ← atlas_slice d n;
            Ok (SpatialTransformer (Some interp_method)
                  (get_prob_from_label ln sigma eps) dn))
         (seq 0 n_atlas)).

Definition _get_warped_atlases_prob (n_atlas : nat) (prob_sigma prob_eps : pyval)
    (atlases_label ddf : node stacked) (interp_method : string)
    (eps_kwarg : option pyval) : result (list (node stacked)) :=
  let eps := default prob_eps eps_kwarg in
  len ← py_len prob_sigma;
  for_each (fun idx : nat =>
              sigma ← py_getitem prob_sigma idx;
              warp_atlases_prob_at n_atlas atlases_label ddf interp_method sigma eps)
           (seq 0 len).

Definition _get_warped_atlases (n_atlas : nat) (atlases ddf : node stacked)
    (interp_method : option string) : result (node stacked) :=
  stack_nodes
    (map (fun i : nat => fun env =>
            a ← atlases env;
            ai ← atlas_slice a i;
            d ← ddf env;
            di ← atlas_slice d i;
            Ok (SpatialTransformer interp_method ai di))
         (seq 0 n_atlas)).

(** [_get_cost], lines 252-324: the loss selected by [self.cost_name]. *)
Definition _get_cost_variant (s : Self) : result (node Q) :=
  let name := cost_name s in
  let aug := augmented_data s in
  if py_eq_str name "mvmm" then Raise NotImplementedError
  else if py_eq_str name "mvmm_mas" then Raise NotImplementedError
  else if py_eq_str name "label_consistency" then
    joint0 ← list_getitem (atlases_joint_prob s) 0;
    Ok (fun env =>
          tp ← target_prob s env;
          j ← joint0 env;
          Ok (LabelConsistencyLoss_loss (cost_kwargs s) tp j (pi s)))
  else if py_eq_str name "multi_scale_label_consistency" then
    Ok (fun env =>
          tp ← target_prob s env;
          js ← eval_nodes (atlases_joint_prob s) env;
          Ok (LabelConsistencyLoss_multi_scale_loss (cost_kwargs s) tp js (pi s)))
  else if py_eq_str name "dice" then
    prob0 ← list_getitem (warped_atlases_prob s) 0;
    Ok (fun env =>
          tp ← target_prob s env;
          p ← prob0 env;
          losses ← for_each (fun i => p_i ← atlas_slice p i; Ok (DiceLoss_loss tp p_i))
                            (seq 0 (n_atlas s));
          Ok (reduce_mean losses))
  else if py_eq_str name "multi_scale_dice" then
    Ok (fun env =>
          tp ← target_prob s env;
          js ← eval_nodes (atlases_joint_prob s) env;
          Ok (DiceLoss_multi_scale_loss tp js))
  else if py_eq_str name "cross_entropy" then
    joint0 ← list_getitem (atlases_joint_prob s) 0;
    Ok (fun env =>
          tl ← target_label aug env;
          j ← joint0 env;
          Ok (reduce_mean (softmax_cross_entropy_with_logits_v2 tl j)))
  else if py_eq_str name "SSD" then
    joint0 ← list_getitem (atlases_joint_prob s) 0;
    Ok (fun env =>
          tp ← target_prob s env;
          j ← joint0 env;
          Ok (reduce_mean (tensor_map tf_square (tensor_zip Qminus tp j))))
  else if py_eq_str name "LNCC" then
    warped_atlases_image ← _get_warped_atlases (n_atlas s) (atlases_image aug) (ddf s) None;
    Ok (fun env =>
          ti ← target_image aug env;
          w ← warped_atlases_image env;
          losses ← for_each (fun i => w_i ← atlas_slice w i; Ok (CrossCorrelation_loss ti w_i))
                            (seq 0 (n_atlas s));
          Ok (reduce_mean losses))
  else if py_eq_str name "KL_divergence" then Raise NotImplementedError
  else if py_eq_str name "L2_norm" then
    Ok (fun env => d ← ddf s env; Ok (reduce_mean_stacked (stacked_map tf_square d)))
  else if py_eq_str name "mvmm_net_gmm" || py_eq_str name "mvmm_net_ncc"
          || py_eq_str name "mvmm_net_lecc" then
    (* three branches of the source with the same body *)
    prob0 ← list_getitem (warped_atlases_prob s) 0;
    Ok (fun env =>
          tp ← target_prob s env;
          p ← prob0 env;
          tw ← target_weight aug env;
          w ← warped_atlases_weight s env;
          Ok (MvMMNetLoss_loss_weight (cost_kwargs s) tp p tw w (pi s)))
  else if py_eq_str name "mvmm_net_mask" then
    prob0 ← list_getitem (warped_atlases_prob s) 0;
    Ok (fun env =>
          tp ← target_prob s env;
          p ← prob0 env;
          Ok (MvMMNetLoss_loss_mask (cost_kwargs s) tp p (pi s)))
  else Raise NotImplementedError.

(** The per-atlas Jaccard index of lines 327-330, of shape [[n_batch, n_atlas]]. *)
Definition warped_atlases_jaccard (s : Self) (prob0 : node stacked) : result (node stacked) :=
  stack_nodes
    (map (fun i : nat => fun env =>
            tl ← target_label (augmented_data s) env;
            p ← prob0 env;
            p_i ← atlas_slice p i;
            Ok (averaged_foreground_jaccard (n_class s) tl p_i))
         (seq 0 (n_atlas s))).

(** The per-atlas cross-entropy term of lines 331-336. *)
Definition warped_atlases_CE (s : Self) (prob0 : node stacked) : result (node stacked) :=
  stack_nodes
    (map (fun i : nat => fun env =>
            tl ← target_label (augmented_data s) env;
            p ← prob0 env;
            p_i ← atlas_slice p i;
            Ok (reduce_mean_axis12
                  (tensor_map (fun x => tf_pow x (3 # 10))
                     (CrossEntropy_loss tl (tensor_map (fun x => 1 - x)%Q p_i)))))
         (seq 0 (n_atlas s))).

(** [_get_cost], lines 326-342: the score regression of the ['ddf_score']
    method. *)
Definition _get_cost_scores (s : Self) (loss : node Q) : result CostNodes :=
  method ← dict_getitem (net_kwargs s) "method";
  if py_eq_str method "ddf_score" then
    prob0 ← list_getitem (warped_atlases_prob s) 0;
    jaccard ← warped_atlases_jaccard s prob0;
    ce ← warped_atlases_CE s prob0;
    predicted ← match scores s with
                | Some sc => Ok sc
                | None => Raise (AttributeError "scores")
                end;
    let scores_gt : node stacked :=
      fun env => j ← jaccard env; c ← ce env; Ok (stacked_zip Qplus j c) in
    let scores_loss : node Q :=
      fun env =>
        sc ← predicted env;
        gt ← scores_gt env;
        Ok (reduce_mean_stacked (stacked_map tf_abs (stacked_zip Qminus sc gt))) in
    Ok {| cn_loss := fun env => l ← loss env; sl ← scores_loss env; Ok (l + sl)%Q;
          cn_scores_loss := scores_loss;
          cn_scores_gt := scores_gt |}
  else
    Ok {| cn_loss := loss;
          cn_scores_loss := constant 0%Q;
          cn_scores_gt := constant [[0%Q]] |}.

(** [_get_cost], lines 344-346: the regularization of the network body. *)
Definition _get_cost_regularization (s : Self) (regularizer_type : pyval)
    (loss : node Q) : result (node Q) :=
  kind ← py_getitem regularizer_type 0;
  if py_in_strs kind ["l2"; "l1"] then
    coefficient ← py_getitem (regularization_coefficient s) 0;
    if py_truthy coefficient then
      c ← py_float coefficient;
      Ok (fun env => l ← loss env; r ← regularization_loss s env; Ok (l + r * c)%Q)
    else Ok loss
  else Ok loss.

Definition _get_cost (s : Self) (regularizer_type : pyval) : result CostNodes :=
  loss ← _get_cost_variant s;
  nodes ← _get_cost_scores s loss;
  loss' ← _get_cost_regularization s regularizer_type (cn_loss nodes);
  Ok {| cn_loss := loss';
        cn_scores_loss := cn_scores_loss nodes;
        cn_scores_gt := cn_scores_gt nodes |}.

(** The network body selected by [net_kwargs['method']], lines 110-132. *)
Definition create_network (aug : Data) (dropout_rate : node Q) (n_atlas : nat)
    (train_phase : node bool) (net_regularizer : pyval) (net_kwargs : kwargs)
    : result (node stacked * node Q * option (node stacked)) :=
  method ← dict_getitem net_kwargs "method";
  let inputs : node (tensor * stacked * Q * bool) :=
    fun env =>
      ti ← target_image aug env;
      ai ← atlases_image aug env;
      dr ← dropout_rate env;
      tp ← train_phase env;
      Ok (ti, ai, dr, tp) in
  if py_eq_str method "ddf_label" then
    _ ← check_keywords ["dropout_rate"; "n_atlas"; "train_phase"; "regularizer"] net_kwargs;
    let out : node (stacked * Q) :=
      fun env =>
        '(ti, ai, dr, tp) ← inputs env;
        Ok (create_ddf_label_net ti ai dr n_atlas tp net_regularizer net_kwargs) in
    Ok (fun env => o ← out env; Ok (fst o),
        fun env => o ← out env; Ok (snd o),
        None)
  else if py_eq_str method "ddf_score" then
    _ ← check_keywords ["dropout_rate"; "n_atlas"; "train_phase"; "regularizer"] net_kwargs;
    let out : node (stacked * Q * stacked) :=
      fun env =>
        '(ti, ai, dr, tp) ← inputs env;
        Ok (create_ddf_score_net ti ai dr n_atlas tp net_regularizer net_kwargs) in
    Ok (fun env => o ← out env; Ok (fst (fst o)),
        fun env => o ← out env; Ok (snd (fst o)),
        Some (fun env => o ← out env; Ok (snd o)))
  else Raise (ValueError "Unknown method").

(** Lines 134-138: scaling and squaring of the velocity field.  Returns
    the dictionary after the [pop], [self.int_steps], [self.vec] and the
    new [self.ddf].  The number of steps has to be an integer, as the loop
    of [integrate_vec] needs one; a negative one gives the power [2^k] as a
    float and no iteration. *)
Definition integrate_velocity (net_kwargs : kwargs) (ddf : node stacked)
    : result (kwargs * option Z * option (node stacked) * node stacked) :=
  diffeomorphism ← dict_getitem net_kwargs "diffeomorphism";
  if py_truthy diffeomorphism then
    let '(steps, net_kwargs') := dict_pop net_kwargs "int_steps" (VInt 8) in
    int_steps ← py_int steps;
    let vec : node stacked :=
      fun env => d ← ddf env; Ok (stacked_map (fun x => x / 2 ^ int_steps)%Q d) in
    Ok (net_kwargs', Some int_steps, Some vec,
        fun env => v ← vec env; Ok (integrate_vec v int_steps))
  else Ok (net_kwargs, None, None, ddf).

(** Lines 81-84: the class prior [self.pi]. *)
Definition prior_tensor (prior_prob : pyval) (n_class : nat) : result tensor :=
  match prior_prob with
  | VNone =>
      if Nat.eqb n_class 0 then Raise ZeroDivisionError
      else Ok (replicate n_class (1 / inject_Z (Z.of_nat n_class))%Q)
  | _ =>
      t ← py_tensor prior_prob;
      if Nat.eqb (length t) n_class then Ok t else Raise (ValueError "reshape")
  end.

(** [__init__], lines 49-156: the attributes, the placeholders, the network
    body and the warped atlases. *)
Definition build_graph (channels n_class n_atlas : nat)
    (cost_kwargs aug_kwargs : option kwargs) (net_kwargs : kwargs) : result Self :=
  let cost_kwargs := default ∅ cost_kwargs in
  let aug_kwargs := default ∅ aug_kwargs in
  let cost_name := dict_get cost_kwargs "cost_name" VNone in
  multi_scale ← py_str_in "multi_scale" cost_name;
  let prob_sigma :=
    if multi_scale : bool
    then dict_get cost_kwargs "prob_sigma" (VTuple [VInt 1; VInt 2; VInt 4; VInt 8])
    else dict_get cost_kwargs "prob_sigma" (VTuple [VInt 1]) in
  let prob_eps := dict_get cost_kwargs "prob_eps" (VFloat (math_exp (- (9 # 2)))) in
  let regularizer_type := dict_get cost_kwargs "regularizer" VNone in
  net_regularizer ← py_getitem regularizer_type 0;
  let regularization_coefficient :=
    dict_get cost_kwargs "regularization_coefficient" VNone in
  let train_phase := placeholder "train_phase" feed_train_phase in
  let dropout_rate := placeholder "dropout_rate" feed_dropout_rate in
  let '(prior_prob, cost_kwargs) := dict_pop cost_kwargs "prior_prob" VNone in
  pi ← prior_tensor prior_prob n_class;
  let data :=
    {| target_image := placeholder "target_image" feed_target_image;
       target_label := placeholder "target_label" feed_target_label;
       target_weight := placeholder "target_weight" feed_target_weight;
       atlases_image := placeholder_atlases n_atlas "atlases_image" feed_atlases_image;
       atlases_label := placeholder_atlases n_atlas "atlases_label" feed_atlases_label;
       atlases_weight := placeholder_atlases n_atlas "atlases_weight" feed_atlases_weight |} in
  let augmented_data := _get_augmented_data train_phase aug_kwargs data in
  '(ddf, regularization_loss, scores) ←
    create_network augmented_data dropout_rate n_atlas train_phase net_regularizer net_kwargs;
  '(net_kwargs, int_steps, vec, ddf) ← integrate_velocity net_kwargs ddf;
  sigma0 ← py_getitem prob_sigma 0;
  let target_prob : node tensor :=
    fun env => tl ← target_label augmented_data env;
               Ok (get_prob_from_label tl sigma0 prob_eps) in
  warped_atlases_prob ←
    _get_warped_atlases_prob n_atlas prob_sigma prob_eps
      (atlases_label augmented_data) ddf "linear" None;
  warped_atlases_weight ←
    _get_warped_atlases n_atlas (atlases_weight augmented_data) ddf (Some "linear");
  let atlases_joint_prob : list (node tensor) :=
    map (fun prob : node stacked => fun env => p ← prob env; Ok (get_joint_prob p))
        warped_atlases_prob in
  Ok {| n_class := n_class; n_atlas := n_atlas;
        cost_kwargs := cost_kwargs; aug_kwargs := aug_kwargs; net_kwargs := net_kwargs;
        cost_name := cost_name; prob_sigma := prob_sigma; prob_eps := prob_eps;
        regularizer_type := regularizer_type; net_regularizer := net_regularizer;
        regularization_coefficient := regularization_coefficient;
        train_phase := train_phase; dropout_rate := dropout_rate;
        pi := pi; data := data; augmented_data := augmented_data;
        ddf := ddf; regularization_loss := regularization_loss; scores := scores;
        int_steps := int_steps; vec := vec;
        target_prob := target_prob;
        warped_atlases_prob := warped_atlases_prob;
        warped_atlases_weight := warped_atlases_weight;
        atlases_joint_prob := atlases_joint_prob |}.

(** Lines 162-166: the segmentation. *)
Definition get_segmenter (s : Self) : result (node tensor) :=
  prob0 ← list_getitem (warped_atlases_prob s) 0;
  Ok (fun env =>
        p ← prob0 env;
        w ← warped_atlases_weight s env;
        Ok (get_segmentation (get_joint_prob (stacked_zip Qmult p w)))).

Definition __init__ (channels n_class n_atlas : nat)
    (cost_kwargs aug_kwargs : option kwargs) (net_kwargs : kwargs) : result Net :=
  s ← build_graph channels n_class n_atlas cost_kwargs aug_kwargs net_kwargs;
  nodes ← _get_cost s (regularizer_type s);
  let pretrain_cost := _get_pretrain_cost (ddf s) in
  segmenter ← get_segmenter s;
  Ok {| self := s;
        cost := cn_loss nodes;
        pretrain_cost := pretrain_cost;
        scores_loss := cn_scores_loss nodes;
        scores_gt := cn_scores_gt nodes;
        segmenter := segmenter;
        bending_energy := None;
        num_neg_jacob := None |}.

End WithExternals.
End UnifiedMultiAtlasSegNet.

Module Trainer.
Import UnifiedMultiAtlasSegNet.
Section WithExternals.
Context `{E : Externals}.

Record Trainer : Type := {
  net : Net;
  batch_size : Z;
  norm_grads : bool;
  optimizer_name : pyval;
  num_workers : Z;
  opt_kwargs : kwargs;
  learning_rate : pyval
}.

(** The learning-rate node and the optimizer object that [_get_optimizer]
    builds; their numerical behaviour belongs to TensorFlow.  Of the calls
    to the logger only the formatting of the message, which can raise, is
    kept. *)
Inductive learning_rate_node : Type :=
  | ExponentialDecay (init_lr decay_steps decay_rate : pyval)
  | LearningRateVariable (init_lr : pyval)
  | CyclicLearningRate (init_lr max_lr step_size gamma : pyval).

Inductive optimizer : Type :=
  | MomentumOptimizer (lr : learning_rate_node) (momentum : pyval) (kw : kwargs)
  | GradientDescentOptimizer (lr : learning_rate_node) (kw : kwargs)
  | RMSPropOptimizer (lr : learning_rate_node) (kw : kwargs)
  | AdamOptimizer (lr : learning_rate_node) (kw : kwargs).

Record train_op : Type := {
  minimized : node Q;
  clipped_by_global_norm : bool
}.

(** [init_lr * 10] of the cyclic schedule. *)
Definition times_ten (v : pyval) : result pyval :=
  match v with
  | VInt z => Ok (VInt (z * 10))
  | VFloat q => Ok (VFloat (q * 10)%Q)
  | VBool b => Ok (VInt (if b then 10 else 0))
  | _ => Raise TypeError
  end.

Definition _get_optimizer (t : Trainer) (cost : node Q) (clip_gradient : bool)
    (kw : kwargs) : result (optimizer * train_op * pyval * learning_rate_node) :=
  let '(optimizer_name, kw) := dict_pop kw "optimizer" (optimizer_name t) in
  let '(decay_steps, kw) := dict_pop kw "decay_step" (VInt 100000) in
  let decay_rate := dict_get (opt_kwargs t) "decay_rate" (VFloat (999 # 1000)) in
  '(optimizer, init_lr, learning_rate_node) ←
    (if py_eq_str optimizer_name "momentum" then
       let '(init_lr, kw) := dict_pop kw "lr" (VFloat (2 # 10)) in
       let momentum := dict_get (opt_kwargs t) "momentum" (VFloat (9 # 10)) in
       _ ← py_format_float init_lr;
       _ ← py_format_float momentum;
       _ ← py_format_int decay_steps;
       _ ← py_format_float decay_rate;
       let lr := ExponentialDecay init_lr decay_steps decay_rate in
       _ ← check_keywords ["learning_rate"; "momentum"] (opt_kwargs t);
       Ok (MomentumOptimizer lr momentum (opt_kwargs t), init_lr, lr)
     else if py_eq_str optimizer_name "sgd" then
       let '(init_lr, kw) := dict_pop kw "lr" (VFloat (1 # 10)) in
       _ ← py_format_float init_lr;
       _ ← py_format_int decay_steps;
       _ ← py_format_float decay_rate;
       let lr := ExponentialDecay init_lr decay_steps decay_rate in
       _ ← check_keywords ["learning_rate"] (opt_kwargs t);
       Ok (GradientDescentOptimizer lr (opt_kwargs t), init_lr, lr)
     else if py_eq_str optimizer_name "rmsprop" then
       let '(init_lr, kw) := dict_pop kw "lr" (VFloat (1 # 1000)) in
       _ ← py_format_float init_lr;
       let lr := LearningRateVariable init_lr in
       _ ← check_keywords ["learning_rate"] (opt_kwargs t);
       Ok (RMSPropOptimizer lr (opt_kwargs t), init_lr, lr)
     else if py_eq_str optimizer_name "adam" then
       let '(init_lr, kw) := dict_pop kw "lr" (VFloat (1 # 1000)) in
       _ ← py_format_float init_lr;
       let lr := LearningRateVariable init_lr in
       _ ← check_keywords ["learning_rate"] (opt_kwargs t);
       Ok (AdamOptimizer lr (opt_kwargs t), init_lr, lr)
     else if py_eq_str optimizer_name "adam-clr" then
       let '(init_lr, kw) := dict_pop kw "lr" (VFloat (1 # 1000)) in
       let '(step_size, kw) := dict_pop kw "step_size" (VInt 100000) in
       let '(gamma, kw) := dict_pop kw "gamma" (VFloat (99999 # 100000)) in
       _ ← py_format_float init_lr;
       _ ← py_format_int step_size;
       _ ← py_format_float gamma;
       max_lr ← times_ten init_lr;
       let lr := CyclicLearningRate init_lr max_lr step_size gamma in
       _ ← check_keywords ["learning_rate"] (opt_kwargs t);
       Ok (AdamOptimizer lr (opt_kwargs t), init_lr, lr)
     else if py_eq_str optimizer_name "radam" then Raise NotImplementedError
     else if py_eq_str optimizer_name "adabound" then Raise NotImplementedError
     else Raise (ValueError "Unknown optimizer"));
  Ok (optimizer,
      {| minimized := cost; clipped_by_global_norm := clip_gradient |},
      init_lr, learning_rate_node).

(** Lines 636-655 of [_initialize]: the bending energy is added to
    [net.cost] and the Jacobian diagnostic is attached to the model. *)
Definition add_bending_energy (n : Net) (training_iters self_iters : Z) : result Net :=
  let s := self n in
  kind ← py_getitem (regularizer_type s) 1;
  if py_eq_str kind "bending_energy" then
    '(bending_energy_increment_rate, cost_kwargs') ←
      dict_pop_strict (cost_kwargs s) "bending_energy_increment_rate";
    base ← py_getitem (regularization_coefficient s) 1;
    base ← py_float base;
    let bending_energy_weight : node Q :=
      fun env => Ok (exponential_decay base (global_step env)
                       (training_iters * self_iters) bending_energy_increment_rate) in
    let bending_energy : node Q :=
      fun env =>
        w ← bending_energy_weight env;
        d ← ddf s env;
        energies ← for_each (fun i => d_i ← atlas_slice d i;
                                      Ok (compute_displacement_energy d_i w))
                            (seq 0 (n_atlas s));
        Ok (reduce_mean energies) in
    let jacobian_det : node Q :=
      fun env =>
        d ← ddf s env;
        dets ← for_each (fun i => d_i ← atlas_slice d i;
                                  Ok (compute_jacobian_determinant d_i))
                        (seq 0 (n_atlas s));
        Ok (reduce_mean_stacked dets) in
    let num_neg_jacob : node Q :=
      fun env => j ← jacobian_det env; Ok (count_nonzero_less_equal_0 j) in
    Ok {| self :=
            {| n_class := n_class s; n_atlas := n_atlas s;
               cost_kwargs := cost_kwargs'; aug_kwargs := aug_kwargs s;
               net_kwargs := net_kwargs s; cost_name := cost_name s;
               prob_sigma := prob_sigma s; prob_eps := prob_eps s;
               regularizer_type := regularizer_type s;
               net_regularizer := net_regularizer s;
               regularization_coefficient := regularization_coefficient s;
               train_phase := train_phase s; dropout_rate := dropout_rate s;
               pi := pi s; data := data s; augmented_data := augmented_data s;
               ddf := ddf s; regularization_loss := regularization_loss s;
               scores := scores s; int_steps := int_steps s; vec := vec s;
               target_prob := target_prob s;
               warped_atlases_prob := warped_atlases_prob s;
               warped_atlases_weight := warped_atlases_weight s;
               atlases_joint_prob := atlases_joint_prob s |};
          cost := (fun env => c ← cost n env; b ← bending_energy env; Ok (c + b)%Q);
          pretrain_cost := pretrain_cost n;
          scores_loss := scores_loss n;
          scores_gt := scores_gt n;
          segmenter := segmenter n;
          bending_energy := Some bending_energy;
          num_neg_jacob := Some num_neg_jacob |}
  else Ok n.

(** What [_initialize] leaves on the trainer. *)
Record Initialized : Type := {
  init_net : Net;
  init_optimizer : optimizer;
  init_train_op : train_op;
  init_lr : pyval;
  init_learning_rate_node : learning_rate_node;
  init_pretrain_op : option train_op
}.

(** [_initialize], lines 610-670: the graph it builds before the session is
    opened.  Summaries and the handling of the output directories are left
    out. *)
Definition _initialize (t : Trainer) (training_iters self_iters decay_epochs : Z)
    (clip_gradient : bool) (pretrain_epochs : pyval) : result Initialized :=
  let opt_decay_steps := training_iters * self_iters * decay_epochs in
  n ← add_bending_energy (net t) training_iters self_iters;
  '(optimizer, op, lr, lr_node) ←
    _get_optimizer t (cost n) clip_gradient
      (<["lr" := learning_rate t]>
         (<["decay_steps" := VInt opt_decay_steps]>
            (<["step_size" := VInt (2 * training_iters * self_iters)]>
               (<["gamma" := VFloat (99998 # 100000)]> ∅))));
  pretrain_op ←
    (if py_truthy pretrain_epochs then
       '(_, op', _, _) ←
         _get_optimizer t (pretrain_cost n) false
           (<["optimizer" := VStr "adam"]> (<["lr" := VFloat (1 # 10000)]> ∅));
       Ok (Some op')
     else Ok None);
  Ok {| init_net := n;
        init_optimizer := optimizer;
        init_train_op := op;
        init_lr := lr;
        init_learning_rate_node := lr_node;
        init_pretrain_op := pretrain_op |}.

End WithExternals.
End Trainer.

(** ** A one-dimensional instance of the collaborators

    Signals with one batch entry and one channel, for evaluating the model
    on concrete inputs.  The resampler is linear interpolation with
    positions clamped to the signal, the Jacobian determinant is the
    forward difference [1 + u(i+1) - u(i)], the network body predicts the
    difference between each atlas image and the target image, and the power
    [x ^ 0.3] is exact on the entries 0 and 1 only. *)

Module OneDim.
Import UnifiedMultiAtlasSegNet Trainer.

Definition clamp (lo hi x : Q) : Q :=
  if Qle_bool x lo then lo else if Qle_bool hi x then hi else x.

(** Linear interpolation of the signal [f] at the position [x]. *)
Definition sample_at (f : tensor) (x : Q) : Q :=
  let x := clamp 0 (inject_Z (Z.of_nat (length f) - 1)) x in
  let i := Z.to_nat (Qfloor x) in
  let t := (x - inject_Z (Qfloor x))%Q in
  Qred ((1 - t) * nth i f 0 + t * nth (S i) f 0)%Q.

Definition linear_resample (f d : tensor) : tensor :=
  imap (fun i d_i => sample_at f (inject_Z (Z.of_nat i) + d_i)%Q) d.

Fixpoint forward_jacobian (u : tensor) : tensor :=
  match u with
  | a :: (b :: _) as rest => (1 + (b - a))%Q :: forward_jacobian rest
  | _ => []
  end.

Definition product_pooling (s : stacked) : tensor :=
  foldr (tensor_zip Qmult) (replicate (length (concat (take 1 s))) 1%Q) s.

#[export] Instance one_dim : Externals := {|
  math_exp := fun _ => 1 # 90;
  tf_pow := fun x _ => x;
  reduce_mean_axis12 := fun t => [reduce_mean t];
  softmax_cross_entropy_with_logits_v2 := fun labels logits => tensor_zip Qmult labels logits;
  exponential_decay := fun lr _ _ _ => lr;
  create_ddf_label_net := fun ti ai _ _ _ _ _ =>
    (map (fun a => tensor_zip Qminus a ti) ai, 1%Q);
  create_ddf_score_net := fun ti ai _ _ _ _ _ =>
    (map (fun a => tensor_zip Qminus a ti) ai, 1%Q, map (fun _ => [0%Q]) ai);
  SpatialTransformer := fun _ => linear_resample;
  random_affine_augment := fun _ _ x => x;
  get_prob_from_label := fun l _ _ => l;
  get_joint_prob := product_pooling;
  get_segmentation := fun p => p;
  resample := linear_resample;
  LabelConsistencyLoss_loss := fun _ _ _ _ => 0%Q;
  LabelConsistencyLoss_multi_scale_loss := fun _ _ _ _ => 0%Q;
  DiceLoss_loss := fun _ _ => 0%Q;
  DiceLoss_multi_scale_loss := fun _ _ => 0%Q;
  CrossCorrelation_loss := fun _ _ => 0%Q;
  MvMMNetLoss_loss_weight := fun _ _ _ _ _ _ => 0%Q;
  MvMMNetLoss_loss_mask := fun _ _ _ _ => 0%Q;
  CrossEntropy_loss := fun y p => tensor_zip Qmult y p;
  compute_displacement_energy := fun _ w => w;
  compute_jacobian_determinant := forward_jacobian;
  averaged_foreground_jaccard := fun _ y p => [reduce_mean (tensor_zip Qmult y p)]
|}.

Definition cost_config (name : string) (coefficient : Q) : kwargs :=
  <["cost_name" := VStr name]>
  (<["regularizer" := VTuple [VStr "l2"; VStr "bending_energy"]]>
  (<["regularization_coefficient" := VTuple [VFloat coefficient; VInt 1]]>
  (<["bending_energy_increment_rate" := VInt 1]> ∅))).

Definition net_config (method : string) (diffeomorphism : bool) (int_steps : Z) : kwargs :=
  <["method" := VStr method]>
  (<["diffeomorphism" := VBool diffeomorphism]>
  (<["int_steps" := VInt int_steps]> ∅)).

(** One target and one atlas on [pixels] pixels. *)
Definition feed (target atlas : tensor) (weights : option stacked) : run_env :=
  {| feed_target_image := Some target;
     feed_target_label := Some [1; 0]%Q;
     feed_target_weight := Some [1; 1]%Q;
     feed_atlases_image := Some [atlas];
     feed_atlases_label := Some [[1; 0]%Q];
     feed_atlases_weight := weights;
     feed_train_phase := Some false;
     feed_dropout_rate := Some 0%Q;
     global_step := 0 |}.

Definition env1 : run_env := feed [0; 0]%Q [1; 0]%Q (Some [[1; 1]%Q]).
Definition env_zero : run_env := feed [1; 0]%Q [1; 0]%Q (Some [[1; 1]%Q]).
Definition env_no_weights : run_env := feed [0; 0]%Q [0; 0]%Q None.
Definition env_fold : run_env := feed [0; 0; 0]%Q [0; -2; 0]%Q (Some [[1; 1]%Q]).

(** The value of a call that does not raise. *)
Definition is_ok {A : Type} (m : result A) : bool :=
  match m with
  | Ok _ => true
  | Raise _ => false
  end.

Definition ok_value {A : Type} (m : result A) : is_ok m = true -> {a : A | m = Ok a} :=
  match m as m' return is_ok m' = true -> {a : A | m' = Ok a} with
  | Ok a => fun _ => exist _ a eq_refl
  | Raise e => fun H => False_rect _ (diff_false_true H)
  end.

Definition build (name method : string) (diffeomorphism : bool) (int_steps : Z)
    (coefficient : Q) : result Net :=
  __init__ 1 2 1 (Some (cost_config name coefficient)) None
    (net_config method diffeomorphism int_steps).

Definition built_label := ok_value (build "L2_norm" "ddf_label" false 1 (1 # 2)) eq_refl.
Definition built_label_zero := ok_value (build "L2_norm" "ddf_label" false 1 0) eq_refl.
Definition built_score := ok_value (build "L2_norm" "ddf_score" false 1 (1 # 2)) eq_refl.
Definition built_diffeo := ok_value (build "L2_norm" "ddf_label" true 1 (1 # 2)) eq_refl.

Definition net_label : Net := proj1_sig built_label.
Definition net_label_zero : Net := proj1_sig built_label_zero.
Definition net_score : Net := proj1_sig built_score.
Definition net_diffeo : Net := proj1_sig built_diffeo.

Definition trainer (n : Net) (optimizer_name : string) : Trainer :=
  {| net := n; batch_size := 1; norm_grads := false;
     optimizer_name := VStr optimizer_name; num_workers := 0;
     opt_kwargs := ∅; learning_rate := VFloat (1 # 1000) |}.

Definition built_multi_scale :=
  ok_value (build "multi_scale_dice" "ddf_label" false 1 0) eq_refl.
Definition net_multi_scale : Net := proj1_sig built_multi_scale.


Definition bent_label := ok_value (add_bending_energy net_label 10 1) eq_refl.
Definition bent_diffeo := ok_value (add_bending_energy net_diffeo 10 1) eq_refl.

Definition net_fold : Net := proj1_sig bent_label.
Definition net_diffeo_bending : Net := proj1_sig bent_diffeo.

(** The attribute [net.num_neg_jacob]. *)
Definition get_num_neg_jacob (n : Net) : node Q :=
  match num_neg_jacob n with
  | Some nd => nd
  | None => fun _ => Raise (AttributeError "num_neg_jacob")
  end.

End OneDim.


(** ** The remaining functions of the file

    The helper [_compute_gradients], the metrics that [__init__] attaches
    to the model (lines 203-209), [NetForPrediction.predict_scale],
    [Trainer.store_prediction] and the pre-training phase of
    [Trainer.train].  Writing images and checkpoints and logging are left
    out; the session is the value of the global step as before, except in
    the pre-training loop, where it is abstract. *)

(** [tf.zeros_like(var)] *)
Definition tf_zeros_like (var : tensor) : tensor := map (fun _ => 0%Q) var.

(** Lines 1044-1047.  [tf_gradients] is [tf.gradients]: it returns one
    entry per variable, [None] where the tensor does not depend on the
    variable. *)
Definition _compute_gradients {A} (tf_gradients : A -> list tensor -> list (option tensor))
    (t : A) (var_list : list tensor) : list tensor :=
  let grads := tf_gradients t var_list in
  map (fun vg : tensor * option tensor =>
         match snd vg with
         | Some grad => grad
         | None => tf_zeros_like (fst vg)
         end)
      (zip var_list grads).

(** What a data provider yields: a dictionary with some of the six keys. *)
Record batch : Type := {
  item_target_image : option tensor;
  item_target_label : option tensor;
  item_target_weight : option tensor;
  item_atlases_image : option stacked;
  item_atlases_label : option stacked;
  item_atlases_weight : option stacked
}.

(** [data[key]] *)
Definition item_getitem {A} (key : string) (field : option A) : result A :=
  match field with
  | Some v => Ok v
  | None => Raise (KeyError key)
  end.

(** [obj.name] for an attribute that is set with [setattr]. *)
Definition getattr {A} (name : string) (attr : option A) : result A :=
  match attr with
  | Some v => Ok v
  | None => Raise (AttributeError name)
  end.

(** Collaborators of the metrics and of the validation: [OverlapMetrics]
    with its default arguments, [tf.norm(., axis=[1, 2])] and
    [random.sample(range(n), k)] for [0 <= k <= n]. *)
Class RunExternals : Type := {
  averaged_foreground_dice : nat -> tensor -> tensor -> Q;
  class_specific_dice : nat -> tensor -> tensor -> nat -> Q;
  averaged_foreground_jaccard_mean : nat -> tensor -> tensor -> Q;
  tf_norm_axis12 : stacked -> tensor;
  random_sample : nat -> nat -> list nat
}.

Module Metrics.
Import UnifiedMultiAtlasSegNet.
Section WithExternals.
Context `{E : Externals} `{R : RunExternals}.

(** Lines 203-209 of [__init__]. *)
Definition average_dice (n : Net) : node Q :=
  fun env =>
    tl ← target_label (augmented_data (self n)) env;
    seg ← segmenter n env;
    Ok (averaged_foreground_dice (n_class (self n)) tl seg).

Definition myocardial_dice (n : Net) : node Q :=
  fun env =>
    tl ← target_label (augmented_data (self n)) env;
    seg ← segmenter n env;
    Ok (class_specific_dice (n_class (self n)) tl seg 1).

Definition jaccard (n : Net) : node Q :=
  fun env =>
    tl ← target_label (augmented_data (self n)) env;
    seg ← segmenter n env;
    Ok (averaged_foreground_jaccard_mean (n_class (self n)) tl seg).

Definition ddfs_norm (n : Net) : node Q :=
  fun env => d ← ddf (self n) env; Ok (reduce_mean (tf_norm_axis12 d)).

End WithExternals.
End Metrics.

Module NetForPrediction.
Import UnifiedMultiAtlasSegNet.

(** Lines 435-450: the constructor of the subclass hands its arguments to
    the constructor of [UnifiedMultiAtlasSegNet]; it takes no
    [aug_kwargs]. *)
Definition __init__ `{E : Externals} (channels n_class n_atlas : nat)
    (cost_kwargs : option kwargs) (net_kwargs : kwargs) : result Net :=
  UnifiedMultiAtlasSegNet.__init__ channels n_class n_atlas cost_kwargs None net_kwargs.

(** [predict_scale], lines 452-495: the finest-scale warped atlas
    probabilities and the warped atlas weights of one test item. *)
Definition predict_scale (n : Net) (sess : Z) (test_data : batch) (dropout_rate : Q)
    : result (stacked * stacked) :=
  prob0 ← list_getitem (warped_atlases_prob (self n)) 0;
  ti ← item_getitem "target_image" (item_target_image test_data);
  ai ← item_getitem "atlases_image" (item_atlases_image test_data);
  al ← item_getitem "atlases_label" (item_atlases_label test_data);
  aw ← item_getitem "atlases_weight" (item_atlases_weight test_data);
  let env :=
    {| feed_target_image := Some ti;
       feed_target_label := None;
       feed_target_weight := None;
       feed_atlases_image := Some ai;
       feed_atlases_label := Some al;
       feed_atlases_weight := Some aw;
       feed_train_phase := Some false;
       feed_dropout_rate := Some dropout_rate;
       global_step := sess |} in
  p ← prob0 env;
  w ← warped_atlases_weight (self n) env;
  Ok (p, w).

End NetForPrediction.

Module TrainerRun.
Import UnifiedMultiAtlasSegNet Trainer Metrics.
Section WithExternals.
Context `{E : Externals} `{R : RunExternals}.

(** The values that one [sess.run] of [store_prediction] returns. *)
Record ValidationRow : Type := {
  row_loss : Q;
  row_dice : Q;
  row_jaccard : Q;
  row_myo_dice : Q;
  row_ddfs_norm : Q;
  row_bending_energy : Q;
  row_num_neg_jacob : Q;
  row_scores_loss : Q;
  row_test_pred : tensor;
  row_ddf : stacked
}.

(** The dictionary that [store_prediction] returns. *)
Record ValidationMetrics : Type := {
  metric_Loss : Q;
  metric_DDFs_norm : Q;
  metric_Dice : Q;
  metric_Jaccard : Q;
  metric_Myocardial_Dice : Q;
  metric_Bending_energy : Q;
  metric_Negative_Jacobians : Q
}.

(** Lines 918-933: the body of the loop of [store_prediction] for one test
    item.  The fetches are read off the model first, then the feed
    dictionary is built, then the session runs with [train_phase] false. *)
Definition validation_row (n : Net) (sess : Z) (data : batch) (dropout_rate : Q)
    : result ValidationRow :=
  bending_energy_node ← getattr "bending_energy" (bending_energy n);
  num_neg_jacob_node ← getattr "num_neg_jacob" (num_neg_jacob n);
  ti ← item_getitem "target_image" (item_target_image data);
  tl ← item_getitem "target_label" (item_target_label data);
  tw ← item_getitem "target_weight" (item_target_weight data);
  al ← item_getitem "atlases_label" (item_atlases_label data);
  ai ← item_getitem "atlases_image" (item_atlases_image data);
  aw ← item_getitem "atlases_weight" (item_atlases_weight data);
  let env :=
    {| feed_target_image := Some ti;
       feed_target_label := Some tl;
       feed_target_weight := Some tw;
       feed_atlases_image := Some ai;
       feed_atlases_label := Some al;
       feed_atlases_weight := Some aw;
       feed_train_phase := Some false;
       feed_dropout_rate := Some dropout_rate;
       global_step := sess |} in
  loss ← cost n env;
  dice ← average_dice n env;
  jac ← jaccard n env;
  myo ← myocardial_dice n env;
  norm ← ddfs_norm n env;
  be ← bending_energy_node env;
  nj ← num_neg_jacob_node env;
  sl ← scores_loss n env;
  pred ← segmenter n env;
  d ← ddf (self n) env;
  Ok {| row_loss := loss; row_dice := dice; row_jaccard := jac; row_myo_dice := myo;
        row_ddfs_norm := norm; row_bending_energy := be; row_num_neg_jacob := nj;
        row_scores_loss := sl; row_test_pred := pred; row_ddf := d |}.

(** Lines 903-908: [random.sample] raises a ValueError for a sample that
    is negative or larger than the population. *)
Definition validation_indices (population : nat) (validation_batch_size : option Z)
    : result (nat * list nat) :=
  match validation_batch_size with
  | Some k =>
      if (0 <=? k) && (k <=? Z.of_nat population)
      then Ok (Z.to_nat k, random_sample population (Z.to_nat k))
      else Raise (ValueError "Sample larger than population or is negative")
  | None => Ok (population, seq 0 population)
  end.

(** [store_prediction], lines 889-971. *)
Definition store_prediction (n : Net) (sess : Z) (test_data_provider : list batch)
    (validation_batch_size : option Z) (dropout_rate : Q) : result ValidationMetrics :=
  '(size, data_indices) ← validation_indices (length test_data_provider)
                            validation_batch_size;
  rows ← for_each (fun i : nat =>
                     index ← list_getitem data_indices i;
                     data ← list_getitem test_data_provider index;
                     validation_row n sess data dropout_rate)
                  (seq 0 size);
  Ok {| metric_Loss := reduce_mean (map row_loss rows);
        metric_DDFs_norm := reduce_mean (map row_ddfs_norm rows);
        metric_Dice := reduce_mean (map row_dice rows);
        metric_Jaccard := reduce_mean (map row_jaccard rows);
        metric_Myocardial_Dice := reduce_mean (map row_myo_dice rows);
        metric_Bending_energy := reduce_mean (map row_bending_energy rows);
        metric_Negative_Jacobians := reduce_mean (map row_num_neg_jacob rows) |}.

End WithExternals.

(** *** The pre-training phase of [train], lines 755-785 *)

(** The loop can fail with an exception of [exn] or because
    [pretrain_lr] was never assigned. *)
Inductive outcome (A : Type) : Type :=
  | Done (a : A)
  | Fails (e : exn)
  | UnboundLocalError (name : string).
Arguments Done {A} a.
Arguments Fails {A} e.
Arguments UnboundLocalError {A} name.

Section Pretraining.
Variable session : Type.
(** [sess.run((self.pretrain_op, self.net.pretrain_cost, self.pretrain_lr),
    feed_dict)]: the session after the update, the loss and the learning
    rate. *)
Variable run_pretrain_op : session -> run_env -> result (session * Q * Q).

Definition pretrain_feed (b : batch) (dropout : Q) : result run_env :=
  ti ← item_getitem "target_image" (item_target_image b);
  ai ← item_getitem "atlases_image" (item_atlases_image b);
  Ok {| feed_target_image := Some ti;
        feed_target_label := None;
        feed_target_weight := None;
        feed_atlases_image := Some ai;
        feed_atlases_label := None;
        feed_atlases_weight := None;
        feed_train_phase := Some true;
        feed_dropout_rate := Some dropout;
        global_step := 0 |}.

(** [for step, batch in enumerate(train_data_loader)], from [step] on:
    the session, [pretrain_loss] and [pretrain_lr] when the loop is left. *)
Fixpoint pretrain_loop (pretrain_steps display_step : Z) (dropout : Q) (step : Z)
    (batches : list batch) (sess : session) (pretrain_loss : Q) (pretrain_lr : option Q)
    : result (session * Q * option Q) :=
  match batches with
  | [] => Ok (sess, pretrain_loss, pretrain_lr)
  | b :: rest =>
      if step <? pretrain_steps then
        env ← pretrain_feed b dropout;
        '(sess', loss, lr) ← run_pretrain_op sess env;
        if display_step =? 0 then Raise ZeroDivisionError
        else pretrain_loop pretrain_steps display_step dropout (step + 1) rest
               sess' (pretrain_loss + loss)%Q (Some lr)
      else Ok (sess, pretrain_loss, pretrain_lr)
  end.

(** The phase: nothing when [pretrain_epochs] is falsy; otherwise the
    session after the loop with the logged average loss and learning
    rate. *)
Definition pretraining (train_data_loader : list batch) (pretrain_epochs : Z)
    (pretrain_steps_kwarg : option Z) (display_step : Z) (dropout : Q) (sess : session)
    : outcome (session * option (Q * Q)) :=
  if pretrain_epochs =? 0 then Done (sess, None)
  else
    let training_iters := Z.of_nat (length train_data_loader) in
    let pretrain_steps :=
      default (pretrain_epochs * training_iters) pretrain_steps_kwarg in
    match pretrain_loop pretrain_steps display_step dropout 0 train_data_loader
            sess 0%Q None with
    | Raise e => Fails e
    | Ok (sess', pretrain_loss, pretrain_lr) =>
        if pretrain_steps =? 0 then Fails ZeroDivisionError
        else
          match pretrain_lr with
          | None => UnboundLocalError "pretrain_lr"
          | Some lr =>
              Done (sess', Some (pretrain_loss / inject_Z pretrain_steps, lr)%Q)
          end
    end.

End Pretraining.
End TrainerRun.

(** ** Concrete runs in the one-dimensional instance *)

Module OneDimRun.
Import UnifiedMultiAtlasSegNet Trainer Metrics TrainerRun OneDim.

#[export] Instance one_dim_run : RunExternals := {|
  averaged_foreground_dice := fun _ y p => reduce_mean (tensor_zip Qmult y p);
  class_specific_dice := fun _ y p _ => reduce_mean (tensor_zip Qmult y p);
  averaged_foreground_jaccard_mean := fun _ y p => reduce_mean (tensor_zip Qmult y p);
  tf_norm_axis12 := fun d => map (fun t => tensor_sum (tensor_map Qabs t)) d;
  random_sample := fun _ k => seq 0 k
|}.

(** A labelled item with one atlas, and the same item as a test item
    without target label and weight. *)
Definition item (target atlas : tensor) : batch :=
  {| item_target_image := Some target;
     item_target_label := Some [1; 0]%Q;
     item_target_weight := Some [1; 1]%Q;
     item_atlases_image := Some [atlas];
     item_atlases_label := Some [[1; 0]%Q];
     item_atlases_weight := Some [[1; 1]%Q] |}.

Definition test_item (target atlas : tensor) : batch :=
  {| item_target_image := Some target;
     item_target_label := None;
     item_target_weight := None;
     item_atlases_image := Some [atlas];
     item_atlases_label := Some [[1; 0]%Q];
     item_atlases_weight := Some [[1; 1]%Q] |}.

(** The feed of [predict_scale] for [test_item [0; 0] [1; 0]]. *)
Definition env_predict : run_env :=
  {| feed_target_image := Some [0; 0]%Q; feed_target_label := None;
     feed_target_weight := None; feed_atlases_image := Some [[1; 0]%Q];
     feed_atlases_label := Some [[1; 0]%Q]; feed_atlases_weight := Some [[1; 1]%Q];
     feed_train_phase := Some false; feed_dropout_rate := Some 0%Q;
     global_step := 0 |}.

(** A feed without the target image. *)
Definition env_no_target : run_env :=
  {| feed_target_image := None; feed_target_label := None;
     feed_target_weight := None; feed_atlases_image := Some [[1; 0]%Q];
     feed_atlases_label := Some [[1; 0]%Q]; feed_atlases_weight := Some [[1; 1]%Q];
     feed_train_phase := Some false; feed_dropout_rate := Some 0%Q;
     global_step := 0 |}.

(** Models whose regularizer tuple does not name the bending energy, or has
    one entry only, and a model with the ['SSD'] loss. *)
Definition cost_config_with (regularizer : list pyval) : option kwargs :=
  Some (<["regularizer" := VTuple regularizer]> (cost_config "L2_norm" 0)).

Definition built_plain :=
  ok_value (__init__ 1 2 1 (cost_config_with [VStr "l2"; VStr "none"]) None
              (net_config "ddf_label" false 1)) eq_refl.
Definition built_single :=
  ok_value (__init__ 1 2 1 (cost_config_with [VStr "l2"]) None
              (net_config "ddf_label" false 1)) eq_refl.
Definition built_SSD := ok_value (build "SSD" "ddf_label" false 1 0) eq_refl.

Definition net_plain : Net := proj1_sig built_plain.
Definition net_single : Net := proj1_sig built_single.
Definition net_SSD : Net := proj1_sig built_SSD.

(** Trainers after [_initialize]. *)
Definition initialized_momentum :=
  ok_value (_initialize (trainer net_label "momentum") 10 1 1 false (VInt 5)) eq_refl.
Definition initialized_clr :=
  ok_value (_initialize (trainer net_label "adam-clr") 10 1 1 false (VInt 5)) eq_refl.
Definition initialized_plain :=
  ok_value (_initialize (trainer net_plain "adam") 10 1 1 false (VInt 0)) eq_refl.

(** One validation over a provider with a single item. *)
Definition validated :=
  ok_value (store_prediction (init_net (proj1_sig initialized_momentum)) 0
              [item [0; 0; 0]%Q [0; -2; 0]%Q] None 0%Q) eq_refl.

(** A session that counts its steps; a step returns the pre-training cost
    of the model and a constant learning rate. *)
Definition run_step (n : Net) (sess : nat) (env : run_env) : result (nat * Q * Q) :=
  loss ← pretrain_cost n env;
  Ok (S sess, loss, 1 # 10000)%Q.

(** [tf.gradients] of a tensor that depends on the first variable only. *)
Definition gradients_of_first (_ : unit) (var_list : list tensor) : list (option tensor) :=
  imap (fun i var => if Nat.eqb i 0 then Some var else None) var_list.

End OneDimRun.

(** * Properties *)

Import UnifiedMultiAtlasSegNet Trainer.

(** ** Vocabulary of the statements *)

(** The names for which a branch of the source builds something. *)
Definition implemented_methods : list string := ["ddf_label"; "ddf_score"].

Definition implemented_costs : list string :=
  ["label_consistency"; "multi_scale_label_consistency"; "dice"; "multi_scale_dice";
   "cross_entropy"; "SSD"; "LNCC"; "L2_norm";
   "mvmm_net_gmm"; "mvmm_net_ncc"; "mvmm_net_lecc"; "mvmm_net_mask"].

Definition implemented_optimizers : list string :=
  ["momentum"; "sgd"; "rmsprop"; "adam"; "adam-clr"].


(** No regularization term is added by [_get_cost]. *)
Definition regularization_off (s : Self) : Prop :=
  py_in_strs (net_regularizer s) ["l2"; "l1"] = false \/
  exists c0, py_getitem (regularization_coefficient s) 0 = Ok c0 /\ py_truthy c0 = false.

(** The displacement field as the network body returns it, before any
    integration. *)
Definition network_output `{Externals} (s : Self) (nk : kwargs) : result (node stacked) :=
  '(raw, _, _) ← create_network (augmented_data s) (dropout_rate s) (n_atlas s)
                   (train_phase s) (net_regularizer s) nk;
  Ok raw.

(** Following the spec: the number of locations of the per-pixel
    determinant fields whose determinant is not positive. *)
Definition count_non_positive (dets : stacked) : Q :=
  inject_Z (Z.of_nat (length (List.filter (fun x => Qle_bool x 0) (concat dets)))).


(** One pre-training step on every batch of the loader, in order: the
    session after the last step, the sum of the losses and the learning
    rate of the last step. *)
Fixpoint one_pass {session : Type} (run : session -> run_env -> result (session * Q * Q))
    (dropout : Q) (batches : list batch) (sess : session) (total : Q)
    (last_lr : option Q) : result (session * Q * option Q) :=
  match batches with
  | [] => Ok (sess, total, last_lr)
  | b :: rest =>
      env ← TrainerRun.pretrain_feed b dropout;
      '(sess', loss, lr) ← run sess env;
      one_pass run dropout rest sess' (total + loss)%Q (Some lr)
  end.

(** ** The error monad *)

Lemma bind_Ok_inv {A B} (m : result A) (f : A -> result B) (b : B) :
  m ≫= f = Ok b -> exists a, m = Ok a /\ f a = Ok b.
Proof. destruct m as [a|e]; simpl; [eauto | discriminate]. Qed.

Lemma bind_Ok {A B} (a : A) (f : A -> result B) : Ok a ≫= f = f a.
Proof. done. Qed.

Lemma raises_Raise {A} (e : exn) : raises (@Raise A e).
Proof. by exists e. Qed.

Lemma raises_bind {A B} (m : result A) (f : A -> result B) :
  (forall a, m = Ok a -> raises (f a)) -> raises (m ≫= f).
Proof.
  destruct m as [a|e]; simpl; intros H; [by apply H | apply raises_Raise].
Qed.

Lemma existsb_false_Forall {A} (p : A -> bool) (l : list A) :
  existsb p l = false -> Forall (fun x => p x = false) l.
Proof.
  induction l as [|x l IH]; simpl; [constructor|].
  intros [? ?]%orb_false_elim. constructor; auto.
Qed.

Section Properties.
Context `{E : Externals}.

Lemma _get_cost_variant_unknown (s : Self) :
  py_in_strs (cost_name s) implemented_costs = false ->
  _get_cost_variant s = Raise NotImplementedError.
Proof.
  intros H. apply existsb_false_Forall in H. unfold implemented_costs in H.
  repeat match goal with
         | H : Forall _ (_ :: _) |- _ => apply Forall_cons in H as [? H]
         end.
  unfold _get_cost_variant.
  repeat match goal with
         | H : py_eq_str _ _ = false |- _ => rewrite H; clear H
         end.
  simpl. by repeat case_match.
Qed.

Lemma _get_cost_unknown (s : Self) (rt : pyval) :
  py_in_strs (cost_name s) implemented_costs = false ->
  _get_cost s rt = Raise NotImplementedError.
Proof. intros H. unfold _get_cost. by rewrite _get_cost_variant_unknown. Qed.

Lemma create_network_unknown aug dr na tp reg (nk : kwargs) (m : pyval) :
  nk !! "method" = Some m ->
  py_in_strs m implemented_methods = false ->
  create_network aug dr na tp reg nk = Raise (ValueError "Unknown method").
Proof.
  intros Hm [? [? _]%orb_false_elim]%orb_false_elim.
  unfold create_network, dict_getitem. rewrite Hm. simpl.
  by repeat match goal with H : py_eq_str _ _ = false |- _ => rewrite H; clear H end.
Qed.

Lemma _get_optimizer_unknown (t : Trainer) cost clip (kw : kwargs) :
  kw !! "optimizer" = None ->
  py_in_strs (optimizer_name t) implemented_optimizers = false ->
  raises (_get_optimizer t cost clip kw).
Proof.
  intros Hk H. apply existsb_false_Forall in H. unfold implemented_optimizers in H.
  repeat match goal with
         | H : Forall _ (_ :: _) |- _ => apply Forall_cons in H as [? H]
         end.
  unfold _get_optimizer, dict_pop. rewrite Hk. simpl.
  repeat match goal with
         | H : py_eq_str _ _ = false |- _ => rewrite H; clear H
         end.
  apply raises_bind. intros a Ha. repeat case_match; discriminate.
Qed.

(** ** Inversion of the constructor *)

Lemma __init___inv ch nc na ck ak nk (net : Net) :
  __init__ ch nc na ck ak nk = Ok net ->
  exists s nodes seg,
    build_graph ch nc na ck ak nk = Ok s /\
    _get_cost s (regularizer_type s) = Ok nodes /\
    get_segmenter s = Ok seg /\
    net = {| self := s; cost := cn_loss nodes;
             pretrain_cost := _get_pretrain_cost (ddf s);
             scores_loss := cn_scores_loss nodes; scores_gt := cn_scores_gt nodes;
             segmenter := seg; bending_energy := None; num_neg_jacob := None |}.
Proof.
  unfold __init__. intros H.
  apply bind_Ok_inv in H as (s & Hs & H).
  apply bind_Ok_inv in H as (nodes & Hn & H).
  apply bind_Ok_inv in H as (seg & Hseg & H).
  injection H as <-. by exists s, nodes, seg.
Qed.

Lemma build_graph_inv ch nc na ck ak nk (s : Self) :
  build_graph ch nc na ck ak nk = Ok s ->
  let ck0 := default ∅ ck in
  exists raw sigma0,
    n_class s = nc /\ n_atlas s = na /\
    cost_name s = dict_get ck0 "cost_name" VNone /\
    regularizer_type s = dict_get ck0 "regularizer" VNone /\
    regularization_coefficient s = dict_get ck0 "regularization_coefficient" VNone /\
    py_getitem (regularizer_type s) 0 = Ok (net_regularizer s) /\
    train_phase s = placeholder "train_phase" feed_train_phase /\
    atlases_label (data s) = placeholder_atlases na "atlases_label" feed_atlases_label /\
    atlases_weight (data s) = placeholder_atlases na "atlases_weight" feed_atlases_weight /\
    augmented_data s = _get_augmented_data (train_phase s) (default ∅ ak) (data s) /\
    create_network (augmented_data s) (dropout_rate s) na (train_phase s)
      (net_regularizer s) nk = Ok (raw, regularization_loss s, scores s) /\
    integrate_velocity nk raw = Ok (net_kwargs s, int_steps s, vec s, ddf s) /\
    py_getitem (prob_sigma s) 0 = Ok sigma0 /\
    target_prob s = (fun env => tl ← target_label (augmented_data s) env;
                                Ok (get_prob_from_label tl sigma0 (prob_eps s))) /\
    _get_warped_atlases_prob na (prob_sigma s) (prob_eps s)
      (atlases_label (augmented_data s)) (ddf s) "linear" None
      = Ok (warped_atlases_prob s) /\
    _get_warped_atlases na (atlases_weight (augmented_data s)) (ddf s) (Some "linear")
      = Ok (warped_atlases_weight s) /\
    atlases_joint_prob s =
      map (fun prob : node stacked => fun env => p ← prob env; Ok (get_joint_prob p))
          (warped_atlases_prob s).
Proof.
  unfold build_graph. intros H.
  apply bind_Ok_inv in H as (ms & Hms & H).
  apply bind_Ok_inv in H as (reg & Hreg & H).
  unfold dict_pop in H.
  apply bind_Ok_inv in H as (p & Hp & H).
  apply bind_Ok_inv in H as ([[raw rl] sc] & Hnet & H).
  apply bind_Ok_inv in H as ([[[nk' steps] v] d] & Hint & H).
  apply bind_Ok_inv in H as (sigma0 & Hs0 & H).
  apply bind_Ok_inv in H as (wap & Hwap & H).
  apply bind_Ok_inv in H as (waw & Hwaw & H).
  injection H as <-. simpl.
  exists raw, sigma0. by repeat split.
Qed.

(** ** List comprehensions over the atlas axis *)

Lemma eval_nodes_map {A B} (g : A -> node B) (l : list A) (env : run_env) :
  eval_nodes (map g l) env = for_each (fun x => g x env) l.
Proof. induction l as [|x l IH]; simpl; [done|]. by rewrite IH. Qed.

Lemma for_each_ext {A B} (f g : A -> result B) (l : list A) :
  (forall x, In x l -> f x = g x) -> for_each f l = for_each g l.
Proof.
  induction l as [|x l IH]; simpl; intros H; [done|].
  rewrite (H x) by auto. rewrite IH by auto. done.
Qed.

Lemma for_each_fmap {A B C} (f : B -> result C) (h : A -> B) (l : list A) :
  for_each f (map h l) = for_each (fun x => f (h x)) l.
Proof. induction l as [|x l IH]; simpl; [done|]. by rewrite IH. Qed.

Lemma for_each_slices {B} (f : tensor -> tensor -> B) (L D : stacked) :
  length L = length D ->
  for_each (fun i => l ← atlas_slice L i; d ← atlas_slice D i; Ok (f l d))
           (seq 0 (length L)) = Ok (zip_with f L D).
Proof.
  revert D. induction L as [|l L IH]; intros [|d D] Hlen; simpl in *; try done.
  rewrite <- seq_shift, for_each_fmap.
  rewrite (for_each_ext _
             (fun i => l' ← atlas_slice L i; d' ← atlas_slice D i; Ok (f l' d')))
    by done.
  rewrite (IH D) by lia. done.
Qed.

Lemma for_each_slice {B} (f : tensor -> B) (L : stacked) :
  for_each (fun i => l ← atlas_slice L i; Ok (f l)) (seq 0 (length L)) = Ok (map f L).
Proof.
  induction L as [|l L IH]; simpl; [done|].
  rewrite <- seq_shift, for_each_fmap.
  rewrite (for_each_ext _ (fun i => l' ← atlas_slice L i; Ok (f l'))) by done.
  by rewrite IH.
Qed.

Lemma tf_stack_Ok_inv {A} (l l' : list A) : tf_stack l = Ok l' -> l' = l /\ l <> [].
Proof. destruct l; simpl; [discriminate|]. by intros [= <-]. Qed.

Lemma for_each_getitem {B} (g : pyval -> result B) (l : list pyval) :
  for_each (fun i => x ← py_getitem (VTuple l) i; g x) (seq 0 (length l)) = for_each g l.
Proof.
  induction l as [|x l IH]; simpl; [done|].
  rewrite <- seq_shift, for_each_fmap.
  rewrite (for_each_ext _ (fun i => y ← py_getitem (VTuple l) i; g y)) by done.
  by rewrite IH.
Qed.

Lemma for_each_Ok {A B} (h : A -> B) (l : list A) :
  for_each (fun x => Ok (h x)) l = Ok (map h l).
Proof. induction l as [|x l IH]; simpl; [done|]. by rewrite IH. Qed.

Lemma stack_nodes_seq (g : nat -> node tensor) (n : nat) :
  (0 < n)%nat -> stack_nodes (map g (seq 0 n)) = Ok (eval_nodes (map g (seq 0 n))).
Proof. destruct n; [lia|]. done. Qed.

Lemma warp_atlases_prob_at_eval na (label ddf : node stacked) interp sigma eps nd env L D :
  warp_atlases_prob_at na label ddf interp sigma eps = Ok nd ->
  label env = Ok L -> ddf env = Ok D -> length L = na -> length D = na ->
  nd env = Ok (zip_with (fun l d => SpatialTransformer (Some interp)
                                      (get_prob_from_label l sigma eps) d) L D).
Proof.
  unfold warp_atlases_prob_at, stack_nodes. intros H HL HD HlenL HlenD.
  apply bind_Ok_inv in H as (ns & Hns & H). injection H as <-.
  apply tf_stack_Ok_inv in Hns as [-> _].
  etrans; [apply eval_nodes_map|]. simpl. rewrite HL, HD. simpl. subst na.
  by apply for_each_slices.
Qed.

Lemma _get_warped_atlases_eval na (atlases ddf : node stacked) interp nd env L D :
  _get_warped_atlases na atlases ddf interp = Ok nd ->
  atlases env = Ok L -> ddf env = Ok D -> length L = na -> length D = na ->
  nd env = Ok (zip_with (SpatialTransformer interp) L D).
Proof.
  unfold _get_warped_atlases, stack_nodes. intros H HL HD HlenL HlenD.
  apply bind_Ok_inv in H as (ns & Hns & H). injection H as <-.
  apply tf_stack_Ok_inv in Hns as [-> _].
  etrans; [apply eval_nodes_map|]. simpl. rewrite HL, HD. simpl. subst na.
  by apply for_each_slices.
Qed.

Lemma _get_warped_atlases_prob_tuple (na : nat) (sigmas : list pyval) (eps : pyval)
    (label ddf : node stacked) (interp : string) :
  (0 < na)%nat ->
  exists nodes,
    _get_warped_atlases_prob na (VTuple sigmas) eps label ddf interp None = Ok nodes /\
    length nodes = length sigmas /\
    forall idx sigma, sigmas !! idx = Some sigma ->
      exists nd, nodes !! idx = Some nd /\
                 warp_atlases_prob_at na label ddf interp sigma eps = Ok nd.
Proof.
  intros Hna.
  set (nd_of := fun sigma : pyval =>
    eval_nodes (map (fun n : nat => fun env =>
            l ← label env; ln ← atlas_slice l n;
            d ← ddf env; dn ← atlas_slice d n;
            Ok (SpatialTransformer (Some interp) (get_prob_from_label ln sigma eps) dn))
         (seq 0 na))).
  assert (Hat : forall sigma,
    warp_atlases_prob_at na label ddf interp sigma eps = Ok (nd_of sigma)).
  { intros sigma. unfold warp_atlases_prob_at. by rewrite stack_nodes_seq. }
  exists (map nd_of sigmas). split; [|split].
  - unfold _get_warped_atlases_prob.
    change (py_len (VTuple sigmas)) with (Ok (length sigmas)). rewrite bind_Ok.
    rewrite (for_each_getitem
      (fun sigma => warp_atlases_prob_at na label ddf interp sigma eps)).
    rewrite (for_each_ext _ (fun sigma => Ok (nd_of sigma))) by (intros; apply Hat).
    apply for_each_Ok.
  - apply length_map.
  - intros idx sigma Hidx. exists (nd_of sigma).
    split; [by rewrite list_lookup_fmap, Hidx|apply Hat].
Qed.

(** ** Claims *)

(** C10. When [cost_kwargs] has no ['cost_name'] (also when [cost_kwargs]
    itself is omitted), [self.cost_name] is [None], the membership test
    ['multi_scale' in self.cost_name] raises a TypeError, and so does the
    constructor, whatever the other arguments are: nothing of the graph is
    built and the loss name is never looked at. *)
Theorem cost_name_is_mandatory ch nc na (ck ak : option kwargs) (nk : kwargs) :
  default ∅ ck !! "cost_name" = None ->
  py_str_in "multi_scale" (dict_get (default ∅ ck) "cost_name" VNone) = Raise TypeError /\
  build_graph ch nc na ck ak nk = Raise TypeError /\
  __init__ ch nc na ck ak nk = Raise TypeError.
Proof.
  intros H. unfold __init__, build_graph, dict_get. rewrite H. by simpl.
Qed.

(** C4. A network method other than ['ddf_label'] and ['ddf_score'], or a
    cost name that is not one of the implemented losses, makes the
    constructor raise; an optimizer name that is not one of the implemented
    optimizers makes [Trainer._initialize], the graph-building step that
    [train] runs before it opens the session, raise.  No default is used. *)
Theorem unknown_names_raise :
  (forall ch nc na (ck ak : option kwargs) (nk : kwargs) (m : pyval),
     nk !! "method" = Some m ->
     py_in_strs m implemented_methods = false ->
     raises (__init__ ch nc na ck ak nk)) /\
  (forall ch nc na (ck ak : option kwargs) (nk : kwargs),
     py_in_strs (dict_get (default ∅ ck) "cost_name" VNone) implemented_costs = false ->
     raises (__init__ ch nc na ck ak nk)) /\
  (forall (t : Trainer) (training_iters self_iters decay_epochs : Z) (clip : bool)
          (pretrain_epochs : pyval),
     py_in_strs (optimizer_name t) implemented_optimizers = false ->
     raises (_initialize t training_iters self_iters decay_epochs clip pretrain_epochs)).
Proof.
  split; [|split].
  - intros ch nc na ck ak nk m Hm Hun. unfold __init__. apply raises_bind. intros s Hs.
    apply build_graph_inv in Hs as (raw & sigma0 & Hs). simpl in Hs.
    destruct Hs as (_ & _ & _ & _ & _ & _ & _ & _ & _ & _ & Hnet & _).
    by rewrite (create_network_unknown _ _ _ _ _ _ m) in Hnet.
  - intros ch nc na ck ak nk Hun. unfold __init__. apply raises_bind. intros s Hs.
    apply build_graph_inv in Hs as (raw & sigma0 & Hs). simpl in Hs.
    destruct Hs as (_ & _ & Hname & _).
    rewrite _get_cost_unknown by (by rewrite Hname). apply raises_Raise.
  - intros t training_iters self_iters decay_epochs clip pretrain_epochs Hun.
    unfold _initialize. apply raises_bind. intros n Hn.
    apply raises_bind. intros a Ha. exfalso.
    destruct (_get_optimizer_unknown t (cost n) clip
      (<["lr":=learning_rate t]>
         (<["decay_steps":=VInt (training_iters * self_iters * decay_epochs)]>
            (<["step_size":=VInt (2 * training_iters * self_iters)]>
               (<["gamma":=VFloat (99998 # 100000)]> ∅))))) as [e He]; [done|done|].
    congruence.
Qed.

(** C9. For a scale set [sigmas] and at least one atlas,
    [_get_warped_atlases_prob] returns one node per sigma, in the order of
    the scale set.  The node of [sigma] evaluates to a tensor with [n_atlas]
    slices along the atlas axis, whose [n]-th slice is the probability map
    of the [n]-th atlas label at [sigma] with floor [eps], resampled by the
    [n]-th displacement field with the requested interpolation. *)
Theorem warped_atlases_prob_per_scale (na : nat) (sigmas : list pyval) (eps : pyval)
    (label ddf : node stacked) (interp : string) :
  (0 < na)%nat ->
  exists nodes,
    _get_warped_atlases_prob na (VTuple sigmas) eps label ddf interp None = Ok nodes /\
    length nodes = length sigmas /\
    forall idx sigma env L D,
      sigmas !! idx = Some sigma ->
      label env = Ok L -> ddf env = Ok D -> length L = na -> length D = na ->
      exists nd out,
        nodes !! idx = Some nd /\ nd env = Ok out /\ length out = na /\
        forall n l d, L !! n = Some l -> D !! n = Some d ->
          out !! n = Some (SpatialTransformer (Some interp)
                             (get_prob_from_label l sigma eps) d).
Proof.
  intros Hna.
  destruct (_get_warped_atlases_prob_tuple na sigmas eps label ddf interp Hna)
    as (nodes & Hnodes & Hlen & Hat).
  exists nodes. split; [done|]. split; [done|].
  intros idx sigma env L D Hidx HL HD HlenL HlenD.
  destruct (Hat idx sigma Hidx) as (nd & Hnd & Hwarp).
  exists nd, (zip_with (fun l d => SpatialTransformer (Some interp)
                                     (get_prob_from_label l sigma eps) d) L D).
  split; [done|].
  split; [by apply (warp_atlases_prob_at_eval na label ddf interp sigma eps)|].
  split; [rewrite length_zip_with; lia|].
  intros n l d Hl Hd. apply lookup_zip_with_Some. by exists l, d.
Qed.

(** ** Scaling and squaring *)

Lemma Qdiv_1_r_eq (x : Q) : (x / 2 ^ 0)%Q = x.
Proof.
  destruct x as [a b]. unfold Qdiv, Qmult. simpl.
  by rewrite Z.mul_1_r, Pos.mul_1_r.
Qed.

Lemma stacked_map_id (f : Q -> Q) (D : stacked) :
  (forall x, f x = x) -> stacked_map f D = D.
Proof.
  intros Hf. unfold stacked_map, tensor_map.
  induction D as [|t D IH]; simpl; [done|]. rewrite IH. f_equal.
  induction t as [|x t IHt]; simpl; [done|]. by rewrite Hf, IHt.
Qed.

Lemma integrate_vec_loop_iter (n : nat) (d : tensor) :
  integrate_vec_loop n d =
  Nat.iter n (fun v => tensor_zip Qplus v (resample v v)) d.
Proof.
  revert d. induction n as [|n IH]; intros d; [done|].
  simpl integrate_vec_loop. rewrite IH. by rewrite Nat.iter_succ_r.
Qed.

Lemma integrate_velocity_off (nk : kwargs) (raw : node stacked) (dv : pyval) :
  nk !! "diffeomorphism" = Some dv -> py_truthy dv = false ->
  integrate_velocity nk raw = Ok (nk, None, None, raw).
Proof.
  intros Hd Hf. unfold integrate_velocity, dict_getitem. rewrite Hd. simpl.
  by rewrite Hf.
Qed.

Lemma integrate_velocity_on (nk : kwargs) (raw : node stacked) (dv : pyval) (k : Z) :
  nk !! "diffeomorphism" = Some dv -> py_truthy dv = true ->
  py_int (dict_get nk "int_steps" (VInt 8)) = Ok k ->
  integrate_velocity nk raw =
    Ok (delete "int_steps" nk, Some k,
        Some (fun env => d ← raw env; Ok (stacked_map (fun x => x / 2 ^ k)%Q d)),
        fun env => v ← (d ← raw env; Ok (stacked_map (fun x => x / 2 ^ k)%Q d));
                   Ok (integrate_vec v k)).
Proof.
  intros Hd Ht Hk. unfold integrate_velocity, dict_getitem, dict_pop.
  rewrite Hd. simpl. rewrite Ht. unfold dict_get in Hk. by rewrite Hk.
Qed.

(** C7. With a truthy ['diffeomorphism'] and [int_steps = k], the velocity
    field is first divided by [2^k] ([self.vec]) and the displacement field
    is obtained from it by [k] self-compositions
    [d <- d + resample(d, d)]; for [k = 0] the network output is returned
    unchanged. *)
Theorem diffeomorphic_integration (nk : kwargs) (raw : node stacked) (dv : pyval) (k : Z) :
  nk !! "diffeomorphism" = Some dv -> py_truthy dv = true ->
  py_int (dict_get nk "int_steps" (VInt 8)) = Ok k ->
  exists vec ddf,
    integrate_velocity nk raw = Ok (delete "int_steps" nk, Some k, Some vec, ddf) /\
    forall env D, raw env = Ok D ->
      vec env = Ok (stacked_map (fun x => x / 2 ^ k)%Q D) /\
      ddf env = Ok (map (Nat.iter (Z.to_nat k)
                           (fun d => tensor_zip Qplus d (resample d d)))
                        (stacked_map (fun x => x / 2 ^ k)%Q D)) /\
      (k = 0 -> ddf env = Ok D).
Proof.
  intros Hd Ht Hk.
  eexists _, _. split; [by apply (integrate_velocity_on nk raw dv k)|].
  intros env D HD. simpl. rewrite HD. simpl. split; [done|]. split.
  - f_equal. unfold integrate_vec. apply map_ext. intros d.
    apply integrate_vec_loop_iter.
  - intros ->. f_equal. unfold integrate_vec. simpl.
    rewrite (stacked_map_id _ D) by apply Qdiv_1_r_eq.
    by rewrite map_id.
Qed.

(** ** Means of zero tensors *)

Lemma tensor_sum_zero (t : tensor) :
  Forall (fun x => x == 0)%Q t -> (tensor_sum t == 0)%Q.
Proof.
  induction 1 as [|x t Hx _ IH]; simpl; [done|]. rewrite Hx, IH. ring.
Qed.

Lemma reduce_mean_zero (t : tensor) :
  Forall (fun x => x == 0)%Q t -> (reduce_mean t == 0)%Q.
Proof.
  intros H. unfold reduce_mean, Qdiv. rewrite (tensor_sum_zero t H). ring.
Qed.

Lemma squares_of_zero (D : stacked) :
  Forall (Forall (fun x => x == 0)%Q) D ->
  Forall (fun x => x == 0)%Q (concat (stacked_map tf_square D)).
Proof.
  induction 1 as [|t D Ht _ IH]; simpl; [constructor|].
  apply Forall_app. split; [|done].
  unfold tensor_map. apply Forall_map.
  eapply Forall_impl; [exact Ht|]. intros x Hx. simpl. unfold tf_square.
  rewrite Hx. ring.
Qed.

(** ** The parts of [_get_cost] *)

Lemma _get_cost_inv (s : Self) (rt : pyval) (nodes : CostNodes) :
  _get_cost s rt = Ok nodes ->
  exists loss nodes0 loss',
    _get_cost_variant s = Ok loss /\
    _get_cost_scores s loss = Ok nodes0 /\
    _get_cost_regularization s rt (cn_loss nodes0) = Ok loss' /\
    nodes = {| cn_loss := loss'; cn_scores_loss := cn_scores_loss nodes0;
               cn_scores_gt := cn_scores_gt nodes0 |}.
Proof.
  unfold _get_cost. intros H.
  apply bind_Ok_inv in H as (loss & Hl & H).
  apply bind_Ok_inv in H as (nodes0 & Hn & H).
  apply bind_Ok_inv in H as (loss' & Hr & H).
  injection H as <-. by exists loss, nodes0, loss'.
Qed.

Lemma _get_cost_scores_off (s : Self) (loss : node Q) (nodes : CostNodes) (m : pyval) :
  net_kwargs s !! "method" = Some m -> py_eq_str m "ddf_score" = false ->
  _get_cost_scores s loss = Ok nodes ->
  nodes = {| cn_loss := loss; cn_scores_loss := constant 0%Q;
             cn_scores_gt := constant [[0%Q]] |}.
Proof.
  intros Hm Hf. unfold _get_cost_scores, dict_getitem. rewrite Hm, bind_Ok, Hf.
  by intros [= <-].
Qed.

Lemma _get_cost_scores_on (s : Self) (loss : node Q) (nodes : CostNodes) (m : pyval) :
  net_kwargs s !! "method" = Some m -> py_eq_str m "ddf_score" = true ->
  _get_cost_scores s loss = Ok nodes ->
  exists prob0 jaccard ce predicted,
    list_getitem (warped_atlases_prob s) 0 = Ok prob0 /\
    warped_atlases_jaccard s prob0 = Ok jaccard /\
    warped_atlases_CE s prob0 = Ok ce /\
    scores s = Some predicted /\
    cn_scores_gt nodes =
      (fun env => j ← jaccard env; c ← ce env; Ok (stacked_zip Qplus j c)) /\
    cn_scores_loss nodes =
      (fun env => sc ← predicted env; gt ← cn_scores_gt nodes env;
                  Ok (reduce_mean_stacked (stacked_map tf_abs (stacked_zip Qminus sc gt)))) /\
    cn_loss nodes =
      (fun env => l ← loss env; sl ← cn_scores_loss nodes env; Ok (l + sl)%Q).
Proof.
  intros Hm Ht. unfold _get_cost_scores, dict_getitem. rewrite Hm, bind_Ok, Ht.
  intros H.
  apply bind_Ok_inv in H as (prob0 & Hp & H).
  apply bind_Ok_inv in H as (jac & Hj & H).
  apply bind_Ok_inv in H as (ce & Hc & H).
  apply bind_Ok_inv in H as (predicted & Hs & H).
  injection H as <-. exists prob0, jac, ce, predicted.
  destruct (scores s) as [sc|]; [|discriminate]. injection Hs as ->.
  by repeat split.
Qed.

Lemma _get_cost_regularization_off (s : Self) (loss : node Q) :
  py_getitem (regularizer_type s) 0 = Ok (net_regularizer s) ->
  regularization_off s ->
  _get_cost_regularization s (regularizer_type s) loss = Ok loss.
Proof.
  intros Hk Hoff. unfold _get_cost_regularization. rewrite Hk, bind_Ok.
  destruct Hoff as [->|(c0 & Hc & Hf)]; [done|].
  rewrite Hc, bind_Ok, Hf. by destruct (py_in_strs _ _).
Qed.

Lemma _get_cost_regularization_on (s : Self) (loss : node Q) (c0 : pyval) (c : Q) :
  py_getitem (regularizer_type s) 0 = Ok (net_regularizer s) ->
  py_in_strs (net_regularizer s) ["l2"; "l1"] = true ->
  py_getitem (regularization_coefficient s) 0 = Ok c0 ->
  py_truthy c0 = true -> py_float c0 = Ok c ->
  _get_cost_regularization s (regularizer_type s) loss =
    Ok (fun env => l ← loss env; r ← regularization_loss s env; Ok (l + r * c)%Q).
Proof.
  intros Hk Hin Hc Ht Hf. unfold _get_cost_regularization.
  by rewrite Hk, bind_Ok, Hin, Hc, bind_Ok, Ht, Hf, bind_Ok.
Qed.

Lemma integrate_velocity_method (nk nk' : kwargs) (raw ddf : node stacked) st v :
  integrate_velocity nk raw = Ok (nk', st, v, ddf) ->
  nk' !! "method" = nk !! "method".
Proof.
  unfold integrate_velocity, dict_pop. intros H.
  apply bind_Ok_inv in H as (dv & _ & H).
  destruct (py_truthy dv).
  - apply bind_Ok_inv in H as (k & _ & H). injection H as <- _ _ _.
    by apply lookup_delete_ne.
  - by injection H as <- _ _ _.
Qed.

Lemma build_graph_method ch nc na ck ak nk (s : Self) :
  build_graph ch nc na ck ak nk = Ok s ->
  net_kwargs s !! "method" = nk !! "method".
Proof.
  intros H. apply build_graph_inv in H as (raw & sigma0 & H). simpl in H.
  destruct H as (_ & _ & _ & _ & _ & _ & _ & _ & _ & _ & _ & Hint & _).
  by apply integrate_velocity_method in Hint.
Qed.

Lemma build_graph_regularizer ch nc na ck ak nk (s : Self) :
  build_graph ch nc na ck ak nk = Ok s ->
  py_getitem (regularizer_type s) 0 = Ok (net_regularizer s).
Proof.
  intros H. apply build_graph_inv in H as (raw & sigma0 & H). simpl in H.
  by destruct H as (_ & _ & _ & _ & _ & Hk & _).
Qed.


(** ** Well-formed configurations build a model *)









(** C5 (as amended). The cost that [_get_cost] returns is built on a base
    loss: the loss selected by [cost_name], to which the ['ddf_score']
    method adds the scores loss.  With a regularizer type ['l1'] or ['l2']
    and a truthy numeric coefficient [c] the cost is the base loss plus
    [regularization_loss * c]; when the type is neither or the coefficient
    is falsy, the cost is the base loss. *)
Theorem cost_with_regularization ch nc na (ck ak : option kwargs) (nk : kwargs)
    (net : Net) :
  __init__ ch nc na ck ak nk = Ok net ->
  exists variant base : node Q,
    _get_cost_variant (self net) = Ok variant /\
    (forall m, nk !! "method" = Some m ->
       if py_eq_str m "ddf_score"
       then forall env v sl, variant env = Ok v -> scores_loss net env = Ok sl ->
                             base env = Ok (v + sl)%Q
       else base = variant) /\
    (forall c0 c,
       py_in_strs (net_regularizer (self net)) ["l2"; "l1"] = true ->
       py_getitem (regularization_coefficient (self net)) 0 = Ok c0 ->
       py_truthy c0 = true -> py_float c0 = Ok c ->
       forall env v r, base env = Ok v -> regularization_loss (self net) env = Ok r ->
                       cost net env = Ok (v + r * c)%Q) /\
    (regularization_off (self net) -> forall env, cost net env = base env).
Proof.
  intros Hinit.
  apply __init___inv in Hinit as (s & nodes & seg & Hs & Hcost & Hseg & ->). simpl.
  apply _get_cost_inv in Hcost as (loss & nodes0 & loss' & Hv & Hsc & Hreg & ->). simpl.
  pose proof (build_graph_method _ _ _ _ _ _ _ Hs) as Hmeth.
  pose proof (build_graph_regularizer _ _ _ _ _ _ _ Hs) as Hkind.
  exists loss, (cn_loss nodes0). split; [done|]. split; [|split].
  - intros m Hm. rewrite <- Hmeth in Hm.
    destruct (py_eq_str m "ddf_score") eqn:Hscore.
    + apply (_get_cost_scores_on s loss nodes0 m Hm Hscore) in Hsc
        as (prob0 & jac & ce & predicted & _ & _ & _ & _ & _ & _ & Hloss).
      intros env v sl Hvar Hsl. rewrite Hloss, Hvar. simpl. by rewrite Hsl.
    + by rewrite (_get_cost_scores_off s loss nodes0 m Hm Hscore Hsc).
  - intros c0 c Hin Hc Ht Hf env v r Hbase Hr.
    rewrite (_get_cost_regularization_on s _ c0 c Hkind Hin Hc Ht Hf) in Hreg.
    injection Hreg as <-. rewrite Hbase. simpl. by rewrite Hr.
  - intros Hoff env.
    rewrite (_get_cost_regularization_off s _ Hkind Hoff) in Hreg.
    by injection Hreg as <-.
Qed.

Lemma per_atlas_nodes_eval {B} (s : Self) (prob0 : node stacked) (f : tensor -> tensor -> B)
    (env : run_env) (tl : tensor) (P : stacked) :
  target_label (augmented_data s) env = Ok tl -> prob0 env = Ok P ->
  length P = n_atlas s ->
  for_each (fun i => (fun env =>
              tl ← target_label (augmented_data s) env;
              p ← prob0 env;
              p_i ← atlas_slice p i;
              Ok (f tl p_i)) env) (seq 0 (n_atlas s))
  = Ok (map (f tl) P).
Proof.
  intros Htl HP <-.
  rewrite (for_each_ext _ (fun i => p_i ← atlas_slice P i; Ok (f tl p_i))).
  - apply for_each_slice.
  - intros i _. by rewrite Htl, HP.
Qed.

Lemma warped_atlases_jaccard_eval (s : Self) (prob0 jac : node stacked) env tl P :
  warped_atlases_jaccard s prob0 = Ok jac ->
  target_label (augmented_data s) env = Ok tl -> prob0 env = Ok P ->
  length P = n_atlas s ->
  jac env = Ok (map (averaged_foreground_jaccard (n_class s) tl) P).
Proof.
  unfold warped_atlases_jaccard, stack_nodes. intros H Htl HP Hlen.
  apply bind_Ok_inv in H as (ns & Hns & H). injection H as <-.
  apply tf_stack_Ok_inv in Hns as [-> _].
  etrans; [apply eval_nodes_map|].
  by apply (per_atlas_nodes_eval s prob0 (averaged_foreground_jaccard (n_class s))).
Qed.

Lemma warped_atlases_CE_eval (s : Self) (prob0 ce : node stacked) env tl P :
  warped_atlases_CE s prob0 = Ok ce ->
  target_label (augmented_data s) env = Ok tl -> prob0 env = Ok P ->
  length P = n_atlas s ->
  ce env = Ok (map (fun p => reduce_mean_axis12
                              (tensor_map (fun x => tf_pow x (3 # 10))
                                 (CrossEntropy_loss tl (tensor_map (fun x => 1 - x)%Q p)))) P).
Proof.
  unfold warped_atlases_CE, stack_nodes. intros H Htl HP Hlen.
  apply bind_Ok_inv in H as (ns & Hns & H). injection H as <-.
  apply tf_stack_Ok_inv in Hns as [-> _].
  etrans; [apply eval_nodes_map|].
  by apply (per_atlas_nodes_eval s prob0
              (fun tl p => reduce_mean_axis12
                 (tensor_map (fun x => tf_pow x (3 # 10))
                    (CrossEntropy_loss tl (tensor_map (fun x => 1 - x)%Q p))))).
Qed.

(** C6. With the ['ddf_score'] method the ground-truth score of atlas [n]
    is the Jaccard index of the target label and the finest-scale warped
    probability of that atlas, plus the spatial mean of the cross entropy
    between the target label and one minus that probability raised to the
    power 0.3; the scores loss is the mean absolute difference between the
    predicted and the ground-truth scores, and it is added to the selected
    loss before the regularization.  With the other method the scores loss
    is the constant 0 and the selected loss goes to the regularization
    unchanged. *)
Theorem scores_regression ch nc na (ck ak : option kwargs) (nk : kwargs)
    (net : Net) (m : pyval) :
  __init__ ch nc na ck ak nk = Ok net ->
  nk !! "method" = Some m ->
  exists variant : node Q,
    _get_cost_variant (self net) = Ok variant /\
    if py_eq_str m "ddf_score" then
      exists prob0 predicted,
        list_getitem (warped_atlases_prob (self net)) 0 = Ok prob0 /\
        scores (self net) = Some predicted /\
        _get_cost_regularization (self net) (regularizer_type (self net))
          (fun env => l ← variant env; sl ← scores_loss net env; Ok (l + sl)%Q)
          = Ok (cost net) /\
        forall env tl P S,
          target_label (augmented_data (self net)) env = Ok tl ->
          prob0 env = Ok P -> length P = na -> predicted env = Ok S ->
          let jaccard := map (averaged_foreground_jaccard nc tl) P in
          let ce :=
            map (fun p => reduce_mean_axis12
                            (tensor_map (fun x => tf_pow x (3 # 10))
                               (CrossEntropy_loss tl (tensor_map (fun x => 1 - x)%Q p)))) P in
          let gt := stacked_zip Qplus jaccard ce in
          scores_gt net env = Ok gt /\
          scores_loss net env =
            Ok (reduce_mean_stacked (stacked_map tf_abs (stacked_zip Qminus S gt)))
    else
      scores_loss net = constant 0%Q /\
      _get_cost_regularization (self net) (regularizer_type (self net)) variant
        = Ok (cost net).
Proof.
  intros Hinit Hm.
  apply __init___inv in Hinit as (s & nodes & seg & Hs & Hcost & Hseg & ->). simpl.
  apply _get_cost_inv in Hcost as (loss & nodes0 & loss' & Hv & Hsc & Hreg & ->). simpl.
  pose proof (build_graph_method _ _ _ _ _ _ _ Hs) as Hmeth.
  rewrite <- Hmeth in Hm.
  exists loss. split; [done|].
  destruct (py_eq_str m "ddf_score") eqn:Hscore.
  - apply (_get_cost_scores_on s loss nodes0 m Hm Hscore) in Hsc
      as (prob0 & jac & ce & predicted & Hp0 & Hjac & Hce & Hpred & Hgt & Hsl & Hloss).
    exists prob0, predicted. split; [|split; [done|split]].
    + done.
    + by rewrite <- Hloss.
    + intros env tl P S Htl HP Hlen HS. simpl.
      assert (Hgt' : cn_scores_gt nodes0 env =
        Ok (stacked_zip Qplus (map (averaged_foreground_jaccard nc tl) P)
              (map (fun p => reduce_mean_axis12
                      (tensor_map (fun x => tf_pow x (3 # 10))
                         (CrossEntropy_loss tl (tensor_map (fun x => 1 - x)%Q p)))) P))).
      { apply build_graph_inv in Hs as (raw & sigma0 & Hnc & Hna & _). simpl in *.
        rewrite <- Hna in Hlen. rewrite Hgt. cbv beta.
        rewrite (warped_atlases_jaccard_eval s prob0 jac env tl P) by done.
        rewrite bind_Ok.
        rewrite (warped_atlases_CE_eval s prob0 ce env tl P) by done.
        by rewrite bind_Ok, Hnc. }
      split; [done|]. by rewrite Hsl, HS, bind_Ok, Hgt'.
  - rewrite (_get_cost_scores_off s loss nodes0 m Hm Hscore Hsc) in *. by simpl in *.
Qed.

(** ** Feeds of the atlas placeholders *)

Lemma augmented_atlases_fed (tp_node : node bool) (akw : kwargs) (d : Data)
    (get : run_env -> option stacked) (name : string) (na : nat)
    (sel : Data -> node stacked) env tp (v : stacked) :
  tp_node = placeholder "train_phase" feed_train_phase ->
  sel d = placeholder_atlases na name get ->
  (sel (_get_augmented_data tp_node akw d) = fun env =>
     t ← tp_node env; if t : bool then sel d env else sel d env) ->
  feed_train_phase env = Some tp -> get env = Some v -> length v = na ->
  sel (_get_augmented_data tp_node akw d) env = Ok v.
Proof.
  intros -> Hsel -> Htp Hget Hlen.
  unfold placeholder. rewrite Htp, bind_Ok, Hsel. unfold placeholder_atlases.
  rewrite Hget, Hlen, Nat.eqb_refl. by destruct tp.
Qed.

Lemma augmented_atlases_unfed (tp_node : node bool) (akw : kwargs) (d : Data)
    (get : run_env -> option stacked) (name : string) (na : nat)
    (sel : Data -> node stacked) env :
  sel d = placeholder_atlases na name get ->
  (sel (_get_augmented_data tp_node akw d) = fun env =>
     t ← tp_node env; if t : bool then sel d env else sel d env) ->
  get env = None ->
  raises (sel (_get_augmented_data tp_node akw d) env).
Proof.
  intros Hsel -> Hget. apply raises_bind. intros t _.
  rewrite Hsel. unfold placeholder_atlases. rewrite Hget.
  destruct t; apply raises_Raise.
Qed.

Lemma _get_warped_atlases_unfed na (atlases ddf : node stacked) interp nd env :
  _get_warped_atlases na atlases ddf interp = Ok nd ->
  raises (atlases env) -> raises (nd env).
Proof.
  unfold _get_warped_atlases, stack_nodes. intros H [e He].
  apply bind_Ok_inv in H as (ns & Hns & H). injection H as <-.
  apply tf_stack_Ok_inv in Hns as [-> Hne].
  destruct na as [|na]; [done|]. simpl. rewrite He. apply raises_Raise.
Qed.

Lemma first_scale na (ps eps : pyval) (label ddf : node stacked) interp
    (wap : list (node stacked)) (prob0 : node stacked) (sigma0 : pyval) :
  _get_warped_atlases_prob na ps eps label ddf interp None = Ok wap ->
  list_getitem wap 0 = Ok prob0 ->
  py_getitem ps 0 = Ok sigma0 ->
  warp_atlases_prob_at na label ddf interp sigma0 eps = Ok prob0.
Proof.
  unfold _get_warped_atlases_prob. intros H Hp Hs.
  apply bind_Ok_inv in H as (len & _ & H).
  destruct len as [|len]; simpl in H.
  - injection H as <-. discriminate.
  - rewrite Hs, bind_Ok in H.
    apply bind_Ok_inv in H as (y & Hy & H).
    apply bind_Ok_inv in H as (ys & _ & H).
    injection H as <-. simpl in Hp. by injection Hp as <-.
Qed.

(** C1 (as amended). The segmentation is [get_segmentation] of
    [get_joint_prob] of the elementwise product of the finest-scale warped
    atlas probabilities and the warped atlas weights; both are the atlas
    feeds resampled by [self.ddf] with linear interpolation.  The atlas
    weights are a required input: when they are not fed, evaluating the
    segmentation raises, and nothing falls back to the unweighted joint
    probability. *)
Theorem segmenter_reweighted ch nc na (ck ak : option kwargs) (nk : kwargs) (net : Net) :
  __init__ ch nc na ck ak nk = Ok net ->
  exists sigma0 prob0,
    py_getitem (prob_sigma (self net)) 0 = Ok sigma0 /\
    list_getitem (warped_atlases_prob (self net)) 0 = Ok prob0 /\
    (forall env P W,
       prob0 env = Ok P -> warped_atlases_weight (self net) env = Ok W ->
       segmenter net env = Ok (get_segmentation (get_joint_prob (stacked_zip Qmult P W)))) /\
    (forall env tp L Wt D,
       feed_train_phase env = Some tp ->
       feed_atlases_label env = Some L -> length L = na ->
       feed_atlases_weight env = Some Wt -> length Wt = na ->
       ddf (self net) env = Ok D -> length D = na ->
       prob0 env =
         Ok (zip_with (fun l d => SpatialTransformer (Some "linear")
                                    (get_prob_from_label l sigma0 (prob_eps (self net))) d)
                      L D) /\
       warped_atlases_weight (self net) env =
         Ok (zip_with (SpatialTransformer (Some "linear")) Wt D)) /\
    (forall env, feed_atlases_weight env = None -> raises (segmenter net env)).
Proof.
  intros Hinit.
  apply __init___inv in Hinit as (s & nodes & seg & Hs & Hcost & Hseg & ->). simpl.
  apply build_graph_inv in Hs as (raw & sigma0 & Hs). simpl in Hs.
  destruct Hs as (_ & _ & _ & _ & _ & _ & Htp & Hlab & Hwei & Haug & _ & _ & Hs0
                  & _ & Hwap & Hwaw & _).
  unfold get_segmenter in Hseg.
  apply bind_Ok_inv in Hseg as (prob0 & Hp0 & Hseg). injection Hseg as <-.
  pose proof (first_scale _ _ _ _ _ _ _ _ _ Hwap Hp0 Hs0) as Hat.
  exists sigma0, prob0. split; [done|]. split; [|split; [|split]].
  - done.
  - intros env P W HP HW. by rewrite HP, bind_Ok, HW.
  - intros env tp L Wt D Hfeed HL HlenL HW HlenW HD HlenD. split.
    + apply (warp_atlases_prob_at_eval na _ _ _ _ _ _ _ _ _ Hat); try done.
      rewrite Haug.
      by apply (augmented_atlases_fed _ _ _ feed_atlases_label "atlases_label" na
                  atlases_label env tp L).
    + apply (_get_warped_atlases_eval na _ _ _ _ _ _ _ Hwaw); try done.
      rewrite Haug.
      by apply (augmented_atlases_fed _ _ _ feed_atlases_weight "atlases_weight" na
                  atlases_weight env tp Wt).
  - intros env Hnone. apply raises_bind. intros P _.
    apply raises_bind. intros W HW. exfalso.
    destruct (_get_warped_atlases_unfed na _ _ _ _ env Hwaw) as [e He]; [|congruence].
    rewrite Haug.
    by apply (augmented_atlases_unfed _ _ _ feed_atlases_weight "atlases_weight" na
                atlases_weight env).
Qed.

(** ** The regularizers of the trainer *)

Lemma add_bending_energy_inv (n n' : Net) (ti si : Z) (kind : pyval) :
  py_getitem (regularizer_type (self n)) 1 = Ok kind ->
  py_eq_str kind "bending_energy" = true ->
  add_bending_energy n ti si = Ok n' ->
  exists rate base be nj,
    ddf (self n') = ddf (self n) /\
    n_atlas (self n') = n_atlas (self n) /\
    pretrain_cost n' = pretrain_cost n /\
    bending_energy n' = Some be /\ num_neg_jacob n' = Some nj /\
    (forall env, cost n' env = (c ← cost n env; b ← be env; Ok (c + b)%Q)) /\
    forall env D, ddf (self n) env = Ok D -> length D = n_atlas (self n) ->
      be env = Ok (reduce_mean
                     (map (fun d => compute_displacement_energy d
                                      (exponential_decay base (global_step env)
                                         (ti * si) rate)) D)) /\
      nj env = Ok (count_nonzero_less_equal_0
                     (reduce_mean_stacked (map compute_jacobian_determinant D))).
Proof.
  intros Hk Hb. unfold add_bending_energy. rewrite Hk, bind_Ok, Hb. intros H.
  apply bind_Ok_inv in H as ([rate ckw] & _ & H).
  apply bind_Ok_inv in H as (b0 & _ & H).
  apply bind_Ok_inv in H as (base & _ & H).
  injection H as <-. simpl.
  eexists rate, base, _, _. repeat (split; [reflexivity|]).
  intros env D HD Hlen. rewrite HD. simpl. rewrite <- Hlen. split.
  - by rewrite (for_each_slice
                  (fun d => compute_displacement_energy d
                              (exponential_decay base (global_step env) (ti * si) rate)) D).
  - by rewrite (for_each_slice compute_jacobian_determinant D).
Qed.

(** C2 (as amended). The regularizers consume [self.ddf], the field that
    warps the atlases: the network output when ['diffeomorphism'] is falsy,
    and the field integrated from it by scaling and squaring when it is
    truthy.  The pretraining cost is the mean square of that field, and the
    bending energy and the Jacobian diagnostic that [Trainer._initialize]
    adds are computed from its atlas slices. *)
Theorem regularizers_consume_warping_field ch nc na (ck ak : option kwargs)
    (nk : kwargs) (net : Net) :
  __init__ ch nc na ck ak nk = Ok net ->
  let s := self net in
  exists raw : node stacked,
    create_network (augmented_data s) (dropout_rate s) na (train_phase s)
      (net_regularizer s) nk = Ok (raw, regularization_loss s, scores s) /\
    _get_warped_atlases_prob na (prob_sigma s) (prob_eps s)
      (atlases_label (augmented_data s)) (ddf s) "linear" None
      = Ok (warped_atlases_prob s) /\
    _get_warped_atlases na (atlases_weight (augmented_data s)) (ddf s) (Some "linear")
      = Ok (warped_atlases_weight s) /\
    (forall dv, nk !! "diffeomorphism" = Some dv ->
       if py_truthy dv
       then exists k, int_steps s = Some k /\
              forall env R, raw env = Ok R ->
                ddf s env = Ok (integrate_vec (stacked_map (fun x => x / 2 ^ k)%Q R) k)
       else ddf s = raw) /\
    (forall env D, ddf s env = Ok D ->
       pretrain_cost net env = Ok (reduce_mean_stacked (stacked_map tf_square D))) /\
    (forall ti si net' kind,
       py_getitem (regularizer_type s) 1 = Ok kind ->
       py_eq_str kind "bending_energy" = true ->
       add_bending_energy net ti si = Ok net' ->
       exists rate base be nj,
         bending_energy net' = Some be /\ num_neg_jacob net' = Some nj /\
         forall env D, ddf s env = Ok D -> length D = na ->
           be env = Ok (reduce_mean
                          (map (fun d => compute_displacement_energy d
                                           (exponential_decay base (global_step env)
                                              (ti * si) rate)) D)) /\
           nj env = Ok (count_nonzero_less_equal_0
                          (reduce_mean_stacked (map compute_jacobian_determinant D)))).
Proof.
  intros Hinit s. subst s.
  apply __init___inv in Hinit as (s & nodes & seg & Hs & Hcost & Hseg & ->). simpl.
  apply build_graph_inv in Hs as (raw & sigma0 & Hs). simpl in Hs.
  destruct Hs as (_ & Hna & _ & _ & _ & _ & _ & _ & _ & _ & Hnet & Hint & _
                  & _ & Hwap & Hwaw & _).
  exists raw. split; [done|]. split; [done|]. split; [done|]. split; [|split].
  - intros dv Hdv. destruct (py_truthy dv) eqn:Ht.
    + unfold integrate_velocity, dict_getitem, dict_pop in Hint.
      rewrite Hdv, bind_Ok, Ht in Hint.
      apply bind_Ok_inv in Hint as (k & _ & Hint).
      injection Hint as _ <- _ <-. exists k. split; [done|].
      intros env R HR. by rewrite HR.
    + rewrite (integrate_velocity_off nk raw dv Hdv Ht) in Hint. by injection Hint.
  - intros env D HD. unfold _get_pretrain_cost. by rewrite HD.
  - intros ti si net' kind Hk Hb Hadd.
    eapply add_bending_energy_inv in Hadd
      as (rate & base & be & nj & _ & _ & _ & Hbe & Hnj & _ & Heval);
      [|exact Hk|exact Hb].
    exists rate, base, be, nj. split; [done|]. split; [done|].
    intros env D HD Hlen. apply Heval; [done|]. simpl. by rewrite Hna.
Qed.

(** The Jacobian diagnostic is 0 or 1: it tests the sign of one number, the
    mean of every determinant of every atlas. *)
Lemma count_nonzero_less_equal_0_cases (x : Q) :
  count_nonzero_less_equal_0 x = 0%Q \/ count_nonzero_less_equal_0 x = 1%Q.
Proof. unfold count_nonzero_less_equal_0. destruct (Qle_bool x 0); auto. Qed.

End Properties.

(** ** The claims on concrete inputs *)

Import OneDim.

Example multi_scale_in_cost_name :
  py_str_in "multi_scale" (VStr "multi_scale_dice") = Ok true /\
  py_str_in "multi_scale" (VStr "dice") = Ok false /\
  py_str_in "multi_scale" VNone = Raise TypeError.
Proof. repeat split; reflexivity. Qed.

Example default_scale_sets :
  prob_sigma (self net_multi_scale) = VTuple [VInt 1; VInt 2; VInt 4; VInt 8] /\
  length (warped_atlases_prob (self net_multi_scale)) = 4%nat /\
  prob_sigma (self net_label) = VTuple [VInt 1] /\
  length (warped_atlases_prob (self net_label)) = 1%nat.
Proof. repeat split; reflexivity. Qed.

Example empty_regularizer_raises :
  __init__ 1 2 1 (Some {["cost_name" := VStr "dice"]}) None (net_config "ddf_label" false 1)
  = Raise TypeError.
Proof. reflexivity. Qed.

Example no_atlas_raises :
  __init__ 1 2 0 (Some (cost_config "dice" 0)) None (net_config "ddf_label" false 1)
  = Raise IndexError.
Proof. reflexivity. Qed.

Lemma build_net_label : build "L2_norm" "ddf_label" false 1 (1 # 2) = Ok net_label.
Proof. exact (proj2_sig built_label). Qed.

Lemma build_net_label_zero : build "L2_norm" "ddf_label" false 1 0 = Ok net_label_zero.
Proof. exact (proj2_sig built_label_zero). Qed.

Lemma build_net_score : build "L2_norm" "ddf_score" false 1 (1 # 2) = Ok net_score.
Proof. exact (proj2_sig built_score). Qed.

Lemma build_net_diffeo : build "L2_norm" "ddf_label" true 1 (1 # 2) = Ok net_diffeo.
Proof. exact (proj2_sig built_diffeo). Qed.


Lemma cost_name_is_mandatory_witness :
  py_str_in "multi_scale" (dict_get (default ∅ None) "cost_name" VNone) = Raise TypeError /\
  build_graph 1 2 1 None None (net_config "ddf_label" false 1) = Raise TypeError /\
  __init__ 1 2 1 None None (net_config "ddf_label" false 1) = Raise TypeError.
Proof. apply (cost_name_is_mandatory (E:=one_dim)). reflexivity. Defined.

Lemma unknown_names_raise_witness :
  raises (build "L2_norm" "ddf_mask" false 1 0) /\
  raises (build "hinge" "ddf_label" false 1 0) /\
  raises (_initialize (trainer net_label "lbfgs") 10 1 1 false (VInt 5)).
Proof.
  destruct (unknown_names_raise (E:=one_dim)) as (Hmethod & Hcost & Hopt).
  split; [|split].
  - apply (Hmethod 1%nat 2%nat 1%nat _ None _ (VStr "ddf_mask")); reflexivity.
  - apply Hcost. reflexivity.
  - apply Hopt. reflexivity.
Defined.

Lemma warped_atlases_prob_per_scale_witness :
  exists nodes nd out,
    _get_warped_atlases_prob 2 (VTuple [VInt 1; VInt 2]) (VFloat (1 # 90))
      (constant [[1; 0]; [0; 1]]%Q) (constant [[1; 0]; [0; 0]]%Q) "linear" None = Ok nodes /\
    length nodes = 2%nat /\
    nodes !! 1%nat = Some nd /\ nd env1 = Ok out /\ length out = 2%nat /\
    out !! 0%nat = Some (SpatialTransformer (Some "linear")
                           (get_prob_from_label [1; 0]%Q (VInt 2) (VFloat (1 # 90)))
                           [1; 0]%Q).
Proof.
  destruct (warped_atlases_prob_per_scale (E:=one_dim) 2 [VInt 1; VInt 2] (VFloat (1 # 90))
              (constant [[1; 0]; [0; 1]]%Q) (constant [[1; 0]; [0; 0]]%Q) "linear")
    as (nodes & Hnodes & Hlen & Hat); [lia|].
  destruct (Hat 1%nat (VInt 2) env1 [[1; 0]; [0; 1]]%Q [[1; 0]; [0; 0]]%Q
              eq_refl eq_refl eq_refl eq_refl eq_refl)
    as (nd & out & Hnd & Hout & Hlo & Hslice).
  exists nodes, nd, out. repeat split; try assumption.
  apply Hslice; reflexivity.
Defined.

Lemma diffeomorphic_integration_witness :
  (exists vec ddf,
     integrate_velocity (net_config "ddf_label" true 1) (constant [[1; 0]]%Q)
       = Ok (delete "int_steps" (net_config "ddf_label" true 1), Some 1, Some vec, ddf) /\
     vec env1 = Ok (stacked_map (fun x => x / 2 ^ 1)%Q [[1; 0]]%Q) /\
     ddf env1 = Ok (map (Nat.iter 1 (fun d => tensor_zip Qplus d (resample d d)))
                        (stacked_map (fun x => x / 2 ^ 1)%Q [[1; 0]]%Q))) /\
  (exists vec ddf,
     integrate_velocity (net_config "ddf_label" true 0) (constant [[1; 0]]%Q)
       = Ok (delete "int_steps" (net_config "ddf_label" true 0), Some 0, Some vec, ddf) /\
     ddf env1 = Ok [[1; 0]]%Q).
Proof.
  split.
  - destruct (diffeomorphic_integration (E:=one_dim) (net_config "ddf_label" true 1)
                (constant [[1; 0]]%Q) (VBool true) 1 eq_refl eq_refl eq_refl)
      as (vec & ddf & Hint & Hat).
    destruct (Hat env1 [[1; 0]]%Q eq_refl) as (Hvec & Hddf & _).
    by exists vec, ddf.
  - destruct (diffeomorphic_integration (E:=one_dim) (net_config "ddf_label" true 0)
                (constant [[1; 0]]%Q) (VBool true) 0 eq_refl eq_refl eq_refl)
      as (vec & ddf & Hint & Hat).
    destruct (Hat env1 [[1; 0]]%Q eq_refl) as (_ & _ & Hid).
    exists vec, ddf. split; [assumption|]. by apply Hid.
Defined.



Lemma segmenter_reweighted_witness :
  segmenter net_label env1
  = Ok (get_segmentation
          (get_joint_prob
             (stacked_zip Qmult
                (zip_with (fun l d => SpatialTransformer (Some "linear")
                                        (get_prob_from_label l (VInt 1) (VFloat (1 # 90))) d)
                          [[1; 0]]%Q [[1; 0]]%Q)
                (zip_with (SpatialTransformer (Some "linear")) [[1; 1]]%Q [[1; 0]]%Q)))) /\
  raises (segmenter net_label env_no_weights).
Proof.
  destruct (segmenter_reweighted (E:=one_dim) 1 2 1 _ None _ net_label build_net_label)
    as (sigma0 & prob0 & Hs0 & _ & Hseg & Hfeed & Hraise).
  assert (sigma0 = VInt 1) as -> by (change (Ok (VInt 1) = Ok sigma0) in Hs0; congruence).
  assert (HD : ddf (self net_label) env1 = Ok [[1; 0]]%Q) by (vm_compute; reflexivity).
  destruct (Hfeed env1 false [[1; 0]]%Q [[1; 1]]%Q [[1; 0]]%Q
              eq_refl eq_refl eq_refl eq_refl eq_refl HD eq_refl) as [HP HW].
  split; [by apply Hseg|]. apply Hraise. reflexivity.
Defined.

(** C1, the claim as stated fails: without atlas weights the unweighted
    joint probability gives a segmentation, but the segmenter raises. *)
Lemma segmenter_without_weights_counterexample :
  (joint0 ← list_getitem (atlases_joint_prob (self net_label)) 0;
   j ← joint0 env_no_weights;
   Ok (get_segmentation j)) = Ok [1; 0]%Q /\
  segmenter net_label env_no_weights = Raise (InvalidArgumentError "atlases_weight") /\
  segmenter net_label env_no_weights <> Ok [1; 0]%Q.
Proof.
  split; [vm_compute; reflexivity|].
  assert (H : segmenter net_label env_no_weights
              = Raise (InvalidArgumentError "atlases_weight")) by (vm_compute; reflexivity).
  split; [exact H|]. rewrite H. discriminate.
Qed.

Lemma regularizers_consume_warping_field_witness :
  (exists k, int_steps (self net_diffeo) = Some k /\
     ddf (self net_diffeo) env1
       = Ok (integrate_vec (stacked_map (fun x => x / 2 ^ k)%Q [[1; 0]]%Q) k)) /\
  (exists D, ddf (self net_diffeo) env1 = Ok D /\
     pretrain_cost net_diffeo env1 = Ok (reduce_mean_stacked (stacked_map tf_square D)) /\
     exists nj, num_neg_jacob net_diffeo_bending = Some nj /\
       nj env1 = Ok (count_nonzero_less_equal_0
                       (reduce_mean_stacked (map compute_jacobian_determinant D)))).
Proof.
  destruct (regularizers_consume_warping_field (E:=one_dim) 1 2 1 _ None _ net_diffeo
              build_net_diffeo)
    as (raw & Hraw & _ & _ & Hint & Hpre & Hbend).
  assert (Hnet : network_output (self net_diffeo) (net_config "ddf_label" true 1)
                 = Ok raw).
  { unfold network_output.
    change (n_atlas (self net_diffeo)) with 1%nat. by rewrite Hraw. }
  destruct (ok_value (network_output (self net_diffeo) (net_config "ddf_label" true 1))
              eq_refl) as [raw' Hraw'].
  assert (HR : raw env1 = Ok [[1; 0]]%Q).
  { assert (raw = proj1_sig (ok_value (network_output (self net_diffeo)
                                         (net_config "ddf_label" true 1)) eq_refl)) as ->.
    { destruct (ok_value _ _) as [r Hr]. simpl. congruence. }
    vm_compute. reflexivity. }
  split.
  - destruct (Hint (VBool true) eq_refl) as (k & Hk & Hd).
    exists k. split; [exact Hk|]. by apply Hd.
  - assert (HD : ddf (self net_diffeo) env1 = Ok [[6 # 8; 0 # 2]]%Q)
      by (vm_compute; reflexivity).
    exists [[6 # 8; 0 # 2]]%Q. split; [exact HD|]. split; [by apply Hpre|].
    destruct (Hbend 10 1 net_diffeo_bending (VStr "bending_energy") eq_refl eq_refl
                (proj2_sig bent_diffeo))
      as (rate & base & be & nj & _ & Hnj & Hat).
    exists nj. split; [exact Hnj|].
    by destruct (Hat env1 _ HD eq_refl) as [_ Hj].
Defined.

(** C2, the claim as stated fails: with ['diffeomorphism'] on, the
    pretraining cost is not the mean square of the network output. *)
Lemma pretrain_cost_of_network_output_counterexample :
  exists p q,
    pretrain_cost net_diffeo env1 = Ok p /\
    (raw ← network_output (self net_diffeo) (net_config "ddf_label" true 1);
     _get_pretrain_cost raw env1) = Ok q /\
    (p == 9 # 32)%Q /\ (q == 1 # 2)%Q /\ ~ (p == q)%Q.
Proof.
  eexists _, _. split; [vm_compute; reflexivity|]. split; [vm_compute; reflexivity|].
  split; [reflexivity|]. split; [reflexivity|]. intros H. vm_compute in H. discriminate.
Qed.

Lemma cost_with_regularization_witness :
  exists v sl r,
    (variant ← _get_cost_variant (self net_score); variant env1) = Ok v /\
    scores_loss net_score env1 = Ok sl /\
    regularization_loss (self net_score) env1 = Ok r /\
    cost net_score env1 = Ok (v + sl + r * (1 # 2))%Q /\
    forall env, cost net_label_zero env
                = (variant ← _get_cost_variant (self net_label_zero); variant env).
Proof.
  destruct (cost_with_regularization (E:=one_dim) 1 2 1 _ None _ net_score build_net_score)
    as (variant & base & Hv & Hbase & Hon & _).
  destruct (cost_with_regularization (E:=one_dim) 1 2 1 _ None _ net_label_zero
              build_net_label_zero)
    as (variant0 & base0 & Hv0 & Hbase0 & _ & Hoff0).
  exists (1 # 2)%Q, (2 # 4)%Q, 1%Q.
  assert (Hvar : variant env1 = Ok (1 # 2)%Q).
  { assert (variant = proj1_sig (ok_value (_get_cost_variant (self net_score)) eq_refl))
      as ->.
    { destruct (ok_value _ _) as [r Hr]. simpl. congruence. }
    vm_compute. reflexivity. }
  assert (Hsl : scores_loss net_score env1 = Ok (2 # 4)%Q) by (vm_compute; reflexivity).
  assert (Hr : regularization_loss (self net_score) env1 = Ok 1%Q)
    by (vm_compute; reflexivity).
  split; [by rewrite Hv, bind_Ok|]. split; [exact Hsl|]. split; [exact Hr|]. split.
  - specialize (Hbase (VStr "ddf_score") eq_refl).
    change (py_eq_str (VStr "ddf_score") "ddf_score") with true in Hbase.
    exact (Hon (VFloat (1 # 2)) (1 # 2)%Q eq_refl eq_refl eq_refl eq_refl env1 _ _
             (Hbase env1 _ _ Hvar Hsl) Hr).
  - intros env. rewrite Hv0, bind_Ok.
    specialize (Hbase0 (VStr "ddf_label") eq_refl).
    change (py_eq_str (VStr "ddf_label") "ddf_score") with false in Hbase0.
    rewrite <- Hbase0. apply Hoff0.
    right. exists (VFloat 0). split; reflexivity.
Defined.

(** C5, the claim as stated fails: with the ['ddf_score'] method the cost
    is not the selected loss plus the coefficient times the regularization
    loss, for the scores loss is added as well. *)
Lemma cost_in_score_mode_counterexample :
  exists c v r,
    cost net_score env1 = Ok c /\
    (variant ← _get_cost_variant (self net_score); variant env1) = Ok v /\
    regularization_loss (self net_score) env1 = Ok r /\
    py_in_strs (net_regularizer (self net_score)) ["l2"; "l1"] = true /\
    py_getitem (regularization_coefficient (self net_score)) 0 = Ok (VFloat (1 # 2)) /\
    (c == 3 # 2)%Q /\ ~ (c == v + r * (1 # 2))%Q.
Proof.
  eexists _, _, _. split; [vm_compute; reflexivity|]. split; [vm_compute; reflexivity|].
  split; [vm_compute; reflexivity|]. split; [reflexivity|]. split; [reflexivity|].
  split; [reflexivity|]. intros H. vm_compute in H. discriminate.
Qed.

Lemma scores_regression_witness :
  (scores_gt net_score env1
   = Ok (stacked_zip Qplus
           (map (averaged_foreground_jaccard 2 [1; 0]%Q) [[0; 0]]%Q)
           (map (fun p => reduce_mean_axis12
                            (tensor_map (fun x => tf_pow x (3 # 10))
                               (CrossEntropy_loss [1; 0]%Q
                                  (tensor_map (fun x => 1 - x)%Q p)))) [[0; 0]]%Q)) /\
   exists gt, scores_gt net_score env1 = Ok gt /\
     scores_loss net_score env1
     = Ok (reduce_mean_stacked (stacked_map tf_abs (stacked_zip Qminus [[0]]%Q gt)))) /\
  scores_loss net_label = constant 0%Q.
Proof.
  split.
  - destruct (scores_regression (E:=one_dim) 1 2 1 _ None _ net_score (VStr "ddf_score")
                build_net_score eq_refl) as (variant & Hv & H).
    change (py_eq_str (VStr "ddf_score") "ddf_score") with true in H.
    destruct H as (prob0 & predicted & Hp0 & Hpred & _ & Hat).
    assert (HP : prob0 env1 = Ok [[0; 0]]%Q).
    { assert (prob0 = proj1_sig (ok_value
                (list_getitem (warped_atlases_prob (self net_score)) 0) eq_refl)) as ->.
      { destruct (ok_value _ _) as [r Hr]. simpl. congruence. }
      vm_compute. reflexivity. }
    assert (HS : predicted env1 = Ok [[0]]%Q).
    { assert (scores (self net_score)
              = Some (proj1_sig (ok_value
                  (match scores (self net_score) with
                   | Some sc => Ok sc
                   | None => Raise (AttributeError "scores")
                   end) eq_refl))) as Hsc.
      { destruct (ok_value _ _) as [r Hr]. simpl.
        destruct (scores (self net_score)); congruence. }
      rewrite Hsc in Hpred. injection Hpred as <-. vm_compute. reflexivity. }
    destruct (Hat env1 [1; 0]%Q [[0; 0]]%Q [[0]]%Q) as [Hgt Hsl];
      [vm_compute; reflexivity | exact HP | reflexivity | exact HS |].
    split; [exact Hgt|]. eexists. split; [exact Hgt|exact Hsl].
  - destruct (scores_regression (E:=one_dim) 1 2 1 _ None _ net_label (VStr "ddf_label")
                build_net_label eq_refl) as (variant & Hv & H).
    change (py_eq_str (VStr "ddf_label") "ddf_score") with false in H.
    by destruct H as [H _].
Defined.

(** C3, the code at a failing input: the determinant field of the
    displacement [0; -2; 0] is [-1; 3], so one location folds, yet the
    reported number of non-positive Jacobians is 0. *)
Lemma num_neg_jacob_misses_folding :
  (d ← ddf (self net_fold) env_fold; Ok (map compute_jacobian_determinant d))
    = Ok [[-1; 3]]%Q /\
  (d ← ddf (self net_fold) env_fold;
   Ok (count_non_positive (map compute_jacobian_determinant d))) = Ok 1%Q /\
  get_num_neg_jacob net_fold env_fold = Ok 0%Q.
Proof. repeat split; vm_compute; reflexivity. Qed.

(** * Further properties of the code *)

Section MoreProperties.
Context `{E : Externals}.

Lemma build_graph_inv_data ch nc na ck ak nk (s : Self) :
  build_graph ch nc na ck ak nk = Ok s ->
  let ck0 := default ∅ ck in
  exists multi_scale : bool,
    py_str_in "multi_scale" (cost_name s) = Ok multi_scale /\
    prob_sigma s =
      (if multi_scale
       then dict_get ck0 "prob_sigma" (VTuple [VInt 1; VInt 2; VInt 4; VInt 8])
       else dict_get ck0 "prob_sigma" (VTuple [VInt 1])) /\
    cost_kwargs s = delete "prior_prob" ck0 /\
    prior_tensor (dict_get ck0 "prior_prob" VNone) nc = Ok (pi s) /\
    dropout_rate s = placeholder "dropout_rate" feed_dropout_rate /\
    data s =
      {| target_image := placeholder "target_image" feed_target_image;
         target_label := placeholder "target_label" feed_target_label;
         target_weight := placeholder "target_weight" feed_target_weight;
         atlases_image := placeholder_atlases na "atlases_image" feed_atlases_image;
         atlases_label := placeholder_atlases na "atlases_label" feed_atlases_label;
         atlases_weight := placeholder_atlases na "atlases_weight" feed_atlases_weight |}.
Proof.
  unfold build_graph. intros H.
  apply bind_Ok_inv in H as (ms & Hms & H).
  apply bind_Ok_inv in H as (reg & Hreg & H).
  unfold dict_pop in H.
  apply bind_Ok_inv in H as (p & Hp & H).
  apply bind_Ok_inv in H as ([[raw rl] sc] & Hnet & H).
  apply bind_Ok_inv in H as ([[[nk' steps] v] d] & Hint & H).
  apply bind_Ok_inv in H as (sigma0 & Hs0 & H).
  apply bind_Ok_inv in H as (wap & Hwap & H).
  apply bind_Ok_inv in H as (waw & Hwaw & H).
  injection H as <-. simpl. exists ms. by repeat split.
Qed.

(** ** Data augmentation *)

(** X1. In a constructed model the six entries of [self.augmented_data]
    need the [train_phase] feed.  With [train_phase] false every entry is
    the placeholder of the same name, so validation and prediction see the
    data as fed; with [train_phase] true the three atlas entries are still
    the fed atlases (the atlases are never augmented) and the target
    entries are the fed target tensors after the random affine map, with
    nearest interpolation for the label and linear for image and weight. *)
Theorem augmented_data_by_phase ch nc na (ck ak : option kwargs) (nk : kwargs)
    (net : Net) :
  __init__ ch nc na ck ak nk = Ok net ->
  let aug := augmented_data (self net) in
  let d := data (self net) in
  forall env,
    match feed_train_phase env with
    | None =>
        raises (target_image aug env) /\ raises (target_label aug env) /\
        raises (target_weight aug env) /\ raises (atlases_image aug env) /\
        raises (atlases_label aug env) /\ raises (atlases_weight aug env)
    | Some tp =>
        atlases_image aug env = atlases_image d env /\
        atlases_label aug env = atlases_label d env /\
        atlases_weight aug env = atlases_weight d env /\
        if tp then
          target_image aug env
            = (v ← target_image d env; Ok (random_affine_augment (default ∅ ak) "linear" v)) /\
          target_label aug env
            = (v ← target_label d env; Ok (random_affine_augment (default ∅ ak) "nearest" v)) /\
          target_weight aug env
            = (v ← target_weight d env; Ok (random_affine_augment (default ∅ ak) "linear" v))
        else
          target_image aug env = target_image d env /\
          target_label aug env = target_label d env /\
          target_weight aug env = target_weight d env
    end.
Proof.
  intros Hinit aug d env. subst aug d.
  apply __init___inv in Hinit as (s & nodes & seg & Hs & _ & _ & ->). simpl.
  apply build_graph_inv in Hs as (raw & sigma0 & Hs). simpl in Hs.
  destruct Hs as (_ & _ & _ & _ & _ & _ & Htp & _ & _ & -> & _).
  rewrite Htp. unfold _get_augmented_data, placeholder. simpl.
  destruct (feed_train_phase env) as [[|]|]; simpl;
    repeat split; try reflexivity; apply raises_Raise.
Qed.

(** ** Which feeds a fetch needs *)

Lemma create_network_eval aug dr na tp reg (nk : kwargs) raw rl sc env
    (ti : tensor) (ai : stacked) (d : Q) (t : bool) :
  create_network aug dr na tp reg nk = Ok (raw, rl, sc) ->
  target_image aug env = Ok ti -> atlases_image aug env = Ok ai ->
  dr env = Ok d -> tp env = Ok t ->
  exists D, raw env = Ok D.
Proof.
  unfold create_network. intros H Hti Hai Hd Ht.
  apply bind_Ok_inv in H as (m & _ & H).
  destruct (py_eq_str m "ddf_label").
  - apply bind_Ok_inv in H as (u & _ & H). injection H as <- _ _.
    rewrite Hti, bind_Ok, Hai, bind_Ok, Hd, bind_Ok, Ht. simpl. by eexists.
  - destruct (py_eq_str m "ddf_score"); [|discriminate].
    apply bind_Ok_inv in H as (u & _ & H). injection H as <- _ _.
    rewrite Hti, bind_Ok, Hai, bind_Ok, Hd, bind_Ok, Ht. simpl. by eexists.
Qed.

Lemma create_network_unfed aug dr na tp reg (nk : kwargs) raw rl sc env :
  create_network aug dr na tp reg nk = Ok (raw, rl, sc) ->
  raises (target_image aug env) \/ raises (atlases_image aug env) \/
  raises (dr env) \/ raises (tp env) ->
  raises (raw env).
Proof.
  unfold create_network. intros H Hun.
  assert (Hin : raises (ti ← target_image aug env; ai ← atlases_image aug env;
                        d ← dr env; t ← tp env; Ok (ti, ai, d, t))).
  { destruct Hun as [[e He]|[[e He]|[[e He]|[e He]]]].
    - rewrite He. apply raises_Raise.
    - apply raises_bind. intros ? _. rewrite He. apply raises_Raise.
    - apply raises_bind. intros ? _. apply raises_bind. intros ? _.
      rewrite He. apply raises_Raise.
    - apply raises_bind. intros ? _. apply raises_bind. intros ? _.
      apply raises_bind. intros ? _. rewrite He. apply raises_Raise. }
  destruct Hin as [e He].
  apply bind_Ok_inv in H as (m & _ & H).
  destruct (py_eq_str m "ddf_label").
  - apply bind_Ok_inv in H as (u & _ & H). injection H as <- _ _.
    rewrite He. apply raises_Raise.
  - destruct (py_eq_str m "ddf_score"); [|discriminate].
    apply bind_Ok_inv in H as (u & _ & H). injection H as <- _ _.
    rewrite He. apply raises_Raise.
Qed.

Lemma integrate_velocity_eval (nk nk' : kwargs) (raw ddf : node stacked) st v env R :
  integrate_velocity nk raw = Ok (nk', st, v, ddf) ->
  raw env = Ok R -> exists D, ddf env = Ok D.
Proof.
  unfold integrate_velocity, dict_pop. intros H HR.
  apply bind_Ok_inv in H as (dv & _ & H).
  destruct (py_truthy dv).
  - apply bind_Ok_inv in H as (k & _ & H). injection H as _ _ _ <-.
    rewrite HR. simpl. by eexists.
  - injection H as _ _ _ <-. by exists R.
Qed.

Lemma integrate_velocity_unfed (nk nk' : kwargs) (raw ddf : node stacked) st v env :
  integrate_velocity nk raw = Ok (nk', st, v, ddf) ->
  raises (raw env) -> raises (ddf env).
Proof.
  unfold integrate_velocity, dict_pop. intros H [e He].
  apply bind_Ok_inv in H as (dv & _ & H).
  destruct (py_truthy dv).
  - apply bind_Ok_inv in H as (k & _ & H). injection H as _ _ _ <-.
    rewrite He. apply raises_Raise.
  - injection H as _ _ _ <-. rewrite He. apply raises_Raise.
Qed.

(** X2. The displacement field and the pretraining cost depend on four
    feeds only: the target image, the atlas images (with [n_atlas] slices),
    the dropout rate and the train phase.  With these fed they evaluate,
    whatever the labels and weights are, fed or not; with the target image
    not fed they raise. *)
Theorem pretrain_cost_needs_images_only ch nc na (ck ak : option kwargs)
    (nk : kwargs) (net : Net) :
  __init__ ch nc na ck ak nk = Ok net ->
  (forall env ti ai dr tp,
     feed_target_image env = Some ti ->
     feed_atlases_image env = Some ai -> length ai = na ->
     feed_dropout_rate env = Some dr -> feed_train_phase env = Some tp ->
     exists D, ddf (self net) env = Ok D /\
               pretrain_cost net env
                 = Ok (reduce_mean_stacked (stacked_map tf_square D))) /\
  (forall env, feed_target_image env = None ->
     raises (ddf (self net) env) /\ raises (pretrain_cost net env)).
Proof.
  intros Hinit.
  apply __init___inv in Hinit as (s & nodes & seg & Hs & _ & _ & ->). simpl.
  pose proof (build_graph_inv_data _ _ _ _ _ _ _ Hs)
    as (ms & _ & _ & _ & _ & Hdr & Hdata).
  apply build_graph_inv in Hs as (raw & sigma0 & Hs). simpl in Hs.
  destruct Hs as (_ & _ & _ & _ & _ & _ & Htp & _ & _ & Haug & Hnet & Hint & _).
  split.
  - intros env ti ai dr tp Hti Hai Hlen Hd Hphase.
    assert (Hphase' : train_phase s env = Ok tp).
    { rewrite Htp. unfold placeholder. by rewrite Hphase. }
    assert (exists ti', target_image (augmented_data s) env = Ok ti') as [ti' Hti'].
    { rewrite Haug, Hdata. simpl. rewrite Hphase', bind_Ok. unfold placeholder.
      rewrite Hti. destruct tp; simpl; by eexists. }
    assert (Hai' : atlases_image (augmented_data s) env = Ok ai).
    { rewrite Haug, Hdata. simpl. rewrite Hphase', bind_Ok.
      unfold placeholder_atlases. rewrite Hai, Hlen, Nat.eqb_refl. by destruct tp. }
    assert (Hd' : dropout_rate s env = Ok dr).
    { rewrite Hdr. unfold placeholder. by rewrite Hd. }
    destruct (create_network_eval _ _ _ _ _ _ _ _ _ env ti' ai dr tp Hnet Hti' Hai' Hd' Hphase')
      as [R HR].
    destruct (integrate_velocity_eval _ _ _ _ _ _ env R Hint HR) as [D HD].
    exists D. split; [done|]. unfold _get_pretrain_cost. by rewrite HD.
  - intros env Hnone.
    assert (Hraw : raises (raw env)).
    { apply (create_network_unfed _ _ _ _ _ _ _ _ _ env Hnet). left.
      rewrite Haug, Hdata. simpl. apply raises_bind. intros t _.
      unfold placeholder. rewrite Hnone. destruct t; apply raises_Raise. }
    pose proof (integrate_velocity_unfed _ _ _ _ _ _ env Hint Hraw) as [e He].
    split; [by exists e|]. unfold _get_pretrain_cost. rewrite He. apply raises_Raise.
Qed.

(** ** The class prior *)

(** X3. Without a ['prior_prob'] in [cost_kwargs] (or with [None]) the class
    prior of a constructed model is uniform: [n_class] entries [1 / n_class],
    and [n_class] is positive.  A prior that is given is used as it is and
    has [n_class] entries.  In both cases ['prior_prob'] is removed from the
    keyword dictionary that the loss classes receive. *)
Theorem class_prior ch nc na (ck ak : option kwargs) (nk : kwargs) (net : Net) :
  __init__ ch nc na ck ak nk = Ok net ->
  cost_kwargs (self net) !! "prior_prob" = None /\
  length (pi (self net)) = nc /\
  match dict_get (default ∅ ck) "prior_prob" VNone with
  | VNone =>
      (0 < nc)%nat /\
      pi (self net) = replicate nc (1 / inject_Z (Z.of_nat nc))%Q
  | v => py_tensor v = Ok (pi (self net))
  end.
Proof.
  intros Hinit.
  apply __init___inv in Hinit as (s & nodes & seg & Hs & _ & _ & ->). simpl.
  pose proof (build_graph_inv_data _ _ _ _ _ _ _ Hs)
    as (ms & _ & _ & Hck & Hpi & _ & _).
  split; [rewrite Hck; apply lookup_delete_eq|].
  unfold prior_tensor in Hpi.
  destruct (dict_get (default ∅ ck) "prior_prob" VNone) eqn:Hprior;
    try (apply bind_Ok_inv in Hpi as (t & Ht & Hpi);
         destruct (Nat.eqb_spec (length t) nc) as [Hlen|]; [|discriminate];
         injection Hpi as <-; by split).
  destruct nc as [|nc]; [discriminate|]. injection Hpi as <-.
  change ((1 / inject_Z (Z.of_nat (S nc)))%Q
          :: replicate nc (1 / inject_Z (Z.of_nat (S nc)))%Q)
    with (replicate (S nc) (1 / inject_Z (Z.of_nat (S nc)))%Q).
  split; [by rewrite length_replicate|]. split; [lia|done].
Qed.

(** ** The scale set *)

Lemma for_each_length {A B} (f : A -> result B) (l : list A) (r : list B) :
  for_each f l = Ok r -> length r = length l.
Proof.
  revert r. induction l as [|x l IH]; simpl; intros r H.
  - by injection H as <-.
  - apply bind_Ok_inv in H as (y & _ & H).
    apply bind_Ok_inv in H as (ys & Hys & H). injection H as <-.
    simpl. by rewrite (IH ys).
Qed.

(** X4. A constructed model has one warped-probability node and one
    joint-probability node per entry of [prob_sigma], and at least one.
    [prob_sigma] is the value given in [cost_kwargs]; when none is given it
    is [(1, 2, 4, 8)] if the cost name contains ['multi_scale'] and [(1,)]
    otherwise. *)
Theorem one_node_per_scale ch nc na (ck ak : option kwargs) (nk : kwargs) (net : Net) :
  __init__ ch nc na ck ak nk = Ok net ->
  let s := self net in
  py_len (prob_sigma s) = Ok (length (warped_atlases_prob s)) /\
  length (atlases_joint_prob s) = length (warped_atlases_prob s) /\
  (0 < length (warped_atlases_prob s))%nat /\
  exists multi_scale : bool,
    py_str_in "multi_scale" (cost_name s) = Ok multi_scale /\
    prob_sigma s =
      dict_get (default ∅ ck) "prob_sigma"
        (if multi_scale then VTuple [VInt 1; VInt 2; VInt 4; VInt 8]
         else VTuple [VInt 1]).
Proof.
  intros Hinit s. subst s.
  apply __init___inv in Hinit as (s & nodes & seg & Hs & _ & Hseg & ->). simpl.
  pose proof (build_graph_inv_data _ _ _ _ _ _ _ Hs) as (ms & Hms & Hps & _).
  apply build_graph_inv in Hs as (raw & sigma0 & Hs). simpl in Hs.
  destruct Hs as (_ & _ & _ & _ & _ & _ & _ & _ & _ & _ & _ & _ & _ & _ & Hwap & _ & Hjoint).
  unfold _get_warped_atlases_prob in Hwap.
  apply bind_Ok_inv in Hwap as (len & Hlen & Hwap).
  apply for_each_length in Hwap. rewrite length_seq in Hwap.
  split; [by rewrite Hwap|]. split; [by rewrite Hjoint, length_map|]. split.
  - unfold get_segmenter in Hseg. apply bind_Ok_inv in Hseg as (p & Hp & _).
    unfold list_getitem in Hp. destruct (warped_atlases_prob s); [discriminate|].
    simpl. lia.
  - exists ms. split; [done|]. rewrite Hps. by destruct ms.
Qed.

(** ** Keywords handed to the network body *)

(** X5. [__init__] passes [dropout_rate], [n_atlas], [train_phase] and
    [regularizer] to the network body by keyword and [net_kwargs] by
    [**net_kwargs]: a [net_kwargs] that holds one of these four keys makes
    the constructor raise. *)
Theorem network_keywords_clash ch nc na (ck ak : option kwargs) (nk : kwargs)
    (key : string) :
  In key ["dropout_rate"; "n_atlas"; "train_phase"; "regularizer"] ->
  is_Some (nk !! key) ->
  raises (__init__ ch nc na ck ak nk).
Proof.
  intros Hin Hsome. unfold __init__. apply raises_bind. intros s Hs. exfalso.
  apply build_graph_inv in Hs as (raw & sigma0 & Hs). simpl in Hs.
  destruct Hs as (_ & _ & _ & _ & _ & _ & _ & _ & _ & _ & Hnet & _).
  assert (Hclash : check_keywords ["dropout_rate"; "n_atlas"; "train_phase"; "regularizer"] nk
                   = Raise TypeError).
  { unfold check_keywords.
    assert (existsb (fun k => bool_decide (is_Some (nk !! k)))
              ["dropout_rate"; "n_atlas"; "train_phase"; "regularizer"] = true) as ->; [|done].
    apply existsb_exists. exists key. split; [done|]. by apply bool_decide_eq_true. }
  unfold create_network in Hnet.
  apply bind_Ok_inv in Hnet as (m & _ & Hnet).
  rewrite Hclash in Hnet.
  destruct (py_eq_str m "ddf_label"); [discriminate|].
  destruct (py_eq_str m "ddf_score"); discriminate.
Qed.

(** ** Squared losses *)

Lemma tf_square_nonneg (x : Q) : (0 <= tf_square x)%Q.
Proof. destruct x as [a b]. unfold tf_square, Qle, Qmult. simpl. nia. Qed.

Lemma tensor_sum_nonneg (t : tensor) :
  Forall (fun x => 0 <= x)%Q t -> (0 <= tensor_sum t)%Q.
Proof.
  induction 1 as [|x t Hx _ IH]; simpl; [apply Qle_refl|].
  replace 0%Q with (0 + 0)%Q by reflexivity. by apply Qplus_le_compat.
Qed.

Lemma reduce_mean_nonneg (t : tensor) :
  Forall (fun x => 0 <= x)%Q t -> (0 <= reduce_mean t)%Q.
Proof.
  intros H. unfold reduce_mean, Qdiv. apply Qmult_le_0_compat.
  - by apply tensor_sum_nonneg.
  - apply Qinv_le_0_compat. unfold Qle. simpl. lia.
Qed.

Lemma squares_nonneg (D : stacked) :
  Forall (fun x => 0 <= x)%Q (concat (stacked_map tf_square D)).
Proof.
  induction D as [|t D IH]; simpl; [constructor|].
  apply Forall_app. split; [|done].
  unfold tensor_map. apply Forall_map, Forall_forall. intros x _. apply tf_square_nonneg.
Qed.

(** X6. The pretraining cost of a constructed model is never negative,
    and it is zero when the displacement field has entries and all of them
    are zero. *)
Theorem pretrain_cost_nonnegative ch nc na (ck ak : option kwargs) (nk : kwargs)
    (net : Net) :
  __init__ ch nc na ck ak nk = Ok net ->
  forall env p,
    pretrain_cost net env = Ok p ->
    (0 <= p)%Q /\
    forall D, ddf (self net) env = Ok D -> concat D <> [] ->
              Forall (Forall (fun x => x == 0)%Q) D -> (p == 0)%Q.
Proof.
  intros Hinit env p Hp.
  apply __init___inv in Hinit as (s & nodes & seg & _ & _ & _ & ->). simpl in *.
  unfold _get_pretrain_cost in Hp.
  apply bind_Ok_inv in Hp as (D0 & HD0 & Hp). injection Hp as <-.
  split; [apply reduce_mean_nonneg, squares_nonneg|].
  intros D HD _ Hz. rewrite HD in HD0. injection HD0 as <-.
  by apply reduce_mean_zero, squares_of_zero.
Qed.




End MoreProperties.

(** * Properties of the trainer *)

Import Metrics TrainerRun.

Section TrainerProperties.
Context `{E : Externals} `{R : RunExternals}.

Lemma check_keywords_Ok (keys : list string) (d : kwargs) (u : unit) :
  check_keywords keys d = Ok u -> Forall (fun k => d !! k = None) keys.
Proof.
  unfold check_keywords.
  destruct (existsb _ keys) eqn:Hex; [discriminate|]. intros _.
  apply existsb_false_Forall in Hex. eapply Forall_impl; [exact Hex|].
  intros k Hk. simpl in Hk. apply bool_decide_eq_false in Hk.
  destruct (d !! k); [|done]. exfalso. apply Hk. by eexists.
Qed.

Lemma check_keywords_clash (keys : list string) (d : kwargs) (key : string) :
  In key keys -> is_Some (d !! key) -> check_keywords keys d = Raise TypeError.
Proof.
  intros Hin Hsome. unfold check_keywords.
  assert (existsb (fun k => bool_decide (is_Some (d !! k))) keys = true) as ->; [|done].
  apply existsb_exists. exists key. split; [done|]. by apply bool_decide_eq_true.
Qed.

(** What [_get_optimizer] returns for the keywords that [_initialize]
    passes: no ['optimizer'], no ['decay_step'], and ['lr'], ['step_size']
    and ['gamma'] given. *)
Lemma _get_optimizer_inv (t : Trainer) (cost : node Q) (clip : bool) (kw : kwargs)
    (l ss g : pyval) (o : optimizer) (op : train_op) (ilr : pyval)
    (lrn : learning_rate_node) :
  kw !! "optimizer" = None -> kw !! "decay_step" = None ->
  kw !! "lr" = Some l -> kw !! "step_size" = Some ss -> kw !! "gamma" = Some g ->
  _get_optimizer t cost clip kw = Ok (o, op, ilr, lrn) ->
  ilr = l /\
  op = {| minimized := cost; clipped_by_global_norm := clip |} /\
  opt_kwargs t !! "learning_rate" = None /\
  match o with
  | MomentumOptimizer lr m okw =>
      lr = lrn /\ okw = opt_kwargs t /\ m = VFloat (9 # 10) /\
      opt_kwargs t !! "momentum" = None /\
      py_eq_str (optimizer_name t) "momentum" = true
  | GradientDescentOptimizer lr okw | RMSPropOptimizer lr okw | AdamOptimizer lr okw =>
      lr = lrn /\ okw = opt_kwargs t /\
      py_eq_str (optimizer_name t) "momentum" = false
  end /\
  match lrn with
  | ExponentialDecay lr0 decay_steps decay_rate =>
      lr0 = l /\ decay_steps = VInt 100000 /\
      decay_rate = dict_get (opt_kwargs t) "decay_rate" (VFloat (999 # 1000))
  | LearningRateVariable lr0 => lr0 = l
  | CyclicLearningRate lr0 max_lr step_size gamma =>
      lr0 = l /\ times_ten l = Ok max_lr /\ step_size = ss /\ gamma = g
  end.
Proof.
  intros Hopt Hds Hlr Hss Hg. unfold _get_optimizer, dict_pop.
  rewrite Hopt. simpl default.
  rewrite (lookup_delete_ne kw "optimizer" "decay_step") by done.
  rewrite Hds. simpl default.
  rewrite !lookup_delete_ne by done. rewrite Hlr, Hss, Hg. simpl default.
  intros H. apply bind_Ok_inv in H as ([[o' ilr'] lrn'] & Hb & H).
  injection H as <- <- <- <-.
  repeat match type of Hb with
         | (if ?c then _ else _) = _ => destruct c eqn:?
         end; try discriminate;
    repeat match type of Hb with
           | _ ≫= _ = Ok _ => apply bind_Ok_inv in Hb as (? & ? & Hb)
           end;
    injection Hb as <- <- <-;
    repeat match goal with
           | Hc : check_keywords _ _ = Ok _ |- _ =>
               apply check_keywords_Ok in Hc;
               repeat (apply Forall_cons in Hc as [? Hc])
           end;
    repeat split; try done;
    unfold dict_get;
    by match goal with Hm : _ !! "momentum" = None |- _ => rewrite Hm end.
Qed.

(** X8. The momentum of a momentum optimizer cannot be configured: whenever
    [_initialize] succeeds and the optimizer it builds is a
    [MomentumOptimizer], its momentum is the default 0.9 and [opt_kwargs],
    which the optimizer receives unchanged, holds no ['momentum'] entry. *)
Theorem momentum_is_fixed (t : Trainer) (training_iters self_iters decay_epochs : Z)
    (clip_gradient : bool) (pretrain_epochs : pyval) (r : Initialized)
    (lr : learning_rate_node) (momentum : pyval) (okw : kwargs) :
  _initialize t training_iters self_iters decay_epochs clip_gradient pretrain_epochs = Ok r ->
  init_optimizer r = MomentumOptimizer lr momentum okw ->
  momentum = VFloat (9 # 10) /\ okw = opt_kwargs t /\
  opt_kwargs t !! "momentum" = None /\ lr = init_learning_rate_node r.
Proof.
  unfold _initialize. intros H Ho.
  apply bind_Ok_inv in H as (n & _ & H).
  apply bind_Ok_inv in H as ([[[o op] ilr] lrn] & Hget & H).
  apply bind_Ok_inv in H as (pre & _ & H). injection H as <-. simpl in Ho. subst o.
  eapply _get_optimizer_inv in Hget as (_ & _ & _ & (-> & -> & -> & ? & _) & _);
    [|done..]. by simpl.
Qed.

(** X9. The learning-rate schedule that [_initialize] builds starts from
    the trainer's [learning_rate].  An exponential decay (optimizers
    ['momentum'] and ['sgd']) always has [decay_steps = 100000]: the value
    [training_iters * self_iters * decay_epochs] computed by [_initialize]
    is passed under the keyword ['decay_steps'], while [_get_optimizer]
    reads ['decay_step'], so it never reaches the schedule.  The cyclic
    schedule does use [2 * training_iters * self_iters] as its step size,
    with [gamma = 0.99998] and a maximum of ten times the learning rate. *)
Theorem learning_rate_schedule (t : Trainer) (training_iters self_iters decay_epochs : Z)
    (clip_gradient : bool) (pretrain_epochs : pyval) (r : Initialized) :
  _initialize t training_iters self_iters decay_epochs clip_gradient pretrain_epochs = Ok r ->
  init_lr r = learning_rate t /\
  match init_learning_rate_node r with
  | ExponentialDecay lr0 decay_steps decay_rate =>
      lr0 = learning_rate t /\ decay_steps = VInt 100000 /\
      decay_rate = dict_get (opt_kwargs t) "decay_rate" (VFloat (999 # 1000))
  | LearningRateVariable lr0 => lr0 = learning_rate t
  | CyclicLearningRate lr0 max_lr step_size gamma =>
      lr0 = learning_rate t /\ times_ten (learning_rate t) = Ok max_lr /\
      step_size = VInt (2 * training_iters * self_iters) /\
      gamma = VFloat (99998 # 100000)
  end.
Proof.
  unfold _initialize. intros H.
  apply bind_Ok_inv in H as (n & _ & H).
  apply bind_Ok_inv in H as ([[[o op] ilr] lrn] & Hget & H).
  apply bind_Ok_inv in H as (pre & _ & H). injection H as <-. simpl.
  eapply _get_optimizer_inv in Hget as (-> & _ & _ & _ & Hlrn); [|done..].
  by split.
Qed.

(** X10. Every optimizer is built with [learning_rate=...] and
    [**self.opt_kwargs] (the momentum optimizer with [momentum=...] as
    well): an [opt_kwargs] that holds ['learning_rate'], or ['momentum']
    for the momentum optimizer, makes [_initialize] raise, for every
    optimizer name. *)
Theorem optimizer_keywords_clash (t : Trainer) (training_iters self_iters decay_epochs : Z)
    (clip_gradient : bool) (pretrain_epochs : pyval) :
  is_Some (opt_kwargs t !! "learning_rate") \/
  (optimizer_name t = VStr "momentum" /\ is_Some (opt_kwargs t !! "momentum")) ->
  raises (_initialize t training_iters self_iters decay_epochs clip_gradient pretrain_epochs).
Proof.
  intros Hclash. unfold _initialize. apply raises_bind. intros n _.
  apply raises_bind. intros [[[o op] ilr] lrn] Hget. exfalso.
  eapply _get_optimizer_inv in Hget as (_ & _ & Hlr & Ho & _); [|done..].
  destruct Hclash as [[v Hv]|[Hname [v Hv]]]; [congruence|].
  destruct o; destruct Ho as (_ & _ & Ho);
    [destruct Ho as (_ & Hnone & _); congruence|..];
    rewrite Hname in Ho; discriminate.
Qed.

(** ** The regularizer tuple in [_initialize] *)

(** X11. [_initialize] reads [regularizer_type[1]] unconditionally: a model
    whose ['regularizer'] is a tuple with a single entry can be constructed,
    but initializing a trainer on it raises an IndexError. *)
Theorem regularizer_needs_two_entries ch nc na (ck ak : option kwargs) (nk : kwargs)
    (t : Trainer) (x : pyval) (training_iters self_iters decay_epochs : Z)
    (clip_gradient : bool) (pretrain_epochs : pyval) :
  __init__ ch nc na ck ak nk = Ok (net t) ->
  dict_get (default ∅ ck) "regularizer" VNone = VTuple [x] ->
  _initialize t training_iters self_iters decay_epochs clip_gradient pretrain_epochs
    = Raise IndexError.
Proof.
  intros Hinit Hreg.
  apply __init___inv in Hinit as (s & nodes & seg & Hs & _ & _ & Hnet).
  apply build_graph_inv in Hs as (raw & sigma0 & Hs). simpl in Hs.
  destruct Hs as (_ & _ & _ & Hrt & _).
  unfold _initialize, add_bending_energy. rewrite Hnet. simpl.
  by rewrite Hrt, Hreg.
Qed.

Lemma add_bending_energy_self (n n' : Net) (ti si : Z) (kind : pyval) :
  py_getitem (regularizer_type (self n)) 1 = Ok kind ->
  py_eq_str kind "bending_energy" = true ->
  add_bending_energy n ti si = Ok n' ->
  regularizer_type (self n') = regularizer_type (self n) /\
  cost_kwargs (self n') = delete "bending_energy_increment_rate" (cost_kwargs (self n)).
Proof.
  intros Hk Hb. unfold add_bending_energy. rewrite Hk, bind_Ok, Hb. intros H.
  apply bind_Ok_inv in H as ([rate ckw] & Hpop & H).
  apply bind_Ok_inv in H as (b0 & _ & H).
  apply bind_Ok_inv in H as (base & _ & H).
  injection H as <-. simpl. split; [done|].
  unfold dict_pop_strict in Hpop.
  destruct (cost_kwargs (self n) !! "bending_energy_increment_rate"); [|discriminate].
  by injection Hpop as _ <-.
Qed.

Lemma add_bending_energy_skip (n : Net) (ti si : Z) (kind : pyval) :
  py_getitem (regularizer_type (self n)) 1 = Ok kind ->
  py_eq_str kind "bending_energy" = false ->
  add_bending_energy n ti si = Ok n.
Proof. intros Hk Hb. unfold add_bending_energy. by rewrite Hk, bind_Ok, Hb. Qed.

(** X12. The bending energy can be added once only: [_initialize] pops
    ['bending_energy_increment_rate'] from the model's [cost_kwargs], so on
    the model that a first initialization leaves behind, a second one (with
    any trainer and any arguments) raises a KeyError. *)
Theorem bending_energy_only_once (t t' : Trainer) (kind : pyval) (r : Initialized)
    (ti si de ti' si' de' : Z) (clip clip' : bool) (pe pe' : pyval) :
  py_getitem (regularizer_type (self (net t))) 1 = Ok kind ->
  py_eq_str kind "bending_energy" = true ->
  _initialize t ti si de clip pe = Ok r ->
  net t' = init_net r ->
  _initialize t' ti' si' de' clip' pe'
    = Raise (KeyError "bending_energy_increment_rate").
Proof.
  intros Hk Hb Hinit Hnet. unfold _initialize in Hinit.
  apply bind_Ok_inv in Hinit as (n & Hn & H).
  apply bind_Ok_inv in H as ([[[o op] ilr] lrn] & _ & H).
  apply bind_Ok_inv in H as (pre & _ & H). injection H as <-. simpl in Hnet.
  destruct (add_bending_energy_self _ _ _ _ _ Hk Hb Hn) as [Hrt Hck].
  unfold _initialize, add_bending_energy. rewrite Hnet, Hrt, Hk, bind_Ok, Hb, Hck.
  unfold dict_pop_strict. by rewrite lookup_delete_eq.
Qed.

(** ** Validation *)

Lemma _initialize_without_bending_energy (t : Trainer) (ti si de : Z) (clip : bool)
    (pe kind : pyval) (r : Initialized) :
  py_getitem (regularizer_type (self (net t))) 1 = Ok kind ->
  py_eq_str kind "bending_energy" = false ->
  _initialize t ti si de clip pe = Ok r ->
  init_net r = net t.
Proof.
  intros Hk Hb. unfold _initialize.
  rewrite (add_bending_energy_skip _ _ _ _ Hk Hb), bind_Ok. intros H.
  apply bind_Ok_inv in H as ([[[o op] ilr] lrn] & _ & H).
  apply bind_Ok_inv in H as (pre & _ & H). by injection H as <-.
Qed.

(** X13. [store_prediction] fetches [net.bending_energy] and
    [net.num_neg_jacob], which exist only after [_initialize] has added the
    bending energy.  For a constructed model whose second regularizer is
    not ['bending_energy'], validation raises an AttributeError as soon as
    it processes one item, whatever the data are. *)
Theorem validation_needs_bending_energy ch nc na (ck ak : option kwargs) (nk : kwargs)
    (t : Trainer) (kind : pyval) (r : Initialized) (ti si de : Z) (clip : bool)
    (pe : pyval) (sess : Z) (test_data_provider : list batch)
    (validation_batch_size : option Z) (dropout_rate : Q)
    (size : nat) (data_indices : list nat) (index : nat) (data : batch) :
  __init__ ch nc na ck ak nk = Ok (net t) ->
  py_getitem (regularizer_type (self (net t))) 1 = Ok kind ->
  py_eq_str kind "bending_energy" = false ->
  _initialize t ti si de clip pe = Ok r ->
  validation_indices (length test_data_provider) validation_batch_size
    = Ok (S size, data_indices) ->
  data_indices !! 0%nat = Some index ->
  test_data_provider !! index = Some data ->
  store_prediction (init_net r) sess test_data_provider validation_batch_size dropout_rate
    = Raise (AttributeError "bending_energy").
Proof.
  intros Hinit Hk Hb Hr Hidx Hi Hd.
  rewrite (_initialize_without_bending_energy _ _ _ _ _ _ _ _ Hk Hb Hr).
  apply __init___inv in Hinit as (s & nodes & seg & _ & _ & _ & ->).
  unfold store_prediction. rewrite Hidx, bind_Ok.
  cbn [seq for_each]. unfold list_getitem. rewrite Hi, bind_Ok, Hd, bind_Ok.
  reflexivity.
Qed.

(** ** Prediction *)

(** X14. On a model built by the constructor of [NetForPrediction],
    [predict_scale] feeds the target image, the atlas images, labels
    and weights with [train_phase] false, and no target label or weight.
    For a test item with these four keys, atlas stacks of [n_atlas] slices
    and a displacement field of [n_atlas] slices, it returns the atlas
    probability maps at the finest scale and the atlas weights, both
    resampled linearly by the field.  A test item that lacks one of the
    four keys makes it raise. *)
Theorem predict_scale_warps_atlases ch nc na (ck : option kwargs) (nk : kwargs)
    (net : Net) :
  NetForPrediction.__init__ ch nc na ck nk = Ok net ->
  exists sigma0,
    py_getitem (prob_sigma (self net)) 0 = Ok sigma0 /\
    (forall sess test_data dropout ti ai al aw D,
       item_target_image test_data = Some ti ->
       item_atlases_image test_data = Some ai ->
       item_atlases_label test_data = Some al -> length al = na ->
       item_atlases_weight test_data = Some aw -> length aw = na ->
       ddf (self net)
         {| feed_target_image := Some ti; feed_target_label := None;
            feed_target_weight := None; feed_atlases_image := Some ai;
            feed_atlases_label := Some al; feed_atlases_weight := Some aw;
            feed_train_phase := Some false; feed_dropout_rate := Some dropout;
            global_step := sess |} = Ok D ->
       length D = na ->
       NetForPrediction.predict_scale net sess test_data dropout
         = Ok (zip_with (fun l d => SpatialTransformer (Some "linear")
                                      (get_prob_from_label l sigma0 (prob_eps (self net))) d)
                        al D,
               zip_with (SpatialTransformer (Some "linear")) aw D)) /\
    (forall sess test_data dropout,
       item_target_image test_data = None \/ item_atlases_image test_data = None \/
       item_atlases_label test_data = None \/ item_atlases_weight test_data = None ->
       exists key, NetForPrediction.predict_scale net sess test_data dropout = Raise (KeyError key)).
Proof.
  unfold NetForPrediction.__init__. intros Hinit.
  apply __init___inv in Hinit as (s & nodes & seg & Hs & Hcost & Hseg & ->). simpl.
  apply build_graph_inv in Hs as (raw & sigma0 & Hs). simpl in Hs.
  destruct Hs as (_ & _ & _ & _ & _ & _ & Htp & Hlab & Hwei & Haug & _ & _ & Hs0
                  & _ & Hwap & Hwaw & _).
  unfold get_segmenter in Hseg.
  apply bind_Ok_inv in Hseg as (prob0 & Hp0 & _).
  pose proof (first_scale _ _ _ _ _ _ _ _ _ Hwap Hp0 Hs0) as Hat.
  exists sigma0. split; [done|]. split.
  - intros sess td dr ti ai al aw D Hti Hai Hal HlenL Haw HlenW HD HlenD.
    unfold NetForPrediction.predict_scale. simpl. rewrite Hp0, bind_Ok, Hti, Hai, Hal, Haw. simpl.
    rewrite (warp_atlases_prob_at_eval na _ _ _ _ _ _ _ al D Hat); try done.
    + rewrite bind_Ok.
      rewrite (_get_warped_atlases_eval na _ _ _ _ _ aw D Hwaw); try done.
      rewrite Haug.
      by apply (augmented_atlases_fed _ _ _ feed_atlases_weight "atlases_weight" na
                  atlases_weight _ false aw).
    + rewrite Haug.
      by apply (augmented_atlases_fed _ _ _ feed_atlases_label "atlases_label" na
                  atlases_label _ false al).
  - intros sess td dr Hnone. unfold NetForPrediction.predict_scale. simpl. rewrite Hp0, bind_Ok.
    destruct (item_target_image td); [|by eexists].
    destruct (item_atlases_image td); [|by eexists].
    destruct (item_atlases_label td); [|by eexists].
    destruct (item_atlases_weight td); [|by eexists].
    by destruct Hnone as [?|[?|[?|?]]].
Qed.

(** ** The validation metrics *)

Lemma for_each_Ok_inv {A B} (f : A -> result B) (l : list A) (r : list B) :
  for_each f l = Ok r -> Forall2 (fun x y => f x = Ok y) l r.
Proof.
  revert r. induction l as [|x l IH]; simpl; intros r H.
  - injection H as <-. constructor.
  - apply bind_Ok_inv in H as (y & Hy & H).
    apply bind_Ok_inv in H as (ys & Hys & H). injection H as <-.
    constructor; [done|]. by apply IH.
Qed.

Lemma add_bending_energy_num_neg_jacob (n n' : Net) (ti si : Z) (kind : pyval) :
  py_getitem (regularizer_type (self n)) 1 = Ok kind ->
  py_eq_str kind "bending_energy" = true ->
  add_bending_energy n ti si = Ok n' ->
  exists nj, num_neg_jacob n' = Some nj /\
             forall env v, nj env = Ok v -> v = 0%Q \/ v = 1%Q.
Proof.
  intros Hk Hb. unfold add_bending_energy. rewrite Hk, bind_Ok, Hb. intros H.
  apply bind_Ok_inv in H as ([rate ckw] & _ & H).
  apply bind_Ok_inv in H as (b0 & _ & H).
  apply bind_Ok_inv in H as (base & _ & H).
  injection H as <-. simpl. eexists. split; [reflexivity|].
  intros env v Hv. apply bind_Ok_inv in Hv as (j & _ & Hv). injection Hv as <-.
  apply count_nonzero_less_equal_0_cases.
Qed.

Lemma tensor_sum_bounded (l : tensor) :
  Forall (fun x => x = 0%Q \/ x = 1%Q) l ->
  (0 <= tensor_sum l)%Q /\ (tensor_sum l <= inject_Z (Z.of_nat (length l)))%Q.
Proof.
  induction 1 as [|x l Hx _ [IH0 IH1]].
  - split; apply Qle_refl.
  - simpl length. rewrite Nat2Z.inj_succ. unfold Z.succ. rewrite inject_Z_plus.
    change (tensor_sum (x :: l)) with (x + tensor_sum l)%Q.
    destruct Hx as [->| ->]; split.
    + by rewrite Qplus_0_l.
    + rewrite Qplus_0_l. eapply Qle_trans; [exact IH1|].
      rewrite <- (Qplus_0_r (inject_Z (Z.of_nat (length l)))) at 1.
      by apply Qplus_le_compat; [apply Qle_refl|].
    + replace 0%Q with (0 + 0)%Q by reflexivity. by apply Qplus_le_compat.
    + rewrite Qplus_comm. by apply Qplus_le_compat; [|apply Qle_refl].
Qed.

(** X15. Each validation row takes its [num_neg_jacob] from the node that
    [_initialize] attached to the model, which counts the non-zeros of a
    single comparison: whenever validation succeeds on at least one item,
    the metric ['# Negative Jacobians'] lies between 0 and 1, however many
    pixels fold. *)
Theorem negative_jacobians_metric_bounded (t : Trainer) (kind : pyval) (r : Initialized)
    (ti si de : Z) (clip : bool) (pe : pyval) (sess : Z)
    (test_data_provider : list batch) (validation_batch_size : option Z)
    (dropout_rate : Q) (size : nat) (data_indices : list nat) (m : ValidationMetrics) :
  py_getitem (regularizer_type (self (net t))) 1 = Ok kind ->
  py_eq_str kind "bending_energy" = true ->
  _initialize t ti si de clip pe = Ok r ->
  validation_indices (length test_data_provider) validation_batch_size
    = Ok (S size, data_indices) ->
  store_prediction (init_net r) sess test_data_provider validation_batch_size dropout_rate
    = Ok m ->
  (0 <= metric_Negative_Jacobians m)%Q /\ (metric_Negative_Jacobians m <= 1)%Q.
Proof.
  intros Hk Hb Hinit Hidx Hstore. unfold _initialize in Hinit.
  apply bind_Ok_inv in Hinit as (n & Hn & H).
  apply bind_Ok_inv in H as ([[[o op] ilr] lrn] & _ & H).
  apply bind_Ok_inv in H as (pre & _ & H). injection H as <-. simpl in Hstore.
  destruct (add_bending_energy_num_neg_jacob _ _ _ _ _ Hk Hb Hn) as (nj & Hnj & Hcases).
  unfold store_prediction in Hstore. rewrite Hidx, bind_Ok in Hstore.
  apply bind_Ok_inv in Hstore as (rows & Hrows & Hm). injection Hm as <-. simpl.
  pose proof (for_each_length _ _ _ Hrows) as Hlen. rewrite length_seq in Hlen.
  apply for_each_Ok_inv in Hrows.
  assert (Hall : Forall (fun x => x = 0%Q \/ x = 1%Q) (map row_num_neg_jacob rows)).
  { apply Forall_map. eapply Forall2_Forall_r; [exact Hrows|].
    apply Forall_forall. intros i _ row Hrow.
    apply bind_Ok_inv in Hrow as (index & _ & Hrow).
    apply bind_Ok_inv in Hrow as (data & _ & Hrow).
    unfold validation_row in Hrow. rewrite Hnj in Hrow.
    apply bind_Ok_inv in Hrow as (be & _ & Hrow).
    change (getattr "num_neg_jacob" (Some nj)) with (Ok nj) in Hrow.
    rewrite bind_Ok in Hrow.
    repeat (apply bind_Ok_inv in Hrow as (? & ? & Hrow)).
    injection Hrow as <-. simpl. eapply Hcases.
    match goal with Hv : nj _ = Ok _ |- _ => exact Hv end. }
  destruct (tensor_sum_bounded _ Hall) as [H0 H1].
  rewrite length_map, Hlen in H1.
  unfold reduce_mean. rewrite length_map, Hlen.
  assert (Hpos : (0 < inject_Z (Z.of_nat (S size)))%Q).
  { unfold Qlt. simpl. lia. }
  split.
  - apply Qle_shift_div_l; [done|]. by rewrite Qmult_0_l.
  - apply Qle_shift_div_r; [done|]. by rewrite Qmult_1_l.
Qed.

(** ** The pre-training phase *)

Section PretrainingProperties.
Context {session : Type} (run : session -> run_env -> result (session * Q * Q)).

Lemma pretrain_loop_one_pass (pretrain_steps display_step : Z) (dropout : Q)
    (batches : list batch) :
  display_step <> 0 ->
  forall (step : Z) (sess : session) (total : Q) (lr : option Q),
    step + Z.of_nat (length batches) <= pretrain_steps ->
    pretrain_loop session run pretrain_steps display_step dropout step batches sess total lr
    = one_pass run dropout batches sess total lr.
Proof.
  intros Hd. induction batches as [|b rest IH]; intros step sess total lr Hle; [done|].
  simpl in *. destruct (Z.ltb_spec step pretrain_steps) as [_|]; [|lia].
  destruct (pretrain_feed b dropout) as [env|e]; [|done]. simpl.
  destruct (run sess env) as [[[sess' loss] lr']|e]; [|done]. simpl.
  destruct (Z.eqb_spec display_step 0) as [|_]; [done|].
  apply IH. lia.
Qed.

Lemma pretrain_loop_no_step (pretrain_steps display_step : Z) (dropout : Q)
    (batches : list batch) (step : Z) (sess : session) (total : Q) (lr : option Q) :
  pretrain_steps <= step \/ batches = [] ->
  pretrain_loop session run pretrain_steps display_step dropout step batches sess total lr
  = Ok (sess, total, lr).
Proof.
  intros H. destruct batches as [|b rest]; [done|]. simpl.
  destruct H as [H|]; [|done].
  by destruct (Z.ltb_spec step pretrain_steps) as [|_]; [lia|].
Qed.

(** X16. With a positive [pretrain_epochs], no ['pretrain_steps'] keyword
    and a non-zero [display_step], the pre-training phase runs exactly one
    step on every batch of the loader, in order, whatever the number of
    pre-training epochs is; the average loss that it logs is the sum of
    the losses of that single pass divided by
    [pretrain_epochs * len(train_data_loader)]. *)
Theorem pretraining_is_one_pass (train_data_loader : list batch)
    (pretrain_epochs display_step : Z) (dropout : Q) (sess : session) :
  0 < pretrain_epochs -> display_step <> 0 -> train_data_loader <> [] ->
  pretraining session run train_data_loader pretrain_epochs None display_step dropout sess
  = match one_pass run dropout train_data_loader sess 0%Q None with
    | Raise e => Fails e
    | Ok (sess', total, Some lr) =>
        Done (sess',
              Some (total / inject_Z (pretrain_epochs
                                      * Z.of_nat (length train_data_loader)), lr)%Q)
    | Ok (_, _, None) => UnboundLocalError "pretrain_lr"
    end.
Proof.
  intros Hpe Hd Hne. unfold pretraining.
  destruct (Z.eqb_spec pretrain_epochs 0) as [|_]; [lia|]. simpl default.
  assert (Hlen : 0 < Z.of_nat (length train_data_loader)).
  { destruct train_data_loader; [done|]. simpl length. lia. }
  rewrite pretrain_loop_one_pass by (done || nia).
  destruct (one_pass run dropout train_data_loader sess 0%Q None)
    as [[[sess' total] lr]|e]; [|done].
  by destruct (Z.eqb_spec (pretrain_epochs * Z.of_nat (length train_data_loader)) 0)
    as [|_]; [nia|].
Qed.

(** X17. When the step budget of the pre-training phase is not positive, or
    the loader is empty, no step is executed and the phase cannot log its
    summary: with a budget of zero steps the average loss is a division by
    zero, otherwise [pretrain_lr] was never assigned.  A negative
    [pretrain_epochs] is such a case. *)
Theorem pretraining_without_steps (train_data_loader : list batch)
    (pretrain_epochs : Z) (pretrain_steps_kwarg : option Z) (display_step : Z)
    (dropout : Q) (sess : session) :
  pretrain_epochs <> 0 ->
  let pretrain_steps :=
    default (pretrain_epochs * Z.of_nat (length train_data_loader)) pretrain_steps_kwarg in
  pretrain_steps <= 0 \/ train_data_loader = [] ->
  pretraining session run train_data_loader pretrain_epochs pretrain_steps_kwarg
    display_step dropout sess
  = if pretrain_steps =? 0 then Fails ZeroDivisionError
    else UnboundLocalError "pretrain_lr".
Proof.
  intros Hpe ps Hno. unfold pretraining.
  destruct (Z.eqb_spec pretrain_epochs 0) as [|_]; [done|]. fold ps.
  rewrite pretrain_loop_no_step; [done|].
  destruct Hno as [?|?]; [left; lia|by right].
Qed.

(** X18. [display_step = 0] stops the pre-training phase with a division
    by zero in [step % display_step], after the first step has been run on
    the session. *)
Theorem pretraining_display_step_zero (b : batch) (rest : list batch)
    (pretrain_epochs : Z) (pretrain_steps_kwarg : option Z) (dropout : Q)
    (sess : session) (env : run_env) (out : session * Q * Q) :
  pretrain_epochs <> 0 ->
  0 < default (pretrain_epochs * Z.of_nat (length (b :: rest))) pretrain_steps_kwarg ->
  pretrain_feed b dropout = Ok env ->
  run sess env = Ok out ->
  pretraining session run (b :: rest) pretrain_epochs pretrain_steps_kwarg 0 dropout sess
  = Fails ZeroDivisionError.
Proof.
  intros Hpe Hps Hfeed Hrun. unfold pretraining.
  destruct (Z.eqb_spec pretrain_epochs 0) as [|_]; [done|].
  cbn [pretrain_loop].
  destruct (Z.ltb_spec 0 (default (pretrain_epochs * Z.of_nat (length (b :: rest)))
                            pretrain_steps_kwarg)) as [_|]; [|lia].
  rewrite Hfeed, bind_Ok, Hrun. by destruct out as [[sess' loss] lr].
Qed.

End PretrainingProperties.

(** ** Gradients *)

Lemma fill_zeros_spec (vars : list tensor) :
  forall (grads : list (option tensor)),
    length grads = length vars ->
    let out := map (fun vg : tensor * option tensor =>
                      match snd vg with
                      | Some grad => grad
                      | None => tf_zeros_like (fst vg)
                      end) (zip vars grads) in
    length out = length vars /\
    forall i var, vars !! i = Some var ->
      match grads !! i with
      | Some (Some grad) => out !! i = Some grad
      | _ => out !! i = Some (tf_zeros_like var)
      end.
Proof.
  induction vars as [|v vars IH]; intros [|g grads] Hlen; simpl in *; try done.
  injection Hlen as Hlen. destruct (IH grads Hlen) as [IHlen IHi].
  split; [by rewrite IHlen|].
  intros [|i] var Hv; simpl in *.
  - injection Hv as <-. by destruct g.
  - by apply IHi.
Qed.

(** X19. Given one gradient entry per variable, [_compute_gradients]
    returns one tensor per variable: the gradient where [tf.gradients]
    found one, and otherwise a tensor of zeros with the size of the
    variable, so that no entry of the result is missing. *)
Theorem compute_gradients_fills_zeros {A : Type}
    (tf_gradients : A -> list tensor -> list (option tensor)) (t : A)
    (var_list : list tensor) :
  length (tf_gradients t var_list) = length var_list ->
  length (_compute_gradients tf_gradients t var_list) = length var_list /\
  forall i var, var_list !! i = Some var ->
    match tf_gradients t var_list !! i with
    | Some (Some grad) => _compute_gradients tf_gradients t var_list !! i = Some grad
    | _ => exists zeros,
             _compute_gradients tf_gradients t var_list !! i = Some zeros /\
             length zeros = length var /\ Forall (fun x => x = 0%Q) zeros
    end.
Proof.
  intros Hlen. unfold _compute_gradients.
  destruct (fill_zeros_spec var_list _ Hlen) as [Hl Hi]. split; [done|].
  intros i var Hv. specialize (Hi i var Hv).
  assert (Hz : length (tf_zeros_like var) = length var
               /\ Forall (fun x => x = 0%Q) (tf_zeros_like var)).
  { unfold tf_zeros_like. split; [by rewrite length_map|].
    apply Forall_map. by apply Forall_forall. }
  destruct (tf_gradients t var_list !! i) as [[grad|]|]; [done|by eexists..].
Qed.

End TrainerProperties.

(** ** The further properties on concrete inputs *)

Import OneDimRun.

Lemma build_net_multi_scale :
  build "multi_scale_dice" "ddf_label" false 1 0 = Ok net_multi_scale.
Proof. exact (proj2_sig built_multi_scale). Qed.

Lemma build_net_plain :
  __init__ 1 2 1 (cost_config_with [VStr "l2"; VStr "none"]) None
    (net_config "ddf_label" false 1) = Ok net_plain.
Proof. exact (proj2_sig built_plain). Qed.

Lemma build_net_single :
  __init__ 1 2 1 (cost_config_with [VStr "l2"]) None (net_config "ddf_label" false 1)
  = Ok net_single.
Proof. exact (proj2_sig built_single). Qed.

Lemma build_net_SSD : build "SSD" "ddf_label" false 1 0 = Ok net_SSD.
Proof. exact (proj2_sig built_SSD). Qed.

Lemma augmented_data_by_phase_witness :
  target_label (augmented_data (self net_label)) env1
    = target_label (data (self net_label)) env1 /\
  atlases_label (augmented_data (self net_label)) env1
    = atlases_label (data (self net_label)) env1.
Proof.
  pose proof (augmented_data_by_phase (E:=one_dim) 1 2 1 _ None _ net_label
                build_net_label env1) as H.
  destruct H as (_ & Hal & _ & _ & Htl & _). split; assumption.
Defined.

Lemma pretrain_cost_needs_images_only_witness :
  (exists D, ddf (self net_label) env_predict = Ok D /\
             pretrain_cost net_label env_predict
               = Ok (reduce_mean_stacked (stacked_map tf_square D))) /\
  raises (pretrain_cost net_label env_no_target).
Proof.
  destruct (pretrain_cost_needs_images_only (E:=one_dim) 1 2 1 _ None _ net_label
              build_net_label) as [Hfed Hunfed].
  split.
  - apply (Hfed env_predict [0; 0]%Q [[1; 0]%Q] 0%Q false); reflexivity.
  - apply Hunfed. reflexivity.
Defined.

Lemma class_prior_witness :
  cost_kwargs (self net_label) !! "prior_prob" = None /\
  length (pi (self net_label)) = 2%nat /\
  pi (self net_label) = replicate 2 (1 / inject_Z (Z.of_nat 2))%Q.
Proof.
  destruct (class_prior (E:=one_dim) 1 2 1 _ None _ net_label build_net_label)
    as (Hpop & Hlen & Hprior).
  destruct Hprior as (_ & Hpi). repeat split; assumption.
Defined.

Lemma one_node_per_scale_witness :
  py_len (prob_sigma (self net_multi_scale))
    = Ok (length (warped_atlases_prob (self net_multi_scale))) /\
  length (atlases_joint_prob (self net_multi_scale))
    = length (warped_atlases_prob (self net_multi_scale)) /\
  (0 < length (warped_atlases_prob (self net_multi_scale)))%nat.
Proof.
  destruct (one_node_per_scale (E:=one_dim) 1 2 1 _ None _ net_multi_scale
              build_net_multi_scale) as (Hlen & Hjoint & Hpos & _).
  repeat split; assumption.
Defined.

Lemma network_keywords_clash_witness :
  raises (__init__ 1 2 1 (Some (cost_config "L2_norm" 0)) None
            (<["n_atlas" := VInt 1]> (net_config "ddf_label" false 1))).
Proof.
  apply (network_keywords_clash (E:=one_dim) 1 2 1 _ None _ "n_atlas").
  - simpl. tauto.
  - exists (VInt 1). reflexivity.
Defined.

Lemma pretrain_cost_nonnegative_witness :
  (exists p, pretrain_cost net_label env1 = Ok p /\ (0 <= p)%Q) /\
  (exists p, pretrain_cost net_label_zero env_zero = Ok p /\ (p == 0)%Q).
Proof.
  split.
  - destruct (ok_value (pretrain_cost net_label env1) eq_refl) as [p Hp].
    destruct (pretrain_cost_nonnegative (E:=one_dim) 1 2 1 _ None _ net_label
                build_net_label env1 p Hp) as [Hnn _].
    exists p. split; assumption.
  - destruct (ok_value (pretrain_cost net_label_zero env_zero) eq_refl) as [p Hp].
    destruct (pretrain_cost_nonnegative (E:=one_dim) 1 2 1 _ None _ net_label_zero
                build_net_label_zero env_zero p Hp) as [_ Hzero].
    assert (HD : ddf (self net_label_zero) env_zero = Ok [[0; 0]]%Q)
      by (vm_compute; reflexivity).
    exists p. split; [assumption|].
    apply (Hzero _ HD); [discriminate | repeat constructor; reflexivity].
Defined.


Lemma momentum_is_fixed_witness :
  exists lr momentum okw,
    init_optimizer (proj1_sig initialized_momentum) = MomentumOptimizer lr momentum okw /\
    momentum = VFloat (9 # 10).
Proof.
  assert (Ho : init_optimizer (proj1_sig initialized_momentum)
               = MomentumOptimizer
                   (ExponentialDecay (VFloat (1 # 1000)) (VInt 100000) (VFloat (999 # 1000)))
                   (VFloat (9 # 10)) ∅) by reflexivity.
  destruct (momentum_is_fixed (E:=one_dim) _ _ _ _ _ _ _ _ _ _
              (proj2_sig initialized_momentum) Ho) as (Hm & _).
  eexists _, _, _. split; [exact Ho|exact Hm].
Defined.

Lemma learning_rate_schedule_witness :
  init_lr (proj1_sig initialized_momentum) = VFloat (1 # 1000) /\
  init_lr (proj1_sig initialized_clr) = VFloat (1 # 1000).
Proof.
  split.
  - exact (proj1 (learning_rate_schedule (E:=one_dim) _ _ _ _ _ _ _
                    (proj2_sig initialized_momentum))).
  - exact (proj1 (learning_rate_schedule (E:=one_dim) _ _ _ _ _ _ _
                    (proj2_sig initialized_clr))).
Defined.

Lemma optimizer_keywords_clash_witness :
  raises (_initialize
            {| net := net_label; batch_size := 1; norm_grads := false;
               optimizer_name := VStr "momentum"; num_workers := 0;
               opt_kwargs := {["momentum" := VFloat (1 # 2)]};
               learning_rate := VFloat (1 # 1000) |} 10 1 1 false (VInt 5)).
Proof.
  apply (optimizer_keywords_clash (E:=one_dim)). right.
  split; [reflexivity|]. exists (VFloat (1 # 2)). reflexivity.
Defined.

Lemma regularizer_needs_two_entries_witness :
  _initialize (trainer net_single "adam") 10 1 1 false (VInt 5) = Raise IndexError.
Proof.
  apply (regularizer_needs_two_entries (E:=one_dim) 1 2 1
           (cost_config_with [VStr "l2"]) None (net_config "ddf_label" false 1)
           (trainer net_single "adam") (VStr "l2")).
  - exact build_net_single.
  - reflexivity.
Defined.

Lemma bending_energy_only_once_witness :
  _initialize (trainer (init_net (proj1_sig initialized_momentum)) "adam") 20 1 1 false
    (VInt 0)
  = Raise (KeyError "bending_energy_increment_rate").
Proof.
  apply (bending_energy_only_once (E:=one_dim) (trainer net_label "momentum") _
           (VStr "bending_energy") (proj1_sig initialized_momentum)
           10 1 1 20 1 1 false false (VInt 5) (VInt 0)).
  - reflexivity.
  - reflexivity.
  - exact (proj2_sig initialized_momentum).
  - reflexivity.
Defined.

Lemma validation_needs_bending_energy_witness :
  store_prediction (init_net (proj1_sig initialized_plain)) 0
    [item [0; 0]%Q [1; 0]%Q] None 0%Q
  = Raise (AttributeError "bending_energy").
Proof.
  apply (validation_needs_bending_energy (E:=one_dim) (R:=one_dim_run) 1 2 1
           (cost_config_with [VStr "l2"; VStr "none"]) None (net_config "ddf_label" false 1)
           (trainer net_plain "adam") (VStr "none") (proj1_sig initialized_plain)
           10 1 1 false (VInt 0) 0 [item [0; 0]%Q [1; 0]%Q] None 0%Q
           0%nat [0%nat] 0%nat (item [0; 0]%Q [1; 0]%Q)).
  - exact build_net_plain.
  - reflexivity.
  - reflexivity.
  - exact (proj2_sig initialized_plain).
  - reflexivity.
  - reflexivity.
  - reflexivity.
Defined.

Lemma predict_scale_warps_atlases_witness :
  (exists sigma0,
     py_getitem (prob_sigma (self net_label)) 0 = Ok sigma0 /\
     NetForPrediction.predict_scale net_label 0 (test_item [0; 0]%Q [1; 0]%Q) 0%Q
     = Ok (zip_with (fun l d => SpatialTransformer (Some "linear")
                                  (get_prob_from_label l sigma0 (prob_eps (self net_label))) d)
                    [[1; 0]%Q] [[1; 0]%Q],
           zip_with (SpatialTransformer (Some "linear")) [[1; 1]%Q] [[1; 0]%Q])) /\
  exists key,
    NetForPrediction.predict_scale net_label 0
      {| item_target_image := Some [0; 0]%Q; item_target_label := None;
         item_target_weight := None; item_atlases_image := Some [[1; 0]%Q];
         item_atlases_label := Some [[1; 0]%Q]; item_atlases_weight := None |} 0%Q
    = Raise (KeyError key).
Proof.
  destruct (predict_scale_warps_atlases (E:=one_dim) 1 2 1 _ _ net_label
              build_net_label) as (sigma0 & Hs0 & Hok & Hkey).
  split.
  - exists sigma0. split; [assumption|].
    apply (Hok 0 (test_item [0; 0]%Q [1; 0]%Q) 0%Q [0; 0]%Q [[1; 0]%Q] [[1; 0]%Q]
             [[1; 1]%Q] [[1; 0]%Q]); reflexivity.
  - apply Hkey. right. right. right. reflexivity.
Defined.

Lemma negative_jacobians_metric_bounded_witness :
  (0 <= metric_Negative_Jacobians (proj1_sig validated))%Q /\
  (metric_Negative_Jacobians (proj1_sig validated) <= 1)%Q.
Proof.
  apply (negative_jacobians_metric_bounded (E:=one_dim) (R:=one_dim_run)
           (trainer net_label "momentum") (VStr "bending_energy")
           (proj1_sig initialized_momentum) 10 1 1 false (VInt 5) 0
           [item [0; 0; 0]%Q [0; -2; 0]%Q] None 0%Q 0%nat [0%nat] (proj1_sig validated)).
  - reflexivity.
  - reflexivity.
  - exact (proj2_sig initialized_momentum).
  - reflexivity.
  - exact (proj2_sig validated).
Defined.

Lemma pretraining_is_one_pass_witness :
  pretraining nat (run_step net_label) [item [0; 0]%Q [1; 0]%Q; item [1; 0]%Q [1; 0]%Q]
    5 None 1 0%Q 0%nat
  = match one_pass (run_step net_label) 0%Q
            [item [0; 0]%Q [1; 0]%Q; item [1; 0]%Q [1; 0]%Q] 0%nat 0%Q None with
    | Raise e => Fails e
    | Ok (sess', total, Some lr) =>
        Done (sess', Some (total / inject_Z (5 * Z.of_nat 2), lr)%Q)
    | Ok (_, _, None) => UnboundLocalError "pretrain_lr"
    end.
Proof.
  apply (pretraining_is_one_pass (run_step net_label)
           [item [0; 0]%Q [1; 0]%Q; item [1; 0]%Q [1; 0]%Q] 5 1 0%Q 0%nat).
  - lia.
  - lia.
  - discriminate.
Defined.

Lemma pretraining_without_steps_witness :
  pretraining nat (run_step net_label) [item [0; 0]%Q [1; 0]%Q] (-1) None 1 0%Q 0%nat
    = UnboundLocalError "pretrain_lr" /\
  pretraining nat (run_step net_label) [] 5 None 1 0%Q 0%nat = Fails ZeroDivisionError.
Proof.
  split.
  - apply (pretraining_without_steps (run_step net_label) [item [0; 0]%Q [1; 0]%Q]
             (-1) None 1 0%Q 0%nat); [lia|]. left. simpl. lia.
  - apply (pretraining_without_steps (run_step net_label) [] 5 None 1 0%Q 0%nat); [lia|].
    right. reflexivity.
Defined.

Lemma pretraining_display_step_zero_witness :
  pretraining nat (run_step net_label) [item [0; 0]%Q [1; 0]%Q] 5 None 0 0%Q 0%nat
  = Fails ZeroDivisionError.
Proof.
  destruct (ok_value (pretrain_feed (item [0; 0]%Q [1; 0]%Q) 0%Q) eq_refl) as [env Henv].
  assert (Hrun : exists out, run_step net_label 0%nat env = Ok out).
  { revert Henv. intros [= <-]. eexists. vm_compute. reflexivity. }
  destruct Hrun as [out Hrun].
  apply (pretraining_display_step_zero (run_step net_label) (item [0; 0]%Q [1; 0]%Q) []
           5 None 0%Q 0%nat env out).
  - lia.
  - simpl. lia.
  - exact Henv.
  - exact Hrun.
Defined.

Lemma compute_gradients_fills_zeros_witness :
  length (_compute_gradients gradients_of_first tt [[1; 2]; [3]]%Q) = 2%nat /\
  exists zeros,
    _compute_gradients gradients_of_first tt [[1; 2]; [3]]%Q !! 1%nat = Some zeros /\
    length zeros = 1%nat /\ Forall (fun x => x = 0%Q) zeros.
Proof.
  destruct (compute_gradients_fills_zeros gradients_of_first tt [[1; 2]; [3]]%Q eq_refl)
    as [Hlen Hi].
  split; [exact Hlen|]. exact (Hi 1%nat [3]%Q eq_refl).
Defined.
